(** * github_automation: commit logging, webhook handlers and signature check

    A shallow embedding of the JavaScript sources

      - src/controllers/githubController.js   (GitHub webhook handler)
      - src/controllers/webhookController.js  (generic webhook handler)
      - utils/googleDocsSync.js, the module githubController requires
        (Doc Sync client; in this tree its text is the last part of
        src/routes/githubWebhook.js)
      - src/scripts/process-commit.js         (post-commit processing script)
      - src/app.js                            (body parsing middleware)
      - test-commit.js                        (simulation of the post-commit
        hook; in this tree src/unnamed/part_000)
      - the GitHub webhook test client        (in this tree
        src/unnamed/part_001)
      - client-test.js                        (test client of the generic
        webhook)

    Conventions of the embedding.

      - A JavaScript string is represented by its UTF-8 encoding, as a Rocq
        [string] of bytes; this is what [Buffer.from], [fs.appendFile] and the
        HMAC see.  Strings are assumed well formed (no lone surrogates).
      - A JavaScript value is a [value]; objects are association lists in
        property order, [VUndefined] is JavaScript's [undefined].
      - A number is kept as the decimal that [Number::toString] prints for
        it: a literal is rounded to the nearest IEEE 754 double, and that
        double is written with the fewest digits that read back as it.
      - A call that may throw returns a [result]; asynchronous handlers are
        run to completion, in program order, over an explicit [world] that
        holds the file system, the Doc Sync singleton and the trace of
        external requests.  Console output is not part of the model, but the
        evaluation of a template literal passed to [console.log] is, since it
        can throw.
      - The outcome of an external service (Google Docs, the chat completion
        API, the clock) is read from an [externals] record. *)

From Stdlib Require Import String Ascii List ZArith NArith Bool Lia
  HexadecimalString DecimalString.
Import ListNotations.
Local Open Scope string_scope.

(* ================================================================== *)
(** * Bytes and hexadecimal                                            *)
(* ================================================================== *)

Module Bytes.
Local Open Scope Z_scope.

(** The bytes of a string, each as an integer in [0, 256). *)
Fixpoint of_string (s : string) : list Z :=
  match s with
  | EmptyString => []
  | String c r => Z.of_nat (nat_of_ascii c) :: of_string r
  end.

Definition hex_digit (n : Z) : ascii :=
  match n mod 16 with
  | 0 => "0" | 1 => "1" | 2 => "2" | 3 => "3" | 4 => "4" | 5 => "5"
  | 6 => "6" | 7 => "7" | 8 => "8" | 9 => "9" | 10 => "a" | 11 => "b"
  | 12 => "c" | 13 => "d" | 14 => "e" | _ => "f"
  end%char.

(** Lower-case hexadecimal, two digits per byte: [digest('hex')]. *)
Fixpoint to_hex (bs : list Z) : string :=
  match bs with
  | [] => EmptyString
  | b :: r => String (hex_digit (b / 16)) (String (hex_digit b) (to_hex r))
  end.

End Bytes.

(* ================================================================== *)
(** * SHA-256 and HMAC (node's [crypto.createHmac('sha256', key)])     *)
(* ================================================================== *)

Module SHA256.
Local Open Scope Z_scope.
Local Open Scope list_scope.

Definition w32 (x : Z) : Z := x mod 2 ^ 32.
Definition add32 (x y : Z) : Z := w32 (x + y).
Definition rotr (n x : Z) : Z :=
  Z.lor (Z.shiftr x n) (w32 (Z.shiftl x (32 - n))).
Definition not32 (x : Z) : Z := Z.lxor x (2 ^ 32 - 1).

Definition Ch (x y z : Z) := Z.lxor (Z.land x y) (Z.land (not32 x) z).
Definition Maj (x y z : Z) :=
  Z.lxor (Z.lxor (Z.land x y) (Z.land x z)) (Z.land y z).
Definition Sigma0 x := Z.lxor (Z.lxor (rotr 2 x) (rotr 13 x)) (rotr 22 x).
Definition Sigma1 x := Z.lxor (Z.lxor (rotr 6 x) (rotr 11 x)) (rotr 25 x).
Definition sigma0 x := Z.lxor (Z.lxor (rotr 7 x) (rotr 18 x)) (Z.shiftr x 3).
Definition sigma1 x := Z.lxor (Z.lxor (rotr 17 x) (rotr 19 x)) (Z.shiftr x 10).

(** The first sixty-four primes. *)
Definition primes : list Z :=
  [2; 3; 5; 7; 11; 13; 17; 19; 23; 29; 31; 37; 41; 43; 47; 53;
   59; 61; 67; 71; 73; 79; 83; 89; 97; 101; 103; 107; 109; 113; 127; 131;
   137; 139; 149; 151; 157; 163; 167; 173; 179; 181; 191; 193; 197; 199; 211; 223;
   227; 229; 233; 239; 241; 251; 257; 263; 269; 271; 277; 281; 283; 293; 307; 311].

(** The integer cube root, found bit by bit from bit [bits - 1] down. *)
Fixpoint cube_root_bits (bits : nat) (n r : Z) : Z :=
  match bits with
  | O => r
  | S b =>
      let c := r + 2 ^ Z.of_nat b in
      if c * c * c <=? n then cube_root_bits b n c else cube_root_bits b n r
  end.

Definition cube_root (n : Z) : Z := cube_root_bits 40 n 0.

(** The round constants: the first 32 bits of the fractional parts of the
    cube roots of the primes. *)
Definition K : list Z :=
  Eval vm_compute in map (fun p => w32 (cube_root (p * 2 ^ 96))) primes.

(** The eight working variables / chaining values. *)
Record regs := Regs { ra : Z; rb : Z; rc : Z; rd : Z;
                      re : Z; rf : Z; rg : Z; rh : Z }.

(** The initial hash value: the first 32 bits of the fractional parts of
    the square roots of the first eight primes. *)
Definition H0 : regs :=
  Eval vm_compute in
    let h p := w32 (Z.sqrt (p * 2 ^ 64)) in
    Regs (h 2) (h 3) (h 5) (h 7) (h 11) (h 13) (h 17) (h 19).

(** One round: [win] is the sliding window W[t] .. W[t+15]. *)
Definition round (st : regs * list Z) (k : Z) : regs * list Z :=
  let (r, win) := st in
  let w := nth 0 win 0 in
  let t1 := add32 (add32 (add32 (add32 (rh r) (Sigma1 (re r)))
                                 (Ch (re r) (rf r) (rg r))) k) w in
  let t2 := add32 (Sigma0 (ra r)) (Maj (ra r) (rb r) (rc r)) in
  let nw := add32 (add32 (add32 (sigma1 (nth 14 win 0)) (nth 9 win 0))
                         (sigma0 (nth 1 win 0))) w in
  (Regs (add32 t1 t2) (ra r) (rb r) (rc r) (add32 (rd r) t1) (re r) (rf r) (rg r),
   tl win ++ [nw]).

Fixpoint words_of_bytes (bs : list Z) : list Z :=
  match bs with
  | b0 :: b1 :: b2 :: b3 :: r =>
      (((b0 * 256 + b1) * 256 + b2) * 256 + b3) :: words_of_bytes r
  | _ => []
  end.

Definition compress (h : regs) (block : list Z) : regs :=
  let r := fst (fold_left round K (h, words_of_bytes block)) in
  Regs (add32 (ra h) (ra r)) (add32 (rb h) (rb r)) (add32 (rc h) (rc r))
       (add32 (rd h) (rd r)) (add32 (re h) (re r)) (add32 (rf h) (rf r))
       (add32 (rg h) (rg r)) (add32 (rh h) (rh r)).

Definition be_bytes (n : nat) (x : Z) : list Z :=
  map (fun i => (x / 256 ^ Z.of_nat i) mod 256) (rev (seq 0 n)).

Definition pad (msg : list Z) : list Z :=
  let len := Z.of_nat (length msg) in
  msg ++ [0x80] ++ repeat 0 (Z.to_nat ((55 - len) mod 64)) ++ be_bytes 8 (8 * len).

(** Fold [compress] over the 64-byte blocks; [n] bounds the number of blocks. *)
Fixpoint blocks (n : nat) (h : regs) (bs : list Z) : regs :=
  match n, bs with
  | S n', _ :: _ => blocks n' (compress h (firstn 64 bs)) (skipn 64 bs)
  | _, _ => h
  end.

Definition digest_bytes (r : regs) : list Z :=
  flat_map (be_bytes 4) [ra r; rb r; rc r; rd r; re r; rf r; rg r; rh r].

Definition sha256 (msg : list Z) : list Z :=
  let p := pad msg in digest_bytes (blocks (length p) H0 p).

End SHA256.

Module HMAC.
Local Open Scope Z_scope.
Local Open Scope list_scope.

Definition block_size : nat := 64.

Definition block_key (key : list Z) : list Z :=
  let k := if (Nat.ltb block_size (length key)) then SHA256.sha256 key else key in
  k ++ repeat 0 (block_size - length k).

Definition hmac_sha256 (key msg : list Z) : list Z :=
  let k := block_key key in
  let ipad := map (Z.lxor 0x36) k in
  let opad := map (Z.lxor 0x5c) k in
  SHA256.sha256 (opad ++ SHA256.sha256 (ipad ++ msg)).

(** [crypto.createHmac('sha256', key).update(msg).digest('hex')] *)
Definition hmac_sha256_hex (key msg : string) : string :=
  Bytes.to_hex (hmac_sha256 (Bytes.of_string key) (Bytes.of_string msg)).

End HMAC.

(* ================================================================== *)
(** * JavaScript values and the built-in conversions the sources use   *)
(* ================================================================== *)

Module Js.
Local Open Scope string_scope.

(** ** Exceptions *)

Inductive error : Type :=
| TypeError (message : string)
| RangeError (message : string)
| Error (message : string).

Definition error_message (e : error) : string :=
  match e with TypeError m | RangeError m | Error m => m end.

Inductive result (A : Type) : Type :=
| Ok (a : A)
| Throw (e : error).
Arguments Ok {A} a.
Arguments Throw {A} e.

Definition bind {A B} (m : result A) (f : A -> result B) : result B :=
  match m with Ok a => f a | Throw e => Throw e end.

Notation "'do' x <- m ; k" := (bind m (fun x => k))
  (at level 10, x name, m at level 100, k at level 200).

(** ** Numbers: NaN, the infinities, and [(-1)^neg * m * 10^e] *)

Inductive number : Type :=
| NaN
| Infinity (neg : bool)
| Finite (neg : bool) (m : N) (e : Z).

Definition num_of_nat (n : nat) : number := Finite false (N.of_nat n) 0.

(** ** Values *)

#[warnings="-register-all"]
Inductive value : Type :=
| VUndefined
| VNull
| VBool (b : bool)
| VNum (n : number)
| VStr (s : string)
| VArr (items : list value)
| VObj (props : list (string * value)).

(** Own property lookup in an object's property list. *)
Fixpoint lookup (k : string) (ps : list (string * value)) : option value :=
  match ps with
  | [] => None
  | (k', v) :: r => if String.eqb k k' then Some v else lookup k r
  end.

Definition has_own (k : string) (ps : list (string * value)) : bool :=
  match lookup k ps with Some _ => true | None => false end.

(** ** Strings *)

Definition dquote : ascii := "034"%char.
Definition backslash : ascii := "092"%char.
Definition LF : string := String "010"%char "".
Definition TAB : string := String "009"%char "".

(** [str.repeat(n)] *)
Fixpoint repeat_string (s : string) (n : nat) : string :=
  match n with O => "" | S n' => s ++ repeat_string s n' end.

(** Number of UTF-16 code units of a string given by its UTF-8 bytes: one
    per code point, two for a code point outside the basic plane. *)
Fixpoint utf16_length (s : string) : nat :=
  match s with
  | EmptyString => O
  | String c r =>
      let b := nat_of_ascii c in
      ((if (Nat.leb 128 b && Nat.ltb b 192)%bool then 0
        else if Nat.leb 240 b then 2 else 1) + utf16_length r)%nat
  end.

(** [s.replace(pat, '')] for a string pattern: the first occurrence goes. *)
Fixpoint remove_first (pat s : string) : string :=
  if prefix pat s
  then substring (String.length pat) (String.length s - String.length pat) s
  else match s with
       | EmptyString => EmptyString
       | String c r => String c (remove_first pat r)
       end.

(** [str.split(sep)] for a one-character separator. *)
Fixpoint split_on (sep : ascii) (s : string) : list string :=
  match s with
  | EmptyString => [EmptyString]
  | String c r =>
      if Ascii.eqb c sep then EmptyString :: split_on sep r
      else match split_on sep r with
           | [] => [String c EmptyString]
           | p :: ps => String c p :: ps
           end
  end.

(** ** Truthiness and [||] *)

Definition truthy (v : value) : bool :=
  match v with
  | VUndefined | VNull => false
  | VBool b => b
  | VNum NaN => false
  | VNum (Infinity _) => true
  | VNum (Finite _ m _) => negb (N.eqb m 0)
  | VStr s => negb (String.eqb s "")
  | VArr _ | VObj _ => true
  end.

(** [a || b] *)
Definition or_else (a b : value) : value := if truthy a then a else b.

(** ** Number::toString *)

Definition digits_of_N (n : N) : string := NilZero.string_of_uint (N.to_uint n).

Fixpoint rev_string (s acc : string) : string :=
  match s with EmptyString => acc | String c r => rev_string r (String c acc) end.

Fixpoint drop_zeros (s : string) : nat * string :=
  match s with
  | String "0"%char r => let (z, t) := drop_zeros r in (S z, t)
  | _ => (O, s)
  end.

Definition Number_toString (x : number) : string :=
  match x with
  | NaN => "NaN"
  | Infinity neg => if neg then "-Infinity" else "Infinity"
  | Finite neg m e =>
      if N.eqb m 0 then "0" else
      let (z, rds) := drop_zeros (rev_string (digits_of_N m) "") in
      let ds := rev_string rds "" in
      let k := String.length ds in
      let n := (Z.of_nat k + (e + Z.of_nat z))%Z in
      let zeros i := repeat_string "0" (Z.to_nat i) in
      let body :=
        if ((Z.of_nat k <=? n) && (n <=? 21))%Z%bool then ds ++ zeros (n - Z.of_nat k)%Z
        else if ((0 <? n) && (n <=? 21))%Z%bool then
          substring 0 (Z.to_nat n) ds ++ "." ++ substring (Z.to_nat n) (k - Z.to_nat n) ds
        else if ((-6 <? n) && (n <=? 0))%Z%bool then "0." ++ zeros (- n)%Z ++ ds
        else
          let ex := (n - 1)%Z in
          let es := (if (ex <? 0)%Z then "-" else "+") ++ digits_of_N (Z.to_N (Z.abs ex)) in
          if Nat.eqb k 1 then ds ++ "e" ++ es
          else substring 0 1 ds ++ "." ++ substring 1 (k - 1) ds ++ "e" ++ es
      in (if neg then "-" else "") ++ body
  end.

(** ** The Number value of a decimal: IEEE 754 binary64, round to nearest,
    ties to even *)

Definition pow2 (k : Z) : N := N.shiftl 1 (Z.to_N k).
Definition pow10 (k : Z) : N := (10 ^ Z.to_N k)%N.

(** The integer nearest to [a / b], ties to even. *)
Definition div_nearest_even (a b : N) : N :=
  let q := (a / b)%N in
  match (2 * (a mod b) ?= b)%N with
  | Lt => q
  | Gt => (q + 1)%N
  | Eq => if N.even q then q else (q + 1)%N
  end.

(** The integer nearest to [(num / den) / 2^k]. *)
Definition scaled (num den : N) (k : Z) : N :=
  if (0 <=? k)%Z then div_nearest_even num (den * pow2 k)
  else div_nearest_even (num * pow2 (- k)) den.

(** A magnitude as a double: zero, [m * 2^k] with [m < 2^53] (and
    [2^52 <= m] unless [k = -1074]), or infinity. *)
Inductive double : Type :=
| DZero
| DFinite (m : N) (k : Z)
| DInfinity.

(** The double nearest to [num / den], for positive [num] and [den]. *)
Definition round_ratio (num den : N) : double :=
  let k0 := Z.max (-1074) (Z.of_N (N.log2 num) - Z.of_N (N.log2 den) - 53) in
  let m0 := scaled num den k0 in
  let (m, k) :=
    if (m0 <? pow2 53)%N then (m0, k0)
    else let m1 := scaled num den (k0 + 1) in
         if (m1 <? pow2 53)%N then (m1, k0 + 1)%Z else (pow2 52, k0 + 2)%Z in
  if (m =? 0)%N then DZero
  else if (971 <? k)%Z then DInfinity
  else DFinite m k.

(** The double nearest to [m * 10^e]. *)
Definition to_double (m : N) (e : Z) : double :=
  if (m =? 0)%N then DZero
  else
    let d := Z.of_nat (String.length (digits_of_N m)) in
    if (309 <=? d - 1 + e)%Z then DInfinity
    else if (d + e <=? -324)%Z then DZero
    else if (0 <=? e)%Z then round_ratio (m * pow10 e) 1
    else round_ratio m (pow10 (- e)).

Definition double_eqb (a b : double) : bool :=
  match a, b with
  | DZero, DZero | DInfinity, DInfinity => true
  | DFinite m k, DFinite m' k' => ((m =? m')%N && (k =? k')%Z)%bool
  | _, _ => false
  end.

(** [10^l <= num / den] *)
Definition ge_pow10 (num den : N) (l : Z) : bool :=
  if (0 <=? l)%Z then (den * pow10 l <=? num)%N else (den <=? num * pow10 (- l))%N.

(** The [l] with [10^l <= num / den < 10^(l+1)]. *)
Definition log10_floor (num den : N) : Z :=
  let guess := ((Z.of_N (N.log2 num) - Z.of_N (N.log2 den)) * 30103 / 100000)%Z in
  match find (ge_pow10 num den) (map (fun i => guess + 2 - Z.of_nat i)%Z (seq 0 5)) with
  | Some l => l
  | None => (guess - 3)%Z
  end.

(** The shortest decimal [s * 10^t] that reads as the double [m * 2^k],
    and the closest to it among those: the digits [Number::toString]
    prints.  [digits] counts the lengths still to try. *)
Fixpoint shortest (digits : nat) (m : N) (k : Z) (num den : N) (l : Z) (len : Z) : N * Z :=
  let t := (l - (len - 1))%Z in
  let low := if (0 <=? t)%Z then (num / (den * pow10 t))%N
             else (num * pow10 (- t) / den)%N in
  let high := (low + 1)%N in
  let reads s := double_eqb (to_double s t) (DFinite m k) in
  (* twice the value against low + high, both scaled by 10^t *)
  let nearer_low :=
    let twice := if (0 <=? t)%Z then (2 * num ?= (2 * low + 1) * (den * pow10 t))%N
                 else (2 * num * pow10 (- t) ?= (2 * low + 1) * den)%N in
    match twice with
    | Lt => true
    | Gt => false
    | Eq => N.even low
    end in
  match digits with
  | O => (low, t)
  | S rest =>
      match reads low, reads high with
      | true, true => (if nearer_low then low else high, t)
      | true, false => (low, t)
      | false, true => (high, t)
      | false, false => shortest rest m k num den l (len + 1)
      end
  end.

Fixpoint strip_zeros (fuel : nat) (s : N) (t : Z) : N * Z :=
  match fuel with
  | O => (s, t)
  | S f => if ((s mod 10 =? 0) && negb (s =? 0))%N%bool then strip_zeros f (s / 10)%N (t + 1)%Z
           else (s, t)
  end.

(** The Number value of [(-1)^neg * m * 10^e], kept as the decimal that
    [Number::toString] prints for it; an integer below [10^21] is kept
    with exponent 0. *)
Definition number_value (neg : bool) (m : N) (e : Z) : number :=
  match to_double m e with
  | DZero => Finite neg 0 0
  | DInfinity => Infinity neg
  | DFinite b k =>
      let num := if (0 <=? k)%Z then (b * pow2 k)%N else b in
      let den := if (0 <=? k)%Z then 1%N else pow2 (- k) in
      let (s0, t0) := shortest 17 b k num den (log10_floor num den) 1 in
      let (s, t) := strip_zeros 17 s0 t0 in
      if ((0 <=? t) && (Z.of_nat (String.length (digits_of_N s)) + t <=? 21))%Z%bool
      then Finite neg (s * pow10 t) 0
      else Finite neg s t
  end.

(** ** ToString, as a template literal applies it

    An object parsed from JSON has no callable property: with an own
    [toString] key the conversion finds nothing to call and throws. *)

Definition cannot_convert : error :=
  TypeError "Cannot convert object to primitive value".

Fixpoint ToString (v : value) : result string :=
  match v with
  | VUndefined => Ok "undefined"
  | VNull => Ok "null"
  | VBool b => Ok (if b then "true" else "false")
  | VNum n => Ok (Number_toString n)
  | VStr s => Ok s
  | VArr items =>
      (fix join (l : list value) : result string :=
         match l with
         | [] => Ok ""
         | x :: r =>
             do sx <- match x with
                      | VUndefined | VNull => Ok ""
                      | _ => ToString x
                      end;
             match r with
             | [] => Ok sx
             | _ => do sr <- join r; Ok (sx ++ "," ++ sr)
             end
         end) items
  | VObj ps =>
      if has_own "toString" ps then Throw cannot_convert
      else Ok "[object Object]"
  end.

(** ** Property reads [v.k], for the names the sources read: own
    properties of objects, and [length] of arrays and strings. *)

Definition get (v : value) (k : string) : result value :=
  match v with
  | VUndefined =>
      Throw (TypeError ("Cannot read properties of undefined (reading '" ++ k ++ "')"))
  | VNull =>
      Throw (TypeError ("Cannot read properties of null (reading '" ++ k ++ "')"))
  | VObj ps => Ok (match lookup k ps with Some x => x | None => VUndefined end)
  | VArr items =>
      Ok (if String.eqb k "length" then VNum (num_of_nat (List.length items))
          else VUndefined)
  | VStr s =>
      Ok (if String.eqb k "length" then VNum (num_of_nat (utf16_length s))
          else VUndefined)
  | VBool _ | VNum _ => Ok VUndefined
  end.

(** [const { first, .. } = source] throws on [undefined] and [null]. *)
Definition destructure (first source : string) (v : value) : result unit :=
  let msg what :=
    "Cannot destructure property '" ++ first ++ "' of '" ++ source
      ++ "' as it is " ++ what ++ "." in
  match v with
  | VUndefined => Throw (TypeError (msg "undefined"))
  | VNull => Throw (TypeError (msg "null"))
  | _ => Ok tt
  end.

(** [v === "s"] *)
Definition is_string (v : value) (s : string) : bool :=
  match v with VStr x => String.eqb x s | _ => false end.

(** [v === 0] *)
Definition is_zero (v : value) : bool :=
  match v with VNum (Finite _ m _) => N.eqb m 0 | _ => false end.

(** ** StringToNumber and the comparison [v > 0] *)

(** WhiteSpace and LineTerminator code points, as UTF-8 byte sequences. *)
Definition bytes_string (l : list nat) : string :=
  fold_right (fun n acc => String (ascii_of_nat n) acc) EmptyString l.

Definition white_space : list string :=
  map bytes_string
    ([[9]; [10]; [11]; [12]; [13]; [32]; [194; 160]; [225; 154; 128];
      [226; 128; 168]; [226; 128; 169]; [226; 128; 175]; [226; 129; 159];
      [227; 128; 128]; [239; 187; 191]]
     ++ map (fun i => [226; 128; 128 + i]) (seq 0 11))%list.

Fixpoint drop (n : nat) (s : string) : string :=
  match n, s with
  | S n', String _ r => drop n' r
  | _, _ => s
  end.

Fixpoint trim_start (fuel : nat) (ws : list string) (s : string) : string :=
  match fuel with
  | O => s
  | S f =>
      match find (fun w => prefix w s) ws with
      | Some w => trim_start f ws (drop (String.length w) s)
      | None => s
      end
  end.

Definition trim (s : string) : string :=
  let s1 := trim_start (String.length s) white_space s in
  let r := rev_string s1 "" in
  rev_string
    (trim_start (String.length r) (map (fun w => rev_string w "") white_space) r) "".

Definition is_digit (c : ascii) : bool :=
  (Nat.leb 48 (nat_of_ascii c) && Nat.leb (nat_of_ascii c) 57)%bool.

Fixpoint span_digits (s : string) : string * string :=
  match s with
  | String c r =>
      if is_digit c then let (d, t) := span_digits r in (String c d, t)
      else (EmptyString, s)
  | EmptyString => (EmptyString, EmptyString)
  end.

Definition N_of_digits (ds : string) : N :=
  match NilZero.uint_of_string ds with
  | Some u => N.of_uint u
  | None => 0%N
  end.

Definition digit_value (c : ascii) : option N :=
  let n := nat_of_ascii c in
  if (Nat.leb 48 n && Nat.leb n 57)%bool then Some (N.of_nat (n - 48))
  else if (Nat.leb 97 n && Nat.leb n 102)%bool then Some (N.of_nat (n - 87))
  else if (Nat.leb 65 n && Nat.leb n 70)%bool then Some (N.of_nat (n - 55))
  else None.

(** The digits of [s] in base [b]; [None] unless all are digits of that base. *)
Fixpoint radix_value (b : N) (acc : N) (s : string) : option N :=
  match s with
  | EmptyString => Some acc
  | String c r =>
      match digit_value c with
      | Some d => if (d <? b)%N then radix_value b (acc * b + d)%N r else None
      | None => None
      end
  end.

(** [[eE][+-]?digits] or nothing, up to the end of the string. *)
Definition exponent_part (s : string) : option Z :=
  match s with
  | EmptyString => Some 0%Z
  | String c r =>
      if (Ascii.eqb c "e" || Ascii.eqb c "E")%bool then
        let (neg, r1) :=
          match r with
          | String "-"%char t => (true, t)
          | String "+"%char t => (false, t)
          | _ => (false, r)
          end in
        match span_digits r1 with
        | (String d ds, EmptyString) =>
            let x := Z.of_N (N_of_digits (String d ds)) in
            Some (if neg then (- x)%Z else x)
        | _ => None
        end
      else None
  end.

Definition decimal_literal (neg : bool) (s : string) : number :=
  if String.eqb s "Infinity" then Infinity neg else
  let (ip, r1) := span_digits s in
  let (fp, r2) :=
    match r1 with
    | String "."%char t => span_digits t
    | _ => (EmptyString, r1)
    end in
  let has_dot := match r1 with String "."%char _ => true | _ => false end in
  if (String.eqb ip "" && String.eqb fp "")%bool then NaN else
  match exponent_part r2 with
  | Some ex =>
      number_value neg (N_of_digits (ip ++ fp)) (ex - Z.of_nat (String.length fp))
  | None => NaN
  end.

Definition radix_literal (b : N) (digits : string) : number :=
  match digits with
  | EmptyString => NaN
  | _ => match radix_value b 0 digits with
         | Some n => number_value false n 0
         | None => NaN
         end
  end.

Definition StringToNumber (str : string) : number :=
  match trim str with
  | EmptyString => Finite false 0 0
  | String "0"%char (String "x"%char r) | String "0"%char (String "X"%char r) =>
      radix_literal 16 r
  | String "0"%char (String "o"%char r) | String "0"%char (String "O"%char r) =>
      radix_literal 8 r
  | String "0"%char (String "b"%char r) | String "0"%char (String "B"%char r) =>
      radix_literal 2 r
  | String "-"%char r => decimal_literal true r
  | String "+"%char r => decimal_literal false r
  | s => decimal_literal false s
  end.

Definition positive (n : number) : bool :=
  match n with
  | NaN => false
  | Infinity neg => negb neg
  | Finite neg m _ => (negb neg && negb (N.eqb m 0))%bool
  end.

(** [v > 0]: ToPrimitive with hint number, ToNumber, then the comparison. *)
Definition gt_zero (v : value) : result bool :=
  match v with
  | VUndefined | VNull => Ok false
  | VBool b => Ok b
  | VNum n => Ok (positive n)
  | VStr s => Ok (positive (StringToNumber s))
  | VArr _ => do s <- ToString v; Ok (positive (StringToNumber s))
  | VObj ps => if has_own "toString" ps then Throw cannot_convert else Ok false
  end.

End Js.

(* ================================================================== *)
(** * JSON.stringify and JSON.parse                                    *)
(* ================================================================== *)

Module JSON.
Import Js.
Local Open Scope string_scope.

(** ** QuoteJSONString *)

Definition hex2 (n : nat) : string :=
  String (Bytes.hex_digit (Z.of_nat n / 16)) (String (Bytes.hex_digit (Z.of_nat n)) "").

Definition escape_char (c : ascii) : string :=
  let n := nat_of_ascii c in
  if Ascii.eqb c dquote then String backslash (String dquote "")
  else if Ascii.eqb c backslash then String backslash (String backslash "")
  else if Nat.eqb n 8 then String backslash "b"
  else if Nat.eqb n 9 then String backslash "t"
  else if Nat.eqb n 10 then String backslash "n"
  else if Nat.eqb n 12 then String backslash "f"
  else if Nat.eqb n 13 then String backslash "r"
  else if Nat.ltb n 32 then String backslash ("u00" ++ hex2 n)
  else String c "".

Fixpoint quote_body (s : string) : string :=
  match s with
  | EmptyString => EmptyString
  | String c r => escape_char c ++ quote_body r
  end.

Definition quote (s : string) : string :=
  String dquote (quote_body s ++ String dquote "").

(** ** SerializeJSONProperty

    [gap] is the indentation unit and [ind] the current indentation; an
    [undefined] array element prints as [null], an [undefined] property is
    left out. *)

Definition wrap (gap ind opening closing : string) (parts : list string) : string :=
  match parts with
  | [] => opening ++ closing
  | _ =>
      let ind' := ind ++ gap in
      if String.eqb gap "" then opening ++ String.concat "," parts ++ closing
      else opening ++ LF ++ ind' ++ String.concat ("," ++ LF ++ ind') parts
                   ++ LF ++ ind ++ closing
  end.

Fixpoint ser (gap ind : string) (v : value) {struct v} : string :=
  match v with
  | VUndefined | VNull => "null"
  | VBool b => if b then "true" else "false"
  | VNum (Finite neg m e) => Number_toString (Finite neg m e)
  | VNum _ => "null"
  | VStr s => quote s
  | VArr items =>
      wrap gap ind "[" "]" (map (fun x => ser gap (ind ++ gap) x) items)
  | VObj ps =>
      wrap gap ind "{" "}"
        (flat_map
           (fun kv =>
              match snd kv with
              | VUndefined => []
              | _ => [quote (fst kv) ++ ":" ++ (if String.eqb gap "" then "" else " ")
                        ++ ser gap (ind ++ gap) (snd kv)]
              end) ps)
  end.

(** [JSON.stringify(v)]; [None] is the result [undefined]. *)
Definition stringify (v : value) : option string :=
  match v with VUndefined => None | _ => Some (ser "" "" v) end.

(** [JSON.stringify(v, null, 2)] *)
Definition stringify_indent2 (v : value) : option string :=
  match v with VUndefined => None | _ => Some (ser "  " "" v) end.

(** ** JSON.parse *)

Definition is_ws (c : ascii) : bool :=
  let n := nat_of_ascii c in
  (Nat.eqb n 32 || Nat.eqb n 9 || Nat.eqb n 10 || Nat.eqb n 13)%bool.

Fixpoint skip_ws (s : string) : string :=
  match s with
  | String c r => if is_ws c then skip_ws r else s
  | EmptyString => EmptyString
  end.

(** UTF-8 encoding of a code point. *)
Definition utf8 (cp : N) : string :=
  let b (x : N) := ascii_of_N x in
  (if cp <? 128 then String (b cp) ""
   else if cp <? 2048 then
     String (b (192 + cp / 64)) (String (b (128 + cp mod 64)) "")
   else if cp <? 65536 then
     String (b (224 + cp / 4096))
       (String (b (128 + (cp / 64) mod 64)) (String (b (128 + cp mod 64)) ""))
   else
     String (b (240 + cp / 262144))
       (String (b (128 + (cp / 4096) mod 64))
          (String (b (128 + (cp / 64) mod 64)) (String (b (128 + cp mod 64)) ""))))%N.

Definition hex4 (a b c d : ascii) : option N :=
  match digit_value a, digit_value b, digit_value c, digit_value d with
  | Some x, Some y, Some z, Some w => Some (((x * 16 + y) * 16 + z) * 16 + w)%N
  | _, _, _, _ => None
  end.

Definition is_high (u : N) : bool := ((55296 <=? u) && (u <? 56320))%N%bool.
Definition is_low (u : N) : bool := ((56320 <=? u) && (u <? 57344))%N%bool.

(** A lone surrogate is no character of a well-formed string and has no
    UTF-8 encoding; where an escape names one, the bytes are those of
    U+FFFD, which is what [Buffer.from] and [fs.appendFile] write for
    it. *)
Definition code_unit (u : N) : string :=
  if (is_high u || is_low u)%bool then utf8 65533 else utf8 u.

Definition pair_units (hi lo : N) : string :=
  utf8 (65536 + (hi - 55296) * 1024 + (lo - 56320))%N.

Definition unescape (e : ascii) : option ascii :=
  if Ascii.eqb e dquote then Some dquote
  else if Ascii.eqb e backslash then Some backslash
  else if Ascii.eqb e "/" then Some "/"%char
  else if Ascii.eqb e "b" then Some "008"%char
  else if Ascii.eqb e "f" then Some "012"%char
  else if Ascii.eqb e "n" then Some "010"%char
  else if Ascii.eqb e "r" then Some "013"%char
  else if Ascii.eqb e "t" then Some "009"%char
  else None.

Definition prepend (pre : string) (r : option (string * string)) :
  option (string * string) :=
  match r with
  | Some (x, rest) => Some (pre ++ x, rest)
  | None => None
  end.

(** The characters of a string literal after its opening quote, and what
    follows the closing quote. *)
Fixpoint parse_chars (s : string) : option (string * string) :=
  match s with
  | EmptyString => None
  | String c r =>
      if Ascii.eqb c dquote then Some (EmptyString, r)
      else if Ascii.eqb c backslash then
        match r with
        | EmptyString => None
        | String e r1 =>
            match unescape e with
            | Some ch => prepend (String ch "") (parse_chars r1)
            | None =>
                if Ascii.eqb e "u" then
                  match r1 with
                  | String h1 (String h2 (String h3 (String h4 r2))) =>
                      match hex4 h1 h2 h3 h4 with
                      | None => None
                      | Some u =>
                          if is_high u then
                            match r2 with
                            | String b (String "u"%char
                                (String l1 (String l2 (String l3 (String l4 r3))))) =>
                                match hex4 l1 l2 l3 l4 with
                                | Some lo =>
                                    if (Ascii.eqb b backslash && is_low lo)%bool
                                    then prepend (pair_units u lo) (parse_chars r3)
                                    else prepend (code_unit u) (parse_chars r2)
                                | None => prepend (code_unit u) (parse_chars r2)
                                end
                            | _ => prepend (code_unit u) (parse_chars r2)
                            end
                          else prepend (code_unit u) (parse_chars r2)
                      end
                  | _ => None
                  end
                else None
            end
        end
      else if Nat.ltb (nat_of_ascii c) 32 then None
      else prepend (String c "") (parse_chars r)
  end.

Definition parse_number (s : string) : option (number * string) :=
  let (neg, s1) :=
    match s with String "-"%char t => (true, t) | _ => (false, s) end in
  let int_part :=
    match s1 with
    | String "0"%char t => Some ("0", t)
    | String c _ => if is_digit c then Some (span_digits s1) else None
    | EmptyString => None
    end in
  match int_part with
  | None => None
  | Some (ip, r1) =>
      let frac :=
        match r1 with
        | String "."%char t =>
            match span_digits t with
            | (EmptyString, _) => None
            | (fp, t') => Some (fp, t')
            end
        | _ => Some (EmptyString, r1)
        end in
      match frac with
      | None => None
      | Some (fp, r2) =>
          let mant := N_of_digits (ip ++ fp) in
          let scale := Z.of_nat (String.length fp) in
          match r2 with
          | String c t =>
              if (Ascii.eqb c "e" || Ascii.eqb c "E")%bool then
                let (eneg, t1) :=
                  match t with
                  | String "-"%char u => (true, u)
                  | String "+"%char u => (false, u)
                  | _ => (false, t)
                  end in
                match span_digits t1 with
                | (EmptyString, _) => None
                | (ds, r3) =>
                    let x := Z.of_N (N_of_digits ds) in
                    Some (number_value neg mant ((if eneg then - x else x) - scale)%Z, r3)
                end
              else Some (number_value neg mant (- scale)%Z, r2)
          | EmptyString => Some (number_value neg mant (- scale)%Z, r2)
          end
      end
  end.

(** Property order of an ordinary object: array indices ascending, then
    the other keys in insertion order; a repeated key keeps its place. *)
Definition array_index (k : string) : option N :=
  match k with
  | EmptyString => None
  | String c r =>
      let canonical :=
        (String.eqb k "0" || (negb (Ascii.eqb c "0") && Nat.leb (String.length k) 10))%bool in
      match radix_value 10 0 k with
      | Some n => if (canonical && (n <=? 4294967294)%N)%bool then Some n else None
      | None => None
      end
  end.

Fixpoint replace_prop (k : string) (v : value) (ps : list (string * value)) :=
  match ps with
  | [] => []
  | (k', v') :: r =>
      if String.eqb k k' then (k', v) :: r else (k', v') :: replace_prop k v r
  end.

Fixpoint insert_index (i : N) (k : string) (v : value) (ps : list (string * value)) :=
  match ps with
  | [] => [(k, v)]
  | (k', v') :: r =>
      match array_index k' with
      | Some j => if (j <? i)%N then (k', v') :: insert_index i k v r
                  else (k, v) :: ps
      | None => (k, v) :: ps
      end
  end.

Definition obj_set (ps : list (string * value)) (k : string) (v : value) :=
  if has_own k ps then replace_prop k v ps
  else match array_index k with
       | Some i => insert_index i k v ps
       | None => (ps ++ [(k, v)])%list
       end.

Definition literal (name : string) (v : value) (s : string) : option (value * string) :=
  if prefix name s then Some (v, drop (String.length name) s) else None.

(** The next character that is not white space, and what follows it. *)
Definition peek (s : string) : option (ascii * string) :=
  match skip_ws s with
  | String c r => Some (c, r)
  | EmptyString => None
  end.

Fixpoint parse_value (fuel : nat) (s : string) {struct fuel} : option (value * string) :=
  match fuel with
  | O => None
  | S f =>
      match peek s with
      | None => None
      | Some (c, r) =>
          if Ascii.eqb c "{" then
            match peek r with
            | Some (c', r') =>
                if Ascii.eqb c' "}" then Some (VObj [], r') else parse_members f [] r
            | None => None
            end
          else if Ascii.eqb c "[" then
            match peek r with
            | Some (c', r') =>
                if Ascii.eqb c' "]" then Some (VArr [], r') else parse_elements f [] r
            | None => None
            end
          else if Ascii.eqb c dquote then
            match parse_chars r with
            | Some (x, t) => Some (VStr x, t)
            | None => None
            end
          else if Ascii.eqb c "t" then literal "true" (VBool true) (String c r)
          else if Ascii.eqb c "f" then literal "false" (VBool false) (String c r)
          else if Ascii.eqb c "n" then literal "null" VNull (String c r)
          else match parse_number (String c r) with
               | Some (n, t) => Some (VNum n, t)
               | None => None
               end
      end
  end
with parse_elements (fuel : nat) (acc : list value) (s : string) {struct fuel} :
  option (value * string) :=
  match fuel with
  | O => None
  | S f =>
      match parse_value f s with
      | None => None
      | Some (v, r) =>
          match peek r with
          | Some (c, r') =>
              if Ascii.eqb c "," then parse_elements f (v :: acc) r'
              else if Ascii.eqb c "]" then Some (VArr (rev (v :: acc)), r')
              else None
          | None => None
          end
      end
  end
with parse_members (fuel : nat) (acc : list (string * value)) (s : string) {struct fuel} :
  option (value * string) :=
  match fuel with
  | O => None
  | S f =>
      match peek s with
      | None => None
      | Some (q, r) =>
          if Ascii.eqb q dquote then
            match parse_chars r with
            | None => None
            | Some (k, r1) =>
                match peek r1 with
                | None => None
                | Some (colon, r2) =>
                    if Ascii.eqb colon ":" then
                      match parse_value f r2 with
                      | None => None
                      | Some (v, r3) =>
                          match peek r3 with
                          | Some (c, r4) =>
                              if Ascii.eqb c "," then parse_members f (obj_set acc k v) r4
                              else if Ascii.eqb c "}" then Some (VObj (obj_set acc k v), r4)
                              else None
                          | None => None
                          end
                      end
                    else None
                end
            end
          else None
      end
  end.

(** [JSON.parse(text)]; [None] is a SyntaxError. *)
Definition parse (text : string) : option value :=
  match parse_value (S (String.length text)) text with
  | Some (v, rest) =>
      match skip_ws rest with
      | EmptyString => Some v
      | _ => None
      end
  | None => None
  end.

End JSON.

(* ================================================================== *)
(** * Environment, external services and effects                       *)
(* ================================================================== *)

Module Sys.
Import Js.
Local Open Scope string_scope.

(** [process.env]: the variables the sources read. *)
Record env : Type := Env {
  GITHUB_WEBHOOK_SECRET : option string;
  OPENAI_API_KEY : option string;
  GOOGLE_DOCS_ID : option string;
  GOOGLE_APPLICATION_CREDENTIALS : option string
}.

(** A header or an environment variable as a value: absent is [undefined]. *)
Definition opt_value (o : option string) : value :=
  match o with Some s => VStr s | None => VUndefined end.

(** [!!x] for a header or an environment variable. *)
Definition present (o : option string) : bool := truthy (opt_value o).

(** The body of [openai.chat.completions.create]. *)
Record chat_request : Type := ChatRequest {
  req_model : value;
  req_system : string;
  req_user : value;
  req_temperature : value;
  req_max_tokens : value
}.

(** What the sources read of a completion: [choices[0].message.content]
    and the optional [usage] counters. *)
Record usage : Type := Usage {
  prompt_tokens : value;
  completion_tokens : value;
  total_tokens : value
}.

Record completion : Type := Completion {
  content : value;
  usage_of : option usage
}.

(** Requests that leave the process, and writes to the file system. *)
Inductive event : Type :=
| FsMkdir (path : string)
| FsAppendFile (path content : string)
| DocsGet (documentId : string)
| DocsBatchUpdate (documentId : string) (index : Z) (text : string)
| ChatCompletionsCreate (request : chat_request).

(** The outside world: each answer may depend on what happened before. *)
Record externals : Type := Externals {
  (** [new Date().toISOString()] *)
  clock : list event -> string;
  (** [new google.auth.GoogleAuth(..)] and [google.docs(..)] for a key file *)
  google_client : string -> result unit;
  (** [documents.get]: the [endIndex] of each element of [body.content] *)
  documents_get : list event -> string -> result (list Z);
  documents_batchUpdate : list event -> string -> Z -> string -> result unit;
  chat_completions_create : list event -> chat_request -> result completion;
  (** [execSync('git diff-tree --no-commit-id --name-status -r ' + id).toString()] *)
  git_diff_tree : string -> result string;
  (** [execSync('git show ' + id + ' --color=never').toString()] *)
  git_show : string -> result string
}.

(** The file system under the logs directory: the paths that are
    directories, and the regular files with their content; a path is
    taken to be at most one of the two, and the paths of the log files
    are not directories.  Where the file system is
    [read_only], a call that would have to change it fails, with the
    error [refusal] gives for the system call and the path. *)
Record fs_state : Type := Fs {
  dirs : list string;
  files : list (string * string);
  read_only : bool;
  refusal : string -> string -> error
}.

(** The [GoogleDocsSync] singleton: [this.initialized] and whether
    [this.docs] holds a client. *)
Record docs_sync : Type := DocsSync {
  initialized : bool;
  docs : bool
}.

Record world : Type := World {
  fs : fs_state;
  sync : docs_sync;
  trace : list event
}.

(** ** Computations over the world that may throw *)

Definition M (A : Type) : Type := world -> result A * world.

Definition ret {A} (a : A) : M A := fun w => (Ok a, w).
Definition throw {A} (e : error) : M A := fun w => (Throw e, w).
Definition lift {A} (r : result A) : M A := fun w => (r, w).

Definition mbind {A B} (m : M A) (k : A -> M B) : M B :=
  fun w => match m w with
           | (Ok a, w') => k a w'
           | (Throw e, w') => (Throw e, w')
           end.

(** [try { m } catch (e) { h e }] *)
Definition try_catch {A} (m : M A) (h : error -> M A) : M A :=
  fun w => match m w with
           | (Ok a, w') => (Ok a, w')
           | (Throw e, w') => h e w'
           end.

Definition emit (e : event) : M unit :=
  fun w => (Ok tt, World (fs w) (sync w) (trace w ++ [e])%list).

Definition history : M (list event) := fun w => (Ok (trace w), w).

Notation "x <- m ;; k" := (mbind m (fun x => k))
  (at level 61, m at next level, right associativity).
Notation "m ;;; k" := (mbind m (fun _ => k))
  (at level 61, right associativity).

(** ** File system calls of [fs.promises] *)

Fixpoint file_content (p : string) (fl : list (string * string)) : option string :=
  match fl with
  | [] => None
  | (q, c) :: r => if String.eqb p q then Some c else file_content p r
  end.

Fixpoint append_to (p c : string) (fl : list (string * string)) :=
  match fl with
  | [] => [(p, c)]
  | (q, old) :: r =>
      if String.eqb p q then (q, old ++ c) :: r else (q, old) :: append_to p c r
  end.

Definition has_dir (d : string) (st : fs_state) : bool :=
  existsb (String.eqb d) (dirs st).

Definition fs_access (p : string) : M unit :=
  fun w =>
    if (has_dir p (fs w)
        || match file_content p (files (fs w)) with Some _ => true | None => false end)%bool
    then (Ok tt, w)
    else (Throw (Error ("ENOENT: no such file or directory, access '" ++ p ++ "'")), w).

Definition is_file (p : string) (st : fs_state) : bool :=
  match file_content p (files st) with Some _ => true | None => false end.

(** [fs.mkdir(p, { recursive: true })]: nothing is done, and nothing
    fails, where the directory exists; a regular file of that name is in
    the way. *)
Definition fs_mkdir (p : string) : M unit :=
  emit (FsMkdir p) ;;;
  fun w =>
    if has_dir p (fs w) then (Ok tt, w)
    else if is_file p (fs w)
    then (Throw (Error ("EEXIST: file already exists, mkdir '" ++ p ++ "'")), w)
    else if read_only (fs w) then (Throw (refusal (fs w) "mkdir" p), w)
    else (Ok tt, World (Fs (p :: dirs (fs w)) (files (fs w)) false (refusal (fs w)))
                       (sync w) (trace w)).

(** [fs.appendFile(dir/name, c, 'utf8')]: the path is resolved first,
    then the file is opened for writing. *)
Definition fs_appendFile (dir name c : string) : M unit :=
  let p := dir ++ "/" ++ name in
  emit (FsAppendFile p c) ;;;
  fun w =>
    if has_dir dir (fs w)
    then if read_only (fs w) then (Throw (refusal (fs w) "open" p), w)
         else (Ok tt, World (Fs (dirs (fs w)) (append_to p c (files (fs w))) false
                                (refusal (fs w)))
                            (sync w) (trace w))
    else if is_file dir (fs w)
    then (Throw (Error ("ENOTDIR: not a directory, open '" ++ p ++ "'")), w)
    else (Throw (Error ("ENOENT: no such file or directory, open '" ++ p ++ "'")), w).

Definition is_fs_write (e : event) : bool :=
  match e with FsMkdir _ | FsAppendFile _ _ => true | _ => false end.

Definition is_docs_request (e : event) : bool :=
  match e with DocsGet _ | DocsBatchUpdate _ _ _ => true | _ => false end.

Definition is_chat_request (e : event) : bool :=
  match e with ChatCompletionsCreate _ => true | _ => false end.

(** ** HTTP responses: [res.status(code).json(body)] *)

Record response : Type := Response {
  status : nat;
  body : value
}.

End Sys.

(* ================================================================== *)
(** * src/utils/googleDocsSync.js                                      *)
(* ================================================================== *)

Module GoogleDocsSync.
Import Js Sys.
Local Open Scope string_scope.

(** [constructor()] *)
Definition constructor : docs_sync := DocsSync false false.

Definition this : M docs_sync := fun w => (Ok (sync w), w).
Definition set_this (s : docs_sync) : M unit :=
  fun w => (Ok tt, World (fs w) s (trace w)).

(** [async initialize()] *)
Definition initialize (e : env) (x : externals) : M bool :=
  try_catch
    (let credentialsPath := GOOGLE_APPLICATION_CREDENTIALS e in
     match credentialsPath with
     | Some path =>
         if negb (present credentialsPath) then ret false
         else
           lift (google_client x path) ;;;
           set_this (DocsSync true true) ;;;
           ret true
     | None => ret false
     end)
    (fun _ => ret false).

(** [doc.data.body.content[doc.data.body.content.length - 1].endIndex] *)
Definition last_endIndex (content : list Z) : result Z :=
  match rev content with
  | i :: _ => Ok i
  | [] => Throw (TypeError "Cannot read properties of undefined (reading 'endIndex')")
  end.

(** [async appendToDocument(content, documentId = null)] *)
Definition appendToDocument (e : env) (x : externals)
    (content : string) (documentId : option string) : M bool :=
  try_catch
    (s <- this ;;
     ok <- (if initialized s then ret true else initialize e x) ;;
     if negb ok then ret false
     else
       let docId := if present documentId then documentId else GOOGLE_DOCS_ID e in
       match docId with
       | Some id =>
           if negb (present docId) then ret false
           else
             h <- history ;;
             emit (DocsGet id) ;;;
             doc <- lift (documents_get x h id) ;;
             endIndex <- lift (last_endIndex doc) ;;
             h' <- history ;;
             emit (DocsBatchUpdate id (endIndex - 1) content) ;;;
             lift (documents_batchUpdate x h' id (endIndex - 1) content) ;;;
             ret true
       | None => ret false
       end)
    (fun _ => ret false).

End GoogleDocsSync.

(* ================================================================== *)
(** * src/controllers/githubController.js                              *)
(* ================================================================== *)

Module GithubController.
Import Js Sys.
Local Open Scope string_scope.

Definition LOGS_DIR : string := "logs".
Definition COMMITS_LOG_NAME : string := "commits.log".
Definition COMMITS_LOG_FILE : string := LOGS_DIR ++ "/" ++ COMMITS_LOG_NAME.

(** An incoming request: the two headers the handler reads, and
    [req.body] as the body parser left it. *)
Record request : Type := Request {
  x_github_event : option string;
  x_hub_signature_256 : option string;
  req_body : value
}.

(** [crypto.timingSafeEqual(Buffer.from(a), Buffer.from(b))] *)
Definition timingSafeEqual (a b : string) : result bool :=
  if Nat.eqb (String.length a) (String.length b) then Ok (String.eqb a b)
  else Throw (RangeError "Input buffers must have the same byte length").

(** [hmac.update(JSON.stringify(payload))]: the text that is hashed. *)
Definition signed_text (payload : value) : result string :=
  match JSON.stringify payload with
  | Some text => Ok text
  | None =>
      Throw (TypeError ("The " ++ String dquote "data" ++ String dquote
        " argument must be of type string or an instance of Buffer, TypedArray, or DataView. Received undefined"))
  end.

(** [verifyGithubWebhook(payload, signature)] *)
Definition verifyGithubWebhook (e : env) (payload : value)
    (signature : option string) : result bool :=
  match signature, GITHUB_WEBHOOK_SECRET e with
  | Some sig, Some secret =>
      if (negb (present signature) || negb (present (GITHUB_WEBHOOK_SECRET e)))%bool
      then Ok false
      else
        do text <- signed_text payload;
        let digest := "sha256=" ++ HMAC.hmac_sha256_hex secret text in
        timingSafeEqual digest sig
  | _, _ => Ok false
  end.

(** [async appendToCommitLog(content)] *)
Definition appendToCommitLog (content : string) : M unit :=
  try_catch
    (try_catch (fs_access LOGS_DIR) (fun _ => fs_mkdir LOGS_DIR) ;;;
     fs_appendFile LOGS_DIR COMMITS_LOG_NAME content)
    (fun error => throw error).

(** [async syncToGoogleDocs(content)] *)
Definition syncToGoogleDocs (e : env) (x : externals) (content : string) : M unit :=
  try_catch
    (if (negb (present (GOOGLE_DOCS_ID e))
         || negb (present (GOOGLE_APPLICATION_CREDENTIALS e)))%bool
     then ret tt
     else
       success <- GoogleDocsSync.appendToDocument e x content None ;;
       ret tt)
    (fun _ => ret tt).

(** [payload.ref.replace('refs/heads/', '')] *)
Definition branch_of (ref : value) : result string :=
  match ref with
  | VStr s => Ok (remove_first "refs/heads/" s)
  | VUndefined | VNull => do _ <- get ref "replace"; Ok ""
  | _ => Throw (TypeError "payload.ref.replace is not a function")
  end.

(** The code points of a string, each as a string. *)
Fixpoint code_points (s : string) : list string :=
  match s with
  | EmptyString => []
  | String c r =>
      match code_points r with
      | String d t :: l =>
          if (Nat.leb 128 (nat_of_ascii d) && Nat.ltb (nat_of_ascii d) 192)%bool
          then String c (String d t) :: l
          else String c "" :: String d t :: l
      | l => String c "" :: l
      end
  end.

(** [for (const commit of commits)]: what the loop ranges over. *)
Definition iterate (commits : value) : result (list value) :=
  match commits with
  | VArr items => Ok items
  | VStr s => Ok (map VStr (code_points s))
  | _ => Throw (TypeError "commits is not iterable")
  end.

(** [files.forEach(file => commitLog += `  ${symbol} ${file}\n`)] *)
Fixpoint file_lines (symbol : string) (files : list value) (commitLog : string) :
  result string :=
  match files with
  | [] => Ok commitLog
  | file :: r =>
      do s <- ToString file;
      file_lines symbol r (commitLog ++ "  " ++ symbol ++ " " ++ s ++ LF)
  end.

(** [if (commit.prop.length > 0) { commitLog += title; commit.prop.forEach(..);
    commitLog += '\n' }] *)
Definition file_section (prop title symbol : string) (list : value) (commitLog : string) :
  result string :=
  do len <- get list "length";
  do nonempty <- gt_zero len;
  if nonempty then
    match list with
    | VArr files =>
        do log <- file_lines symbol files (commitLog ++ title ++ LF);
        Ok (log ++ LF)
    | _ => Throw (TypeError ("commit." ++ prop ++ ".forEach is not a function"))
    end
  else Ok commitLog.

(** The body of the loop over commits. *)
Definition commit_block (previousCommit commit : value) (commitLog : string) :
  result string :=
  do committer <- get commit "committer";
  do name <- get committer "name";
  do name_s <- ToString name;
  do email <- get committer "email";
  do email_s <- ToString email;
  do id <- get commit "id";
  do id_s <- ToString id;
  do prev_s <- ToString previousCommit;
  do message <- get commit "message";
  do message_s <- ToString message;
  let log := commitLog ++ repeat_string "=" 80 ++ LF
    ++ "Committer: " ++ name_s ++ " (" ++ email_s ++ ")" ++ LF
    ++ "Commit ID: " ++ id_s ++ LF
    ++ "Previous Commit: " ++ prev_s ++ LF
    ++ "Message: " ++ message_s ++ LF ++ LF in
  do added <- get commit "added";
  do log <- file_section "added" "Added Files:" "+" added log;
  do modified <- get commit "modified";
  do log <- file_section "modified" "Modified Files:" "~" modified log;
  do removed <- get commit "removed";
  do log <- file_section "removed" "Removed Files:" "-" removed log;
  Ok (log ++ LF).

Fixpoint commit_blocks (previousCommit : value) (commits : list value)
    (commitLog : string) : result string :=
  match commits with
  | [] => Ok commitLog
  | commit :: r =>
      do log <- commit_block previousCommit commit commitLog;
      commit_blocks previousCommit r log
  end.

(** The text [handlePushEvent] builds in [commitLog] once it has found
    commits to log; [now] is [new Date().toISOString()]. *)
Definition format_push (payload repository commits pusher previousCommit : value)
    (now : string) : result string :=
  do len <- get commits "length";
  do _ <- ToString len;
  do pusher_name <- get pusher "name";
  do _ <- ToString pusher_name;
  do full_name <- get repository "full_name";
  do full_name_s <- ToString full_name;
  do ref <- get payload "ref";
  do branch <- branch_of ref;
  do pusher_name <- get pusher "name";
  do pusher_name_s <- ToString pusher_name;
  do pusher_email <- get pusher "email";
  do pusher_email_s <- ToString pusher_email;
  let commitLog :=
    "Repository: " ++ full_name_s ++ LF
    ++ "Branch: " ++ branch ++ LF
    ++ "Pushed by: " ++ pusher_name_s ++ " (" ++ pusher_email_s ++ ")" ++ LF
    ++ "Date: " ++ now ++ LF ++ LF in
  do items <- iterate commits;
  commit_blocks previousCommit items commitLog.

(** [async handlePushEvent(payload)] *)
Definition handlePushEvent (e : env) (x : externals) (payload : value) : M unit :=
  try_catch
    (lift (destructure "repository" "payload" payload) ;;;
     repository <- lift (get payload "repository") ;;
     commits <- lift (get payload "commits") ;;
     pusher <- lift (get payload "pusher") ;;
     headCommit <- lift (get payload "after") ;;
     previousCommit <- lift (get payload "before") ;;
     nothing <- (if negb (truthy commits) then ret true
                 else len <- lift (get commits "length") ;; ret (is_zero len)) ;;
     if (nothing : bool) then ret tt
     else
       h <- history ;;
       commitLog <- lift (format_push payload repository commits pusher
                                      previousCommit (clock x h)) ;;
       appendToCommitLog commitLog ;;;
       syncToGoogleDocs e x commitLog)
    (fun error => throw error).

Definition json (code : nat) (props : list (string * value)) : M response :=
  ret (Response code (VObj props)).

(** [exports.handleGithubWebhook = async (req, res) => ..] *)
Definition handleGithubWebhook (e : env) (x : externals) (req : request) : M response :=
  try_catch
    (let githubEvent := x_github_event req in
     let signature := x_hub_signature_256 req in
     match githubEvent with
     | Some event =>
         if negb (present githubEvent) then
           json 400 [("success", VBool false);
                     ("message", VStr "Missing X-GitHub-Event header")]
         else
           valid <- (if present (GITHUB_WEBHOOK_SECRET e)
                     then lift (verifyGithubWebhook e (req_body req) signature)
                     else ret true) ;;
           if negb valid then
             json 401 [("success", VBool false);
                       ("message", VStr "Invalid webhook signature")]
           else
             (if String.eqb event "push" then handlePushEvent e x (req_body req)
              else ret tt) ;;;
             json 200 [("success", VBool true);
                       ("message", VStr ("Successfully processed " ++ event ++ " event"))]
     | None =>
         json 400 [("success", VBool false);
                   ("message", VStr "Missing X-GitHub-Event header")]
     end)
    (fun error =>
       json 500 [("success", VBool false);
                 ("message", VStr "Error processing GitHub webhook");
                 ("error", VStr (error_message error))]).

End GithubController.

(* ================================================================== *)
(** * src/controllers/webhookController.js                             *)
(* ================================================================== *)

Module WebhookController.
Import Js Sys.
Local Open Scope string_scope.

Definition default_prompt : value := VStr "Tell me something interesting".
Definition default_model : value := VStr "gpt-3.5-turbo".
Definition default_temperature : value := VNum (Finite false 7 (-1)).
Definition default_max_tokens : value := VNum (Finite false 500 0).

(** [getOpenAIClient()]: the key the client is built with, or [null]. *)
Definition getOpenAIClient (e : env) : option string :=
  if present (OPENAI_API_KEY e) then OPENAI_API_KEY e else None.

(** [completion.usage?.field] *)
Definition usage_field (f : usage -> value) (c : completion) : value :=
  match usage_of c with Some u => f u | None => VUndefined end.

(** The argument of [openai.chat.completions.create] as
    [processContentRequest] computes it from [data], in source order; the
    two [ToString] are the template literals passed to [console.log]. *)
Definition completion_request (data : value) : result chat_request :=
  do prompt <- get data "prompt";
  let userPrompt := or_else prompt default_prompt in
  do context <- get data "context";
  do systemMessage <-
    (if truthy context
     then do c <- ToString context; Ok ("You are a helpful assistant. Context: " ++ c)
     else Ok "You are a helpful assistant.");
  do model_field <- get data "model";
  let model := or_else model_field default_model in
  do _ <- ToString model;
  do _ <- ToString userPrompt;
  do temperature <- get data "temperature";
  do max_tokens <- get data "max_tokens";
  Ok (ChatRequest model systemMessage userPrompt
        (or_else temperature default_temperature)
        (or_else max_tokens default_max_tokens)).

(** [async processContentRequest(data)] *)
Definition processContentRequest (e : env) (x : externals) (data : value) : M value :=
  try_catch
    (match getOpenAIClient e with
     | None => throw (Error "OpenAI client not initialized. Check your API key.")
     | Some _ =>
         request <- lift (completion_request data) ;;
         h <- history ;;
         emit (ChatCompletionsCreate request) ;;;
         completion <- lift (chat_completions_create x h request) ;;
         ret (VObj [("generated_content", content completion);
                    ("model_used", req_model request);
                    ("prompt_tokens", usage_field prompt_tokens completion);
                    ("completion_tokens", usage_field completion_tokens completion);
                    ("total_tokens", usage_field total_tokens completion)])
     end)
    (fun error =>
       throw (Error ("Failed to generate AI content: " ++ error_message error))).

Definition json (code : nat) (props : list (string * value)) : M response :=
  ret (Response code (VObj props)).

(** [exports.handleWebhook = async (req, res) => ..]; [body] is [req.body]. *)
Definition handleWebhook (e : env) (x : externals) (body : value) : M response :=
  try_catch
    (lift (destructure "event" "req.body" body) ;;;
     event <- lift (get body "event") ;;
     data <- lift (get body "data") ;;
     if negb (truthy event) then
       json 400 [("success", VBool false);
                 ("message", VStr "Event type is required in the webhook payload")]
     else if is_string event "content_request" then
       response <- processContentRequest e x data ;;
       json 200 [("success", VBool true);
                 ("message", VStr "Webhook processed successfully");
                 ("data", response)]
     else
       name <- lift (ToString event) ;;
       json 200 [("success", VBool true);
                 ("message", VStr ("Received webhook event: " ++ name));
                 ("data", VNull)])
    (fun error =>
       json 500 [("success", VBool false);
                 ("message", VStr "Error processing webhook");
                 ("error", VStr (error_message error))]).

End WebhookController.

(* ================================================================== *)
(** * src/scripts/process-commit.js                                    *)
(* ================================================================== *)

Module ProcessCommit.
Import Js Sys.
Local Open Scope string_scope.

Definition LOGS_DIR : string := "logs".
Definition PROCESSED_LOG_NAME : string := "processed-commits.log".
Definition PROCESSED_LOG_FILE : string := LOGS_DIR ++ "/" ++ PROCESSED_LOG_NAME.

(** The object [commitInfo]; [None] is a property whose value is
    [undefined] (an argument the hook did not pass, a line without a tab). *)
Record file_change : Type := FileChange {
  status : string;
  file : option string
}.

Record committer_info : Type := Committer {
  name : option string;
  email : option string
}.

Record commit_info : Type := CommitInfo {
  id : string;
  previousCommit : option string;
  committer : committer_info;
  message : string;
  timestamp : string;
  filesChanged : list file_change;
  diff : string
}.

(** The JavaScript value of the record, properties in source order. *)
Definition file_value (f : file_change) : value :=
  VObj [("status", VStr (status f)); ("file", opt_value (file f))].

Definition commit_value (c : commit_info) : value :=
  VObj [("id", VStr (id c));
        ("previousCommit", opt_value (previousCommit c));
        ("committer", VObj [("name", opt_value (name (committer c)));
                            ("email", opt_value (email (committer c)))]);
        ("message", VStr (message c));
        ("timestamp", VStr (timestamp c));
        ("filesChanged", VArr (map file_value (filesChanged c)));
        ("diff", VStr (diff c))].

(** [line => { const [status, file] = line.split('\t'); return { status, file } }] *)
Definition parse_line (line : string) : file_change :=
  match split_on "009"%char line with
  | st :: f :: _ => FileChange st (Some f)
  | st :: [] => FileChange st None
  | [] => FileChange "" None
  end.

(** [filesChanged.split('\n').filter(Boolean).map(..)] *)
Definition parse_files (out : string) : list file_change :=
  map parse_line
      (filter (fun l => negb (String.eqb l "")) (split_on "010"%char out)).

(** [parts.join(' ')] *)
Definition join_words (parts : list string) : string := String.concat " " parts.

(** A template literal substitution of a string or [undefined]. *)
Definition show (o : option string) : string :=
  match o with Some s => s | None => "undefined" end.

(** [file.status === 'A' ? '+' : file.status === 'D' ? '-' : '~'] *)
Definition statusSymbol (st : string) : string :=
  if String.eqb st "A" then "+" else if String.eqb st "D" then "-" else "~".

Fixpoint file_lines (fl : list file_change) (content : string) : string :=
  match fl with
  | [] => content
  | f :: r => file_lines r (content ++ statusSymbol (status f) ++ " " ++ show (file f) ++ LF)
  end.

(** [formatCommitForDocs(commitInfo)] *)
Definition formatCommitForDocs (c : commit_info) : string :=
  let content := "" in
  let content := content ++ "==================== COMMIT DETAILS ====================" ++ LF in
  let content := content ++ "Committer: " ++ show (name (committer c))
                         ++ " <" ++ show (email (committer c)) ++ ">" ++ LF in
  let content := content ++ "Commit ID: " ++ id c ++ LF in
  let content := content ++ "Previous Commit: " ++ show (previousCommit c) ++ LF in
  let content := content ++ "Date: " ++ timestamp c ++ LF in
  let content := content ++ "Message: " ++ message c ++ LF ++ LF in
  let content := content ++ "============ CHANGED FILES ============" ++ LF in
  let content := file_lines (filesChanged c) content in
  let content := content ++ LF in
  let content := content ++ "============ DIFF OUTPUT ============" ++ LF in
  let content := content ++ diff c in
  let content := content ++ LF in
  let content := content ++ "===========================================" ++ LF ++ LF in
  content.

(** [JSON.stringify(commitInfo, null, 2)] *)
Definition logEntry (c : commit_info) : string :=
  match JSON.stringify_indent2 (commit_value c) with
  | Some text => text
  | None => "undefined"
  end.

(** [async logProcessedCommit(commitInfo)] *)
Definition logProcessedCommit (c : commit_info) : M unit :=
  try_catch
    (fs_mkdir LOGS_DIR ;;;
     fs_appendFile LOGS_DIR PROCESSED_LOG_NAME (logEntry c ++ LF ++ LF))
    (fun error => throw error).

(** [async syncToGoogleDocs(commitInfo)] *)
Definition syncToGoogleDocs (e : env) (x : externals) (c : commit_info) : M unit :=
  try_catch
    (match GOOGLE_DOCS_ID e, GOOGLE_APPLICATION_CREDENTIALS e with
     | Some googleDocsId, Some credentialsPath =>
         if (negb (present (GOOGLE_DOCS_ID e))
             || negb (present (GOOGLE_APPLICATION_CREDENTIALS e)))%bool
         then ret tt
         else
           found <- try_catch (fs_access credentialsPath ;;; ret true)
                              (fun _ => ret false) ;;
           if negb found then ret tt
           else
             lift (google_client x credentialsPath) ;;;
             let content := formatCommitForDocs c in
             h <- history ;;
             emit (DocsGet googleDocsId) ;;;
             doc <- lift (documents_get x h googleDocsId) ;;
             endIndex <- lift (GoogleDocsSync.last_endIndex doc) ;;
             h' <- history ;;
             emit (DocsBatchUpdate googleDocsId (endIndex - 1) content) ;;;
             lift (documents_batchUpdate x h' googleDocsId (endIndex - 1) content)
     | _, _ => ret tt
     end)
    (fun _ => ret tt).

Definition or_default (r : result string) (d : string) : string :=
  match r with Ok s => s | Throw _ => d end.

(** The object literal [commitInfo] of [processCommit]. *)
Definition commitInfo_of (x : externals) (now commitId : string)
    (previous committerName committerEmail : option string)
    (commitMsgParts : list string) : commit_info :=
  let changed := or_default (git_diff_tree x commitId) "" in
  let d := or_default (git_show x commitId) "Diff unavailable" in
  CommitInfo commitId previous (Committer committerName committerEmail)
             (join_words commitMsgParts) now (parse_files changed) d.

(** [async processCommit()]; [argv] is [process.argv.slice(2)], the
    result is the exit code. *)
Definition processCommit (e : env) (x : externals) (argv : list string) : M nat :=
  try_catch
    (let commitId := nth_error argv 0 in
     match commitId with
     | Some cid =>
         if negb (present commitId) then ret 1
         else
           h <- history ;;
           let c := commitInfo_of x (clock x h) cid (nth_error argv 1)
                      (nth_error argv 2) (nth_error argv 3) (skipn 4 argv) in
           logProcessedCommit c ;;;
           syncToGoogleDocs e x c ;;;
           ret 0
     | None => ret 1
     end)
    (fun _ => ret 1).

End ProcessCommit.

(* ================================================================== *)
(** * src/app.js: the body parser in front of the handlers             *)
(* ================================================================== *)

Module App.
Import Js Sys.
Local Open Scope string_scope.

(** The default [limit] of [express.json()]: 100kb, in bytes. *)
Definition limit : N := 102400.

(** What the body parser makes of a request: [req.body], or the status
    of the error it hands to the error middleware. *)
Inductive parsed_body : Type :=
| Body (v : value)
| Refused (code : nat).

(** [express.json()] on a request of type application/json: a body of
    more than [limit] bytes is refused with status 413; an empty body is
    the empty object; in strict mode the text must start an object or an
    array, and a text that does not parse is refused with status 400. *)
Definition express_json (raw : string) : parsed_body :=
  if (limit <? N.of_nat (String.length raw))%N then Refused 413
  else
    match raw with
    | EmptyString => Body (VObj [])
    | _ =>
        match JSON.peek raw with
        | Some (c, _) =>
            if (Ascii.eqb c "{" || Ascii.eqb c "[")%bool
            then match JSON.parse raw with
                 | Some v => Body v
                 | None => Refused 400
                 end
            else Refused 400
        | None => Refused 400
        end
    end.

(** What a POST to a mounted route gets back: the status of the body
    parser's error, sent by the error middleware
    ([res.status(error.status || 500)]), or the handler's response. *)
Inductive outcome : Type :=
| Rejected (code : nat)
| Handled (r : response).

End App.

(* ================================================================== *)
(** * test-commit.js: the script that simulates the post-commit hook   *)
(* ================================================================== *)

Module TestCommit.
Import Js Sys.
Local Open Scope string_scope.

(** [path.join(__dirname, 'logs')]: the script sits at the root of the
    repository, so this is the directory the server and the hook script
    log to. *)
Definition logsDir : string := "logs".

(** [n.toString(16)] of a time in milliseconds. *)
Definition toString16 (n : N) : string :=
  HexadecimalString.NilZero.string_of_uint (N.to_hex_uint n).

(** The template literal of [sampleCommit.diff]. *)
Definition sample_diff : string :=
  String.concat LF
    [ "diff --git a/test-file-1.js b/test-file-1.js";
      "new file mode 100644";
      "index 0000000..1234567";
      "--- /dev/null";
      "+++ b/test-file-1.js";
      "@@ -0,0 +1,3 @@";
      "+// This is a test file";
      "+console.log('Hello, world!');";
      "+// End of test file" ].

(** The object literal [sampleCommit]; [now1] and [now2] are the two
    results of [Date.now()], and [timestamp] is
    [new Date().toISOString()]. *)
Definition sampleCommit (now1 now2 : N) (timestamp : string) : ProcessCommit.commit_info :=
  ProcessCommit.CommitInfo
    ("sample-" ++ toString16 now1)
    (Some ("sample-previous-" ++ toString16 now2))
    (ProcessCommit.Committer (Some "Test User") (Some "test@example.com"))
    "Test commit from test-commit.js"
    timestamp
    [ProcessCommit.FileChange "A" (Some "test-file-1.js");
     ProcessCommit.FileChange "M" (Some "test-file-2.js");
     ProcessCommit.FileChange "D" (Some "test-file-3.js")]
    sample_diff.

(** [for (const file of sampleCommit.filesChanged) { .. }] *)
Fixpoint file_lines (fl : list ProcessCommit.file_change) (commitLog : string) : string :=
  match fl with
  | [] => commitLog
  | file :: r =>
      let statusSymbol :=
        if String.eqb (ProcessCommit.status file) "A" then "+"
        else if String.eqb (ProcessCommit.status file) "D" then "-" else "~" in
      file_lines r (commitLog ++ statusSymbol ++ " " ++ ProcessCommit.show (ProcessCommit.file file)
                      ++ LF)
  end.

(** The statements that format [commitLog] from [sampleCommit]. *)
Definition commitLog (sampleCommit : ProcessCommit.commit_info) : string :=
  let committer := ProcessCommit.committer sampleCommit in
  let commitLog := "" in
  let commitLog := commitLog ++ "==================== COMMIT DETAILS ====================" ++ LF in
  let commitLog := commitLog ++ "Committer: " ++ ProcessCommit.show (ProcessCommit.name committer)
                             ++ " <" ++ ProcessCommit.show (ProcessCommit.email committer)
                             ++ ">" ++ LF in
  let commitLog := commitLog ++ "Commit ID: " ++ ProcessCommit.id sampleCommit ++ LF in
  let commitLog := commitLog ++ "Previous Commit: "
                             ++ ProcessCommit.show (ProcessCommit.previousCommit sampleCommit)
                             ++ LF in
  let commitLog := commitLog ++ "Date: " ++ ProcessCommit.timestamp sampleCommit ++ LF in
  let commitLog := commitLog ++ "Message: " ++ ProcessCommit.message sampleCommit ++ LF ++ LF in
  let commitLog := commitLog ++ "============ CHANGED FILES ============" ++ LF in
  let commitLog := file_lines (ProcessCommit.filesChanged sampleCommit) commitLog in
  let commitLog := commitLog ++ LF in
  let commitLog := commitLog ++ "============ DIFF OUTPUT ============" ++ LF in
  let commitLog := commitLog ++ ProcessCommit.diff sampleCommit in
  let commitLog := commitLog ++ LF in
  let commitLog := commitLog ++ "===========================================" ++ LF ++ LF in
  commitLog.

(** The arguments the shell hands to process-commit.js for the command
    line [node script id previousCommit "name" "email" "message"]. *)
Definition argv (sampleCommit : ProcessCommit.commit_info) : list string :=
  let committer := ProcessCommit.committer sampleCommit in
  [ProcessCommit.id sampleCommit;
   ProcessCommit.show (ProcessCommit.previousCommit sampleCommit);
   ProcessCommit.show (ProcessCommit.name committer);
   ProcessCommit.show (ProcessCommit.email committer);
   ProcessCommit.message sampleCommit].

(** [async function main()]; the child process is the hook script, run
    to its exit code in the environment [e] it loads. *)
Definition main (e : env) (x : externals) (now1 now2 : N) : M unit :=
  try_catch
    (try_catch (fs_access logsDir) (fun _ => fs_mkdir logsDir) ;;;
     h <- history ;;
     let sampleCommit := sampleCommit now1 now2 (clock x h) in
     let commitLog := commitLog sampleCommit in
     fs_appendFile logsDir "commits.log" commitLog ;;;
     fs_appendFile logsDir "processed-commits.log"
       (ProcessCommit.logEntry sampleCommit ++ LF ++ LF) ;;;
     try_catch
       (code <- ProcessCommit.processCommit e x (argv sampleCommit) ;;
        if Nat.eqb code 0 then ret tt
        else throw (Error "Command failed: node src/scripts/process-commit.js"))
       (fun _ => ret tt))
    (fun _ => ret tt).

End TestCommit.

(* ================================================================== *)
(** * src/routes/webhook.js and axios.post, as client-test.js uses it   *)
(* ================================================================== *)

Module Routes.
Import Js Sys.
Local Open Scope string_scope.

(** POST to the generic webhook route, mounted under [/api] behind the
    body parser: the raw body. *)
Definition post_webhook (e : env) (x : externals) (raw : string) : M App.outcome :=
  match App.express_json raw with
  | App.Body parsed =>
      r <- WebhookController.handleWebhook e x parsed ;;
      ret (App.Handled r)
  | App.Refused code => ret (App.Rejected code)
  end.

End Routes.

Module Axios.
Import Js Sys.
Local Open Scope string_scope.

(** The request body made of a payload object: [JSON.stringify(payload)];
    nothing is sent for [undefined]. *)
Definition request_body (payload : value) : string :=
  match JSON.stringify payload with Some text => text | None => "" end.

(** [validateStatus]: the promise resolves for a status in [200, 300). *)
Definition resolved (code : nat) : bool := (Nat.leb 200 code && Nat.ltb code 300)%bool.

(** [response.data] for a body the server sent with [res.json(body)]: the
    text is parsed back, and a text that does not parse is kept as it
    is. *)
Definition response_data (body : value) : value :=
  match JSON.stringify body with
  | Some text => match JSON.parse text with Some v => v | None => VStr text end
  | None => VStr ""
  end.

(** [await axios.post(..)], given what the server did: [response.data],
    or the rejection for a status outside the range. *)
Definition settle (outcome : App.outcome) : result value :=
  let failed code :=
    Throw (Error ("Request failed with status code " ++ Number_toString (num_of_nat code))) in
  match outcome with
  | App.Handled response =>
      if resolved (status response) then Ok (response_data (body response))
      else failed (status response)
  | App.Rejected code => failed code
  end.

End Axios.

(* ================================================================== *)
(** * The GitHub webhook test client (src/unnamed/part_001)            *)
(* ================================================================== *)

Module GithubTestClient.
Import Js Sys.
Local Open Scope string_scope.

(** [config.secretKey]: [process.env.GITHUB_WEBHOOK_SECRET || 'test-secret'] *)
Definition secretKey (e : env) : string :=
  match GITHUB_WEBHOOK_SECRET e with
  | Some secret => if present (GITHUB_WEBHOOK_SECRET e) then secret else "test-secret"
  | None => "test-secret"
  end.

(** [generateSamplePushPayload(committerName, committerEmail, commitMessage)];
    [now] is [new Date().toISOString()], and [random1], [random2] are
    the bytes of the two calls of [crypto.randomBytes(20)]. *)
Definition generateSamplePushPayload (now : string) (random1 random2 : list Z)
    (committerName committerEmail commitMessage : string) : value :=
  let commitId := Bytes.to_hex random1 in
  let previousCommit := Bytes.to_hex random2 in
  VObj [("ref", VStr "refs/heads/main");
        ("before", VStr previousCommit);
        ("after", VStr commitId);
        ("repository",
         VObj [("id", VNum (Finite false 123456789 0));
               ("name", VStr "example-repo");
               ("full_name", VStr "user/example-repo");
               ("private", VBool false);
               ("owner", VObj [("name", VStr "user"); ("email", VStr "user@example.com")]);
               ("html_url", VStr "https://github.com/user/example-repo");
               ("description", VStr "Example repository for testing");
               ("created_at", VStr now);
               ("updated_at", VStr now);
               ("pushed_at", VStr now)]);
        ("pusher", VObj [("name", VStr committerName); ("email", VStr committerEmail)]);
        ("commits",
         VArr [VObj [("id", VStr commitId);
                     ("message", VStr commitMessage);
                     ("timestamp", VStr now);
                     ("url", VStr ("https://github.com/user/example-repo/commit/" ++ commitId));
                     ("author", VObj [("name", VStr committerName);
                                      ("email", VStr committerEmail)]);
                     ("committer", VObj [("name", VStr committerName);
                                         ("email", VStr committerEmail)]);
                     ("added", VArr [VStr "new-file.txt"]);
                     ("removed", VArr []);
                     ("modified", VArr [VStr "modified-file.txt"])]])].

(** [generateSignature(payload, secret)] *)
Definition generateSignature (payload : value) (secret : string) : result string :=
  do text <- GithubController.signed_text payload;
  Ok ("sha256=" ++ HMAC.hmac_sha256_hex secret text).

End GithubTestClient.

(* ================================================================== *)
(** * src/client-test.js: the test client of the generic webhook       *)
(* ================================================================== *)

Module WebhookTestClient.
Import Js Sys.
Local Open Scope string_scope.

(** [config.defaultModel] *)
Definition defaultModel : string := "gpt-3.5-turbo".

(** The object literal [payload] of [sendWebhookRequest]. *)
Definition payload (prompt model : string) : value :=
  VObj [("event", VStr "content_request");
        ("data", VObj [("prompt", VStr prompt);
                       ("model", VStr model);
                       ("temperature", VNum (Finite false 7 (-1)));
                       ("max_tokens", VNum (Finite false 500 0))])].

(** What [sendWebhookRequest] reads of [response.data] to print it. *)
Definition report (data : value) : result unit :=
  do inner <- get data "data";
  do _ <- get inner "generated_content";
  do inner <- get data "data";
  do model_used <- get inner "model_used";
  do _ <- ToString model_used;
  do inner <- get data "data";
  do total_tokens <- get inner "total_tokens";
  do _ <- ToString total_tokens;
  Ok tt.

(** [async function sendWebhookRequest(prompt, model = config.defaultModel)];
    [post] is the server behind [config.webhookUrl], which gets the
    request body.  The result is [response.data], or [None] for
    [null]. *)
Definition sendWebhookRequest (post : string -> M App.outcome)
    (prompt : string) (model : option string) : M (option value) :=
  let model := match model with Some m => m | None => defaultModel end in
  try_catch
    (outcome <- post (Axios.request_body (payload prompt model)) ;;
     data <- lift (Axios.settle outcome) ;;
     lift (report data) ;;;
     ret (Some data))
    (fun _ => ret None).

End WebhookTestClient.

(* ================================================================== *)
(** * Vocabulary of the properties                                    *)
(* ================================================================== *)


Import Js Sys.
Local Open Scope string_scope.


(** Text with single quotes standing for double quotes, for examples. *)
Fixpoint dq (s : string) : string :=
  match s with
  | EmptyString => EmptyString
  | String c r => String (if Ascii.eqb c "'" then dquote else c) (dq r)
  end.

(** ** Sample environments, services and worlds *)

Definition no_secret : env := Env None None None None.
Definition with_secret : env := Env (Some "s3cret") None None None.
Definition with_api_key : env := Env None (Some "sk-test") None None.
Definition credentials_only : env :=
  Env None None None (Some "google-credentials.json").
Definition document_only : env := Env None None (Some "doc-1") None.

(** Services that answer every request, and a fixed clock. *)
Definition quiet : externals :=
  Externals (fun _ => "2024-01-01T00:00:00.000Z")
            (fun _ => Ok tt) (fun _ _ => Ok [2%Z]) (fun _ _ _ _ => Ok tt)
            (fun _ _ => Ok (Completion (VStr "hello") None))
            (fun _ => Ok "") (fun _ => Ok "").

(** The error of a write on a file system that is mounted read-only. *)
Definition erofs (call path : string) : error :=
  Error ("EROFS: read-only file system, " ++ call ++ " '" ++ path ++ "'").

(** A writable, empty file system, the singleton as constructed, and an
    empty trace. *)
Definition fresh : world := World (Fs [] [] false erofs) GoogleDocsSync.constructor [].

(** ** Generic webhook handler *)

Definition status_of (r : result response * world) : option nat :=
  match fst r with
  | Ok resp => Some (status resp)
  | Throw _ => None
  end.

(** ** Generic webhook handler: defaults of a content request *)

Definition zero_options : value :=
  VObj [("prompt", VStr ""); ("temperature", VNum (Finite false 0 0));
        ("max_tokens", VNum (Finite false 0 0))].

Definition request_sent_for_zero_options : chat_request :=
  ChatRequest (VStr "gpt-3.5-turbo") "You are a helpful assistant."
              (VStr "Tell me something interesting")
              (VNum (Finite false 7 (-1))) (VNum (Finite false 500 0)).

(** ** Doc Sync client: the integration is disabled without configuration *)

(** The singleton is marked initialized only after a credentials path was
    found in the environment. *)
Definition consistent (e : env) (s : docs_sync) : Prop :=
  initialized s = true -> present (GOOGLE_APPLICATION_CREDENTIALS e) = true.

(** The worlds a process with environment [e] can be in: it starts with a
    freshly constructed singleton, appends to the document, and does other
    work that leaves the singleton alone. *)
Inductive reachable (e : env) (x : externals) : world -> Prop :=
| reach_start : forall f t,
    reachable e x (World f GoogleDocsSync.constructor t)
| reach_append : forall w content documentId,
    reachable e x w ->
    reachable e x (snd (GoogleDocsSync.appendToDocument e x content documentId w))
| reach_frame : forall w f t,
    reachable e x w -> reachable e x (World f (sync w) t).

(** Computations that keep a property of the singleton. *)
Definition preserves {A} (Q : docs_sync -> Prop) (m : M A) : Prop :=
  forall w, Q (sync w) -> Q (sync (snd (m w))).

(** ** Plaintext layout of a commit entry *)

(** Lines, each ended by a line feed. *)
Definition unlines (lines : list string) : string :=
  String.concat "" (map (fun l => l ++ LF) lines).

(** The status symbol as §4.1 words it: Added is [+], Deleted is [-],
    anything else is [~]. *)
Definition layout_symbol (st : string) : string :=
  if String.eqb st "A" then "+" else if String.eqb st "D" then "-" else "~".

(** The fixed plaintext layout of §4.1, line by line. *)
Definition layout_head (c : ProcessCommit.commit_info) : list string :=
  let committer := ProcessCommit.committer c in
  [ "==================== COMMIT DETAILS ====================";
    "Committer: " ++ ProcessCommit.show (ProcessCommit.name committer)
      ++ " <" ++ ProcessCommit.show (ProcessCommit.email committer) ++ ">";
    "Commit ID: " ++ ProcessCommit.id c;
    "Previous Commit: " ++ ProcessCommit.show (ProcessCommit.previousCommit c);
    "Date: " ++ ProcessCommit.timestamp c;
    "Message: " ++ ProcessCommit.message c;
    "";
    "============ CHANGED FILES ============" ].

Definition layout_file (f : ProcessCommit.file_change) : string :=
  layout_symbol (ProcessCommit.status f) ++ " " ++ ProcessCommit.show (ProcessCommit.file f).

Definition layout_tail (c : ProcessCommit.commit_info) : list string :=
  [ "";
    "============ DIFF OUTPUT ============";
    ProcessCommit.diff c;
    "===========================================";
    "" ].

Definition plaintext_layout (c : ProcessCommit.commit_info) : string :=
  unlines (layout_head c ++ map layout_file (ProcessCommit.filesChanged c)
             ++ layout_tail c)%list.

(** ** What a computation adds to the trace *)

Definition emits {A} (P : event -> Prop) (m : M A) : Prop :=
  forall w, exists l, trace (snd (m w)) = (trace w ++ l)%list /\ Forall P l.

(** ** The entries the push handler appends to commits.log *)

(** What the GitHub handler may add to the trace: a directory creation,
    requests to the document, and appends to commits.log of a text that
    starts with the repository line. *)
Definition push_log_event (ev : event) : Prop :=
  match ev with
  | FsAppendFile p c =>
      p = GithubController.COMMITS_LOG_FILE /\ prefix "Repository: " c = true
  | ChatCompletionsCreate _ => False
  | _ => True
  end.

(** What the hook script's Doc Sync step may add to the trace: a fetch,
    and an insertion of the formatted commit. *)
Definition doc_entry_event (c : ProcessCommit.commit_info) (ev : event) : Prop :=
  match ev with
  | DocsGet _ => True
  | DocsBatchUpdate _ _ text => text = plaintext_layout c
  | _ => False
  end.

Definition sample_push : value :=
  VObj [("ref", VStr "refs/heads/main");
        ("before", VStr "1111111");
        ("after", VStr "2222222");
        ("repository", VObj [("full_name", VStr "octo/repo")]);
        ("pusher", VObj [("name", VStr "Ann"); ("email", VStr "ann@example.com")]);
        ("commits",
         VArr [VObj [("id", VStr "2222222");
                     ("message", VStr "Fix typo");
                     ("committer", VObj [("name", VStr "Ann");
                                         ("email", VStr "ann@example.com")]);
                     ("added", VArr [VStr "a.txt"]);
                     ("removed", VArr []);
                     ("modified", VArr [VStr "b.txt"])]])].

Definition sample_push_entry : string :=
  unlines [ "Repository: octo/repo";
            "Branch: main";
            "Pushed by: Ann (ann@example.com)";
            "Date: 2024-01-01T00:00:00.000Z";
            "";
            repeat_string "=" 80;
            "Committer: Ann (ann@example.com)";
            "Commit ID: 2222222";
            "Previous Commit: 1111111";
            "Message: Fix typo";
            "";
            "Added Files:";
            "  + a.txt";
            "";
            "Modified Files:";
            "  ~ b.txt";
            "";
            "" ].

(** ** JSON: what is printed parses back *)

(** The value a JSON text of [v] denotes: a property whose value is
    [undefined] is gone, an [undefined] array element is [null]. *)
Fixpoint json_image (v : value) : value :=
  match v with
  | VUndefined => VNull
  | VNum NaN | VNum (Infinity _) => VNull
  | VArr items => VArr (map json_image items)
  | VObj ps =>
      VObj (flat_map
              (fun kv =>
                 match snd kv with
                 | VUndefined => []
                 | _ => [(fst kv, json_image (snd kv))]
                 end) ps)
  | _ => v
  end.

Definition is_undefined (v : value) : bool :=
  match v with VUndefined => true | _ => false end.

(** The properties [JSON.stringify] prints. *)
Definition members (ps : list (string * value)) : list (string * value) :=
  filter (fun kv => negb (is_undefined (snd kv))) ps.

(** Values made of strings, booleans, [null], arrays and objects, whose
    printed keys are distinct and are not array indices. *)
Fixpoint plain (v : value) : Prop :=
  match v with
  | VUndefined | VNum _ => False
  | VNull | VBool _ | VStr _ => True
  | VArr items => fold_right (fun x acc => plain x /\ acc) True items
  | VObj ps =>
      NoDup (map fst (members ps))
      /\ Forall (fun k => JSON.array_index k = None) (map fst (members ps))
      /\ fold_right (fun kv acc => (snd kv = VUndefined \/ plain (snd kv)) /\ acc) True ps
  end.

(** Fuel that suffices to parse the text of a value. *)
Fixpoint need (v : value) : nat :=
  match v with
  | VArr items => S (fold_right (fun x n => S (need x + n)) 0 items)
  | VObj ps =>
      S (fold_right
           (fun kv n => if is_undefined (snd kv) then n else S (need (snd kv) + n)) 0 ps)
  | _ => 1
  end.

Section ValueInduction.
Variable P : value -> Prop.
Hypothesis P_undefined : P VUndefined.
Hypothesis P_null : P VNull.
Hypothesis P_bool : forall b, P (VBool b).
Hypothesis P_num : forall n, P (VNum n).
Hypothesis P_str : forall s, P (VStr s).
Hypothesis P_arr : forall items, Forall P items -> P (VArr items).
Hypothesis P_obj : forall ps, Forall (fun kv => P (snd kv)) ps -> P (VObj ps).

Fixpoint value_induction (v : value) : P v :=
  match v with
  | VUndefined => P_undefined
  | VNull => P_null
  | VBool b => P_bool b
  | VNum n => P_num n
  | VStr s => P_str s
  | VArr items =>
      P_arr items
        ((fix all (l : list value) : Forall P l :=
            match l with
            | [] => Forall_nil P
            | x :: r => Forall_cons x (value_induction x) (all r)
            end) items)
  | VObj ps =>
      P_obj ps
        ((fix all (l : list (string * value)) : Forall (fun kv => P (snd kv)) l :=
            match l with
            | [] => Forall_nil _
            | kv :: r => Forall_cons kv (value_induction (snd kv)) (all r)
            end) ps)
  end.
End ValueInduction.

(** *** White space *)

Fixpoint all_ws (s : string) : bool :=
  match s with
  | EmptyString => true
  | String c r => (JSON.is_ws c && all_ws r)%bool
  end.

(** *** Arrays and objects *)

Definition ws_open (gap ind : string) : string :=
  if String.eqb gap "" then "" else LF ++ ind ++ gap.

Definition ws_close (gap ind : string) : string :=
  if String.eqb gap "" then "" else LF ++ ind.

(** Where the text of a value can start. *)
Definition value_start (c : ascii) : bool :=
  (Ascii.eqb c dquote || Ascii.eqb c "[" || Ascii.eqb c "{"
   || Ascii.eqb c "t" || Ascii.eqb c "f" || Ascii.eqb c "n")%bool.

(** The statement proved by induction on the value. *)
Definition parses_back (v : value) : Prop :=
  plain v ->
  forall (gap ind w : string) (fuel : nat) (rest : string),
    all_ws gap = true -> all_ws ind = true -> all_ws w = true -> need v <= fuel ->
    JSON.parse_value fuel (w ++ JSON.ser gap ind v ++ rest) = Some (json_image v, rest).

Definition need_elements (items : list value) : nat :=
  fold_right (fun x n => S (need x + n)) 0 items.

Definition colon_space (gap : string) : string :=
  if String.eqb gap "" then "" else " ".

(** The text of one property. *)
Definition member_text (gap ind : string) (kv : string * value) : string :=
  JSON.quote (fst kv) ++ ":" ++ colon_space gap ++ JSON.ser gap (ind ++ gap) (snd kv).

Definition member_image (kv : string * value) : string * value :=
  (fst kv, json_image (snd kv)).

Definition need_members (ms : list (string * value)) : nat :=
  fold_right (fun kv n => S (need (snd kv) + n)) 0 ms.

(** ** The JSON log of processed commits *)

(** Lines joined by line feeds. *)
Definition unlines_but_last (lines : list string) : string := String.concat LF lines.

(** Reading a commit record back from a parsed entry: a property that
    is absent reads as [undefined]. *)
Definition field (v : value) (k : string) : value :=
  match v with
  | VObj ps => match lookup k ps with Some x => x | None => VUndefined end
  | _ => VUndefined
  end.

Definition read_string (v : value) : option string :=
  match v with VStr s => Some s | _ => None end.

Definition read_optional (v : value) : option (option string) :=
  match v with
  | VStr s => Some (Some s)
  | VUndefined => Some None
  | _ => None
  end.

Definition read_file (v : value) : option ProcessCommit.file_change :=
  match read_string (field v "status"), read_optional (field v "file") with
  | Some st, Some f => Some (ProcessCommit.FileChange st f)
  | _, _ => None
  end.

Fixpoint read_all {A} (read : value -> option A) (items : list value) : option (list A) :=
  match items with
  | [] => Some []
  | x :: r =>
      match read x, read_all read r with
      | Some a, Some l => Some (a :: l)
      | _, _ => None
      end
  end.

Definition read_files (v : value) : option (list ProcessCommit.file_change) :=
  match v with VArr items => read_all read_file items | _ => None end.

Definition read_commit (v : value) : option ProcessCommit.commit_info :=
  match read_string (field v "id"),
        read_optional (field v "previousCommit"),
        read_optional (field (field v "committer") "name"),
        read_optional (field (field v "committer") "email"),
        read_string (field v "message"),
        read_string (field v "timestamp"),
        read_files (field v "filesChanged"),
        read_string (field v "diff")
  with
  | Some i, Some p, Some n, Some e, Some m, Some t, Some fl, Some d =>
      Some (ProcessCommit.CommitInfo i p (ProcessCommit.Committer n e) m t fl d)
  | _, _, _, _, _, _, _, _ => None
  end.

(** The keys of an object, in property order. *)
Definition keys (v : value) : list string :=
  match v with VObj ps => map fst ps | _ => [] end.

(** The keys of a log entry, in the order they are written: the stable
    order, without [previousCommit] when the hook passed none. *)
Definition entry_keys (c : ProcessCommit.commit_info) : list string :=
  ("id"
   :: match ProcessCommit.previousCommit c with
      | Some _ => ["previousCommit"]
      | None => []
      end
   ++ ["committer"; "message"; "timestamp"; "filesChanged"; "diff"])%list.

(** What the hook script may add to the trace: the creation of the logs
    directory, requests to the document, and appends to
    processed-commits.log of the text of a commit record followed by two
    line feeds. *)
Definition json_log_event (ev : event) : Prop :=
  match ev with
  | FsAppendFile p text =>
      p = ProcessCommit.PROCESSED_LOG_FILE
      /\ exists c, text = ProcessCommit.logEntry c ++ LF ++ LF
  | ChatCompletionsCreate _ => False
  | _ => True
  end.

Definition sample_commit : ProcessCommit.commit_info :=
  ProcessCommit.CommitInfo "2222222" (Some "1111111")
    (ProcessCommit.Committer (Some "Ann") None)
    "Fix typo" "2024-01-01T00:00:00.000Z"
    [ProcessCommit.FileChange "A" (Some "a.txt");
     ProcessCommit.FileChange "M" (Some "b.txt")]
    (dq "+say 'hi' \ bye" ++ LF ++ TAB ++ "end").

(** ** Further properties of the handlers, the scripts and the clients *)

(** The request passes the signature gate of the GitHub handler: no
    secret is configured, or the signature verifies. *)
Definition accepted (e : env) (payload : value) (signature : option string) : Prop :=
  present (GITHUB_WEBHOOK_SECRET e) = false
  \/ GithubController.verifyGithubWebhook e payload signature = Ok true.

(** The logs directory exists, or nothing stands in its place. *)
Definition logs_dir_available (st : fs_state) : Prop :=
  has_dir GithubController.LOGS_DIR st = true
  \/ file_content GithubController.LOGS_DIR (files st) = None.

(** The first write of [appendToCommitLog]: the open of commits.log
    where the logs directory exists, the mkdir where it does not; and the
    error of a file system that refuses it. *)
Definition refused_event (content : string) (st : fs_state) : event :=
  if has_dir GithubController.LOGS_DIR st
  then FsAppendFile GithubController.COMMITS_LOG_FILE content
  else FsMkdir GithubController.LOGS_DIR.

Definition refused_write (st : fs_state) : error :=
  if has_dir GithubController.LOGS_DIR st
  then refusal st "open" GithubController.COMMITS_LOG_FILE
  else refusal st "mkdir" GithubController.LOGS_DIR.

(** The event of making directory [d], when it does not exist yet. *)
Definition mkdir_if_missing (d : string) (st : fs_state) : list event :=
  if has_dir d st then [] else [FsMkdir d].

(** The directories once [d] exists. *)
Definition with_dir (d : string) (st : fs_state) : list string :=
  if has_dir d st then dirs st else d :: dirs st.

(** The document a call of [appendToDocument] addresses:
    [documentId || process.env.GOOGLE_DOCS_ID]. *)
Definition target_document (e : env) (documentId : option string) : option string :=
  if present documentId then documentId else GOOGLE_DOCS_ID e.

(** [f] applied to each element in order, where [f] may throw: the
    first exception wins. *)
Fixpoint traverse {A B} (f : A -> result B) (l : list A) : result (list B) :=
  match l with
  | [] => Ok []
  | a :: r => do b <- f a; do bs <- traverse f r; Ok (b :: bs)
  end.

(** A substring test: [s.includes(pat)]. *)
Fixpoint occurs (pat s : string) : bool :=
  (prefix pat s
   || match s with
      | EmptyString => false
      | String _ r => occurs pat r
      end)%bool.

(** The text the push handler builds for a payload with a list of
    commits, at the time the clock shows after the trace [h]. *)
Definition push_entry (x : externals) (h : list event) (ps : list (string * value))
    (commits : list value) : result string :=
  GithubController.format_push (VObj ps) (field (VObj ps) "repository") (VArr commits)
    (field (VObj ps) "pusher") (field (VObj ps) "before") (clock x h).

(** The content of the file at [p]; a file that does not exist yet has
    none. *)
Definition content_of (p : string) (st : fs_state) : string :=
  match file_content p (files st) with Some old => old | None => "" end.

(** An environment with the Doc Sync integration configured. *)
Definition docs_configured : env :=
  Env None None (Some "doc-1") (Some "google-credentials.json").

(** The same process with another credentials path. *)
Definition with_credentials (e : env) (path : option string) : env :=
  Env (GITHUB_WEBHOOK_SECRET e) (OPENAI_API_KEY e) (GOOGLE_DOCS_ID e) path.

(** The same outside world with another constructor of the client. *)
Definition with_google_client (x : externals) (client : string -> result unit) : externals :=
  Externals (clock x) client (documents_get x) (documents_batchUpdate x)
            (chat_completions_create x) (git_diff_tree x) (git_show x).

(** The credentials path is set and a client can be built from it. *)
Definition client_available (e : env) (x : externals) : Prop :=
  exists path,
    GOOGLE_APPLICATION_CREDENTIALS e = Some path /\ path <> ""
    /\ google_client x path = Ok tt.

(** The record the hook script builds from its arguments. *)
Definition commit_of_argv (x : externals) (now commitId : string) (rest : list string) :
  ProcessCommit.commit_info :=
  ProcessCommit.commitInfo_of x now commitId (nth_error rest 0) (nth_error rest 1)
    (nth_error rest 2) (skipn 3 rest).

(** One line of [git diff-tree --name-status]: status, tab, path. *)
Definition name_status_line (f : string * string) : string :=
  fst f ++ TAB ++ snd f ++ LF.

(** [c] does not occur in [s]. *)
Fixpoint no_char (c : ascii) (s : string) : bool :=
  match s with
  | EmptyString => true
  | String d r => (negb (Ascii.eqb d c) && no_char c r)%bool
  end.

(** A status and a path as git prints them: no tab or line feed inside,
    and a status that is not empty. *)
Definition printable_change (f : string * string) : Prop :=
  fst f <> ""
  /\ no_char "009" (fst f) = true /\ no_char "010" (fst f) = true
  /\ no_char "009" (snd f) = true /\ no_char "010" (snd f) = true.

(** [fs.access(p)] succeeds. *)
Definition on_disk (p : string) (st : fs_state) : bool :=
  (has_dir p st
   || match file_content p (files st) with Some _ => true | None => false end)%bool.

(** The [data] of the 200 response to a content request. *)
Definition content_response (request : chat_request) (c : completion) : value :=
  VObj [("generated_content", content c);
        ("model_used", req_model request);
        ("prompt_tokens", WebhookController.usage_field prompt_tokens c);
        ("completion_tokens", WebhookController.usage_field completion_tokens c);
        ("total_tokens", WebhookController.usage_field total_tokens c)].

(** The 500 response to a content request that failed with [message]. *)
Definition webhook_failure (message : string) : response :=
  Response 500 (VObj [("success", VBool false);
                      ("message", VStr "Error processing webhook");
                      ("error", VStr ("Failed to generate AI content: " ++ message))]).

(** What follows the text of a member's value in compact JSON. *)
Definition delimiter (rest : string) : Prop :=
  exists c r, rest = String c r /\ (c = "," \/ c = "}")%char.

(** The compact text of a value, followed by a delimiter, parses back
    to the value it denotes. *)
Definition reads_back (v : value) : Prop :=
  forall (fuel : nat) (rest : string),
    need v <= fuel -> delimiter rest ->
    JSON.parse_value fuel (JSON.ser "" "" v ++ rest) = Some (json_image v, rest).

(** The entry the server logs for the test client's sample push, line
    by line; [date] is the server's clock. *)
Definition client_push_entry (date : string) (random1 random2 : list Z)
    (committerName committerEmail commitMessage : string) : string :=
  unlines [ "Repository: user/example-repo";
            "Branch: main";
            "Pushed by: " ++ committerName ++ " (" ++ committerEmail ++ ")";
            "Date: " ++ date;
            "";
            repeat_string "=" 80;
            "Committer: " ++ committerName ++ " (" ++ committerEmail ++ ")";
            "Commit ID: " ++ Bytes.to_hex random1;
            "Previous Commit: " ++ Bytes.to_hex random2;
            "Message: " ++ commitMessage;
            "";
            "Added Files:";
            "  + new-file.txt";
            "";
            "Modified Files:";
            "  ~ modified-file.txt";
            "";
            "" ].

(** The server checks the signature with the key the client signs with,
    or checks none. *)
Definition keys_agree (client server : env) : Prop :=
  present (GITHUB_WEBHOOK_SECRET server) = false
  \/ GITHUB_WEBHOOK_SECRET server = Some (GithubTestClient.secretKey client).

(** The chat request the server makes of the webhook client's payload. *)
Definition client_request (prompt model : string) : chat_request :=
  ChatRequest (or_else (VStr model) WebhookController.default_model)
              "You are a helpful assistant."
              (or_else (VStr prompt) WebhookController.default_prompt)
              (VNum (Finite false 7 (-1))) (VNum (Finite false 500 0)).

(** What the webhook client gets back for a generated text, when the
    completion carries no usage: the token counts are not in the JSON. *)
Definition client_view (text : string) (model : string) : value :=
  VObj [("success", VBool true);
        ("message", VStr "Webhook processed successfully");
        ("data", VObj [("generated_content", VStr text);
                       ("model_used", or_else (VStr model) WebhookController.default_model)])].

(* ================================================================== *)
(** * Properties                                                       *)
(* ================================================================== *)

(** ** GitHub webhook handler: the event header gate *)

(** C6. A request without the X-GitHub-Event header is answered with
    status 400 and leaves the world as it was: no directory is made, no
    file is appended to, no request leaves the process.  This holds of
    the handler for every payload and every signature header, whatever
    the environment and the state of the world. *)
Theorem missing_event_header_400 :
  forall (e : env) (x : externals) (signature : option string) (payload : value)
         (w : world),
    GithubController.handleGithubWebhook e x
      (GithubController.Request None signature payload) w
    = (Ok (Response 400 (VObj [("success", VBool false);
                               ("message", VStr "Missing X-GitHub-Event header")])),
       w).
Proof.
  intros e x signature payload w. reflexivity.
Qed.

(** ** GitHub webhook handler: pushes without commits *)

Lemma get_Ok_total (payload : value) (k : string) (v : value) :
  get payload k = Ok v ->
  (forall k', exists v', get payload k' = Ok v')
  /\ forall first source, destructure first source payload = Ok tt.
Proof.
  destruct payload; cbn; try discriminate; intros _; split; eauto.
Qed.

Lemma handlePushEvent_no_commits (e : env) (x : externals) (payload : value) (w : world) :
  get payload "commits" = Ok VUndefined \/ get payload "commits" = Ok (VArr []) ->
  GithubController.handlePushEvent e x payload w = (Ok tt, w).
Proof.
  intros H.
  assert (Htotal : (forall k', exists v', get payload k' = Ok v')
                   /\ forall first source, destructure first source payload = Ok tt)
    by (destruct H as [H | H]; exact (get_Ok_total _ _ _ H)).
  destruct Htotal as [Hget Hdes].
  unfold GithubController.handlePushEvent, try_catch, mbind, lift, ret.
  rewrite Hdes.
  destruct (Hget "repository") as [r ->]. destruct (Hget "pusher") as [p ->].
  destruct (Hget "after") as [a ->]. destruct (Hget "before") as [b ->].
  destruct H as [-> | ->]; reflexivity.
Qed.

(** C7 (as amended). A push whose payload has no commits list, or an
    empty one, and which passes the signature gate (no secret is
    configured, or the signature verifies) is answered with status 200
    and leaves the world as it was. *)
Theorem push_without_commits_200 :
  forall (e : env) (x : externals) (signature : option string)
         (payload : value) (w : world),
    get payload "commits" = Ok VUndefined \/ get payload "commits" = Ok (VArr []) ->
    present (GITHUB_WEBHOOK_SECRET e) = false
      \/ GithubController.verifyGithubWebhook e payload signature = Ok true ->
    GithubController.handleGithubWebhook e x
      (GithubController.Request (Some "push") signature payload) w
    = (Ok (Response 200 (VObj [("success", VBool true);
                               ("message", VStr "Successfully processed push event")])),
       w).
Proof.
  intros e x signature payload w Hc Hgate.
  unfold GithubController.handleGithubWebhook, try_catch, mbind.
  cbn [GithubController.x_github_event GithubController.x_hub_signature_256
       GithubController.req_body].
  change (present (Some "push")) with true. cbn [negb].
  change (String.eqb "push" "push") with true. cbv iota.
  assert (Hvalid :
    (if present (GITHUB_WEBHOOK_SECRET e)
     then lift (GithubController.verifyGithubWebhook e payload signature)
     else ret true) w = (Ok true, w)).
  { destruct Hgate as [-> | Hv]; [reflexivity |].
    destruct (present (GITHUB_WEBHOOK_SECRET e)); [| reflexivity].
    unfold lift. now rewrite Hv. }
  rewrite Hvalid. cbn [negb].
  rewrite (handlePushEvent_no_commits e x payload w Hc). reflexivity.
Qed.

Lemma push_without_commits_200_witness :
  GithubController.handleGithubWebhook no_secret quiet
    (GithubController.Request (Some "push") None (VObj [("commits", VArr [])])) fresh
  = (Ok (Response 200 (VObj [("success", VBool true);
                             ("message", VStr "Successfully processed push event")])),
     fresh)
  /\ GithubController.handleGithubWebhook with_secret quiet
       (GithubController.Request (Some "push")
          (Some ("sha256=" ++ HMAC.hmac_sha256_hex "s3cret" (dq "{'ref':'refs/heads/main'}")))
          (VObj [("ref", VStr "refs/heads/main")])) fresh
     = (Ok (Response 200 (VObj [("success", VBool true);
                                ("message", VStr "Successfully processed push event")])),
        fresh).
Proof.
  split.
  - apply (push_without_commits_200 no_secret quiet None (VObj [("commits", VArr [])]) fresh).
    + right. reflexivity.
    + left. reflexivity.
  - apply (push_without_commits_200 with_secret quiet _
             (VObj [("ref", VStr "refs/heads/main")]) fresh).
    + left. reflexivity.
    + right. vm_compute. reflexivity.
Defined.

(** C7 fails as stated: with a secret configured and no signature
    header, a push with an empty commits list is answered with 401. *)
Lemma push_without_commits_unsigned_401 :
  GithubController.handleGithubWebhook with_secret quiet
    (GithubController.Request (Some "push") None (VObj [("commits", VArr [])])) fresh
  = (Ok (Response 401 (VObj [("success", VBool false);
                             ("message", VStr "Invalid webhook signature")])),
     fresh).
Proof. reflexivity. Qed.

(** ** Generic webhook handler *)

(** C8 (as amended). When [event] is missing or falsy the answer is
    400; when [event] is truthy, is not [content_request] and converts
    to a string (as every non-empty string does) the answer is 200 with
    [data] null.  In both cases the world is as it was: no
    chat-completion request is made. *)
Theorem webhook_event_dispatch :
  forall (e : env) (x : externals) (body : value) (w : world),
    (forall ev, get body "event" = Ok ev -> truthy ev = false ->
       status_of (WebhookController.handleWebhook e x body w) = Some 400
       /\ snd (WebhookController.handleWebhook e x body w) = w)
    /\ (forall ev name, get body "event" = Ok ev -> truthy ev = true ->
          is_string ev "content_request" = false -> ToString ev = Ok name ->
       WebhookController.handleWebhook e x body w
       = (Ok (Response 200 (VObj [("success", VBool true);
                                  ("message", VStr ("Received webhook event: " ++ name));
                                  ("data", VNull)])), w))
    /\ truthy VUndefined = false
    /\ (forall name, name <> "" -> name <> "content_request" ->
          truthy (VStr name) = true
          /\ is_string (VStr name) "content_request" = false
          /\ ToString (VStr name) = Ok name).
Proof.
  intros e x body w.
  unfold WebhookController.handleWebhook, status_of, try_catch, mbind, lift.
  split; [| split; [| split; [reflexivity |]]].
  - intros ev Hev Hf.
    destruct (get_Ok_total _ _ _ Hev) as [Hget Hdes].
    rewrite Hdes, Hev. destruct (Hget "data") as [d ->].
    cbn beta iota. rewrite Hf. cbn. split; reflexivity.
  - intros ev name Hev Ht Hcr Hs.
    destruct (get_Ok_total _ _ _ Hev) as [Hget Hdes].
    rewrite Hdes, Hev. destruct (Hget "data") as [d ->].
    cbn beta iota. rewrite Ht, Hcr, Hs. reflexivity.
  - intros name Hne Hcr. cbn [truthy is_string ToString].
    destruct (String.eqb_spec name "") as [E | _]; [contradiction |].
    destruct (String.eqb_spec name "content_request") as [E | _]; [contradiction |].
    repeat split.
Qed.

Lemma webhook_event_dispatch_witness :
  status_of (WebhookController.handleWebhook no_secret quiet (VObj [("data", VObj [])]) fresh)
    = Some 400
  /\ status_of (WebhookController.handleWebhook no_secret quiet
                  (VObj [("event", VNum (Finite false 0 0))]) fresh) = Some 400
  /\ WebhookController.handleWebhook no_secret quiet (VObj [("event", VStr "ping")]) fresh
     = (Ok (Response 200 (VObj [("success", VBool true);
                                ("message", VStr "Received webhook event: ping");
                                ("data", VNull)])), fresh).
Proof.
  split; [| split].
  - apply (proj1 (webhook_event_dispatch no_secret quiet (VObj [("data", VObj [])]) fresh)
             VUndefined); reflexivity.
  - apply (proj1 (webhook_event_dispatch no_secret quiet
                    (VObj [("event", VNum (Finite false 0 0))]) fresh)
             (VNum (Finite false 0 0))); reflexivity.
  - apply (proj1 (proj2 (webhook_event_dispatch no_secret quiet
                           (VObj [("event", VStr "ping")]) fresh))
             (VStr "ping") "ping"); reflexivity.
Defined.

(** C8 fails as stated: an [event] that is present but is the empty
    string is not [content_request], and the answer is 400, not 200; and
    an [event] that is an object with a [toString] property cannot be
    put into the acknowledgement message, and the answer is 500. *)
Lemma webhook_empty_event_400 :
  (get (VObj [("event", VStr "")]) "event" = Ok (VStr "")
   /\ is_string (VStr "") "content_request" = false
   /\ WebhookController.handleWebhook no_secret quiet (VObj [("event", VStr "")]) fresh
      = (Ok (Response 400
               (VObj [("success", VBool false);
                      ("message", VStr "Event type is required in the webhook payload")])),
         fresh))
  /\ WebhookController.handleWebhook no_secret quiet
       (VObj [("event", VObj [("toString", VNum (Finite false 1 0))])]) fresh
     = (Ok (Response 500
              (VObj [("success", VBool false);
                     ("message", VStr "Error processing webhook");
                     ("error", VStr "Cannot convert object to primitive value")])),
        fresh).
Proof. split; [split; [| split] |]; reflexivity. Qed.

(** ** Generic webhook handler: defaults of a content request *)

Lemma trace_not_extended {A} (l : list A) (a : A) : l = (l ++ [a])%list -> False.
Proof.
  intros H. apply (f_equal (@List.length A)) in H.
  rewrite length_app in H. cbn in H. lia.
Qed.

Lemma trace_last_eq {A} (l : list A) (a b : A) : (l ++ [a] = l ++ [b])%list -> a = b.
Proof. intros H. apply app_inv_head in H. now inversion H. Qed.

(** Inversion of a step of a computation that may throw. *)
Lemma bind_Ok {A B} (m : result A) (f : A -> result B) (b : B) :
  bind m f = Ok b -> exists a, m = Ok a /\ f a = Ok b.
Proof. destruct m as [a | err]; cbn; [eauto | discriminate]. Qed.

Ltac bind_inv H :=
  let a := fresh "a" in
  let Ha := fresh "H" a in
  apply bind_Ok in H; destruct H as (a & Ha & H).

(** The one request [processContentRequest] can make. *)
Lemma processContentRequest_request (e : env) (x : externals) (data : value)
    (w : world) (r : chat_request) :
  trace (snd (WebhookController.processContentRequest e x data w))
    = (trace w ++ [ChatCompletionsCreate r])%list ->
  WebhookController.completion_request data = Ok r.
Proof.
  unfold WebhookController.processContentRequest, try_catch, mbind, lift, ret,
    throw, emit, history.
  destruct (WebhookController.getOpenAIClient e) as [key |];
    [| cbn; intros H; now apply trace_not_extended in H].
  destruct (WebhookController.completion_request data) as [r' | err];
    [| cbn; intros H; now apply trace_not_extended in H].
  cbn beta iota.
  destruct (chat_completions_create x (trace w) r'); cbn;
    intros H; apply trace_last_eq in H; now inversion H.
Qed.

Lemma completion_request_fields (data : value) (r : chat_request) :
  WebhookController.completion_request data = Ok r ->
  exists p t k,
    get data "prompt" = Ok p /\ get data "temperature" = Ok t
    /\ get data "max_tokens" = Ok k
    /\ req_user r = or_else p WebhookController.default_prompt
    /\ req_temperature r = or_else t WebhookController.default_temperature
    /\ req_max_tokens r = or_else k WebhookController.default_max_tokens.
Proof.
  unfold WebhookController.completion_request. intros H.
  bind_inv H. bind_inv H. bind_inv H. bind_inv H. bind_inv H. bind_inv H.
  bind_inv H. bind_inv H. inversion H; subst r; clear H. cbn.
  eauto 10.
Qed.

(** C10. Whenever a content request reaches the chat-completion API, a
    falsy option of [data] has been replaced by its default: a
    temperature of 0 is sent as 0.7, a max_tokens of 0 as 500, and an
    empty prompt as the default prompt text. *)
Theorem falsy_options_get_defaults :
  forall (e : env) (x : externals) (data : value) (w : world) (r : chat_request),
    trace (snd (WebhookController.processContentRequest e x data w))
      = (trace w ++ [ChatCompletionsCreate r])%list ->
    (forall t, get data "temperature" = Ok t -> truthy t = false ->
       req_temperature r = VNum (Finite false 7 (-1)))
    /\ (forall k, get data "max_tokens" = Ok k -> truthy k = false ->
       req_max_tokens r = VNum (Finite false 500 0))
    /\ (forall p, get data "prompt" = Ok p -> truthy p = false ->
       req_user r = VStr "Tell me something interesting")
    /\ truthy (VNum (Finite false 0 0)) = false
    /\ truthy (VStr "") = false.
Proof.
  intros e x data w r H.
  apply processContentRequest_request in H.
  apply completion_request_fields in H.
  destruct H as (p & t & k & Hp & Ht & Hk & Hu & Htemp & Hmax).
  repeat split.
  - intros t' Ht' Hf. rewrite Ht in Ht'. inversion Ht'; subst t'.
    rewrite Htemp. unfold or_else. now rewrite Hf.
  - intros k' Hk' Hf. rewrite Hk in Hk'. inversion Hk'; subst k'.
    rewrite Hmax. unfold or_else. now rewrite Hf.
  - intros p' Hp' Hf. rewrite Hp in Hp'. inversion Hp'; subst p'.
    rewrite Hu. unfold or_else. now rewrite Hf.
Qed.

Lemma falsy_options_get_defaults_witness :
  trace (snd (WebhookController.processContentRequest with_api_key quiet zero_options fresh))
    = [ChatCompletionsCreate request_sent_for_zero_options]
  /\ req_temperature request_sent_for_zero_options = VNum (Finite false 7 (-1))
  /\ req_max_tokens request_sent_for_zero_options = VNum (Finite false 500 0)
  /\ req_user request_sent_for_zero_options = VStr "Tell me something interesting".
Proof.
  split; [reflexivity |].
  pose proof (falsy_options_get_defaults with_api_key quiet zero_options fresh
                request_sent_for_zero_options eq_refl) as (Ht & Hk & Hp & _).
  split; [| split].
  - apply (Ht (VNum (Finite false 0 0))); reflexivity.
  - apply (Hk (VNum (Finite false 0 0))); reflexivity.
  - apply (Hp (VStr "")); reflexivity.
Defined.

(** ** Doc Sync client: the integration is disabled without configuration *)

Lemma initialize_spec (e : env) (x : externals) (w : world) :
  (GoogleDocsSync.initialize e x w = (Ok false, w))
  \/ (present (GOOGLE_APPLICATION_CREDENTIALS e) = true
      /\ GoogleDocsSync.initialize e x w
         = (Ok true, World (fs w) (DocsSync true true) (trace w))).
Proof.
  unfold GoogleDocsSync.initialize, try_catch, mbind, lift, ret, GoogleDocsSync.set_this.
  destruct (GOOGLE_APPLICATION_CREDENTIALS e) as [path |]; [| now left].
  destruct (present (Some path)) eqn:Hp; cbn [negb]; [| now left].
  destruct (google_client x path) as [[] | err]; [right | left]; auto.
Qed.

Lemma preserves_ret {A} Q (a : A) : preserves Q (ret a).
Proof. intros w H; exact H. Qed.

Lemma preserves_lift {A} Q (r : result A) : preserves Q (lift r).
Proof. intros w H; exact H. Qed.

Lemma preserves_emit Q (ev : event) : preserves Q (emit ev).
Proof. intros w H; exact H. Qed.

Lemma preserves_history Q : preserves Q history.
Proof. intros w H; exact H. Qed.

Lemma preserves_this Q : preserves Q GoogleDocsSync.this.
Proof. intros w H; exact H. Qed.

Lemma preserves_bind {A B} Q (m : M A) (k : A -> M B) :
  preserves Q m -> (forall a, preserves Q (k a)) -> preserves Q (mbind m k).
Proof.
  intros Hm Hk w H. unfold mbind. specialize (Hm w H).
  destruct (m w) as [[a | err] w']; cbn in *; [now apply Hk | exact Hm].
Qed.

Lemma preserves_try_catch {A} Q (m : M A) (h : error -> M A) :
  preserves Q m -> (forall err, preserves Q (h err)) -> preserves Q (try_catch m h).
Proof.
  intros Hm Hh w H. unfold try_catch. specialize (Hm w H).
  destruct (m w) as [[a | err] w']; cbn in *; [exact Hm | now apply Hh].
Qed.

Lemma preserves_if {A} Q (b : bool) (m1 m2 : M A) :
  preserves Q m1 -> preserves Q m2 -> preserves Q (if b then m1 else m2).
Proof. destruct b; auto. Qed.

Lemma preserves_initialize (e : env) (x : externals) :
  preserves (consistent e) (GoogleDocsSync.initialize e x).
Proof.
  intros w H. destruct (initialize_spec e x w) as [-> | [Hp ->]]; cbn; [exact H |].
  intros _; exact Hp.
Qed.

Create HintDb sync_inv.
#[local] Hint Resolve preserves_ret preserves_lift preserves_emit preserves_history
  preserves_this preserves_bind preserves_try_catch preserves_if
  preserves_initialize : sync_inv.

Lemma appendToDocument_sync (e : env) (x : externals) (content : string)
    (documentId : option string) :
  preserves (consistent e) (GoogleDocsSync.appendToDocument e x content documentId).
Proof.
  unfold GoogleDocsSync.appendToDocument.
  apply preserves_try_catch; [| auto with sync_inv].
  apply preserves_bind; [auto with sync_inv |]. intros s.
  apply preserves_bind; [auto with sync_inv |]. intros ok.
  apply preserves_if; [auto with sync_inv |].
  destruct (if present documentId then documentId else GOOGLE_DOCS_ID e);
    auto 20 with sync_inv.
Qed.

Lemma reachable_consistent (e : env) (x : externals) (w : world) :
  reachable e x w -> consistent e (sync w).
Proof.
  induction 1 as [f t | w content documentId _ IH | w f t _ IH].
  - intros H; discriminate H.
  - now apply appendToDocument_sync.
  - exact IH.
Qed.

(** C9. Appending any text returns [false], without throwing and without
    fetching or updating a document (the trace of requests and the file
    system are as before): in every world when the document id is unset
    or empty, and in every world the process can reach when the
    credentials path is unset or empty. *)
Theorem append_disabled_returns_false :
  forall (e : env) (x : externals) (content : string),
    (forall w : world,
       present (GOOGLE_DOCS_ID e) = false ->
       fst (GoogleDocsSync.appendToDocument e x content None w) = Ok false
       /\ trace (snd (GoogleDocsSync.appendToDocument e x content None w)) = trace w
       /\ fs (snd (GoogleDocsSync.appendToDocument e x content None w)) = fs w)
    /\ (forall w : world,
       reachable e x w ->
       present (GOOGLE_APPLICATION_CREDENTIALS e) = false ->
       GoogleDocsSync.appendToDocument e x content None w = (Ok false, w)).
Proof.
  intros e x content. split.
  - intros w Hd.
    unfold GoogleDocsSync.appendToDocument, try_catch, mbind, lift, ret, emit, history,
      GoogleDocsSync.this.
    change (present None) with false. cbv iota.
    destruct (initialized (sync w)) eqn:Hi.
    + cbn beta iota. destruct (GOOGLE_DOCS_ID e) as [id |]; [| cbn; auto].
      rewrite Hd. cbn. auto.
    + destruct (initialize_spec e x w) as [-> | [Hp ->]]; cbn beta iota.
      * cbn. auto.
      * destruct (GOOGLE_DOCS_ID e) as [id |]; [| cbn; auto].
        rewrite Hd. cbn. auto.
  - intros w Hr Hg.
    pose proof (reachable_consistent e x w Hr) as Hc.
    unfold GoogleDocsSync.appendToDocument, try_catch, mbind, lift, ret, emit, history,
      GoogleDocsSync.this.
    destruct (initialized (sync w)) eqn:Hi; [specialize (Hc Hi); congruence |].
    destruct (initialize_spec e x w) as [-> | [Hp _]]; [reflexivity | congruence].
Qed.

Lemma append_disabled_returns_false_witness :
  (fst (GoogleDocsSync.appendToDocument credentials_only quiet "text" None fresh) = Ok false
   /\ trace (snd (GoogleDocsSync.appendToDocument credentials_only quiet "text" None fresh))
      = trace fresh
   /\ fs (snd (GoogleDocsSync.appendToDocument credentials_only quiet "text" None fresh))
      = fs fresh)
  /\ GoogleDocsSync.appendToDocument document_only quiet "text" None fresh = (Ok false, fresh).
Proof.
  split.
  - apply (proj1 (append_disabled_returns_false credentials_only quiet "text") fresh).
    reflexivity.
  - apply (proj2 (append_disabled_returns_false document_only quiet "text") fresh).
    + apply reach_start.
    + reflexivity.
Defined.

(** ** Signature verifier *)

Lemma to_hex_length (bs : list Z) :
  String.length (Bytes.to_hex bs) = 2 * List.length bs.
Proof. induction bs as [| b r IH]; cbn [Bytes.to_hex String.length List.length]; lia. Qed.

Lemma be_bytes_length (n : nat) (x : Z) : List.length (SHA256.be_bytes n x) = n.
Proof. unfold SHA256.be_bytes. now rewrite length_map, length_rev, length_seq. Qed.

Lemma sha256_length (msg : list Z) : List.length (SHA256.sha256 msg) = 32.
Proof.
  unfold SHA256.sha256, SHA256.digest_bytes. cbn [flat_map].
  repeat rewrite length_app. repeat rewrite be_bytes_length. reflexivity.
Qed.

(** The hex digest has 64 characters, whatever the key and the message. *)
Lemma hmac_sha256_hex_length (key msg : string) :
  String.length (HMAC.hmac_sha256_hex key msg) = 64.
Proof.
  unfold HMAC.hmac_sha256_hex, HMAC.hmac_sha256.
  now rewrite to_hex_length, sha256_length.
Qed.

Lemma digest_string_length (key msg : string) :
  String.length ("sha256=" ++ HMAC.hmac_sha256_hex key msg) = 71.
Proof. cbn [String.append String.length]. now rewrite hmac_sha256_hex_length. Qed.

Lemma present_Some (s : string) : s <> "" -> present (Some s) = true.
Proof.
  intros H. unfold present, opt_value, truthy.
  destruct (String.eqb_spec s ""); [contradiction | reflexivity].
Qed.

(** With a secret and a header, the verifier is the comparator applied to
    the digest of the re-serialized payload and the header. *)
Lemma verifyGithubWebhook_digest (e : env) (secret sig text : string) (payload : value) :
  GITHUB_WEBHOOK_SECRET e = Some secret -> secret <> "" -> sig <> "" ->
  JSON.stringify payload = Some text ->
  GithubController.verifyGithubWebhook e payload (Some sig)
  = GithubController.timingSafeEqual ("sha256=" ++ HMAC.hmac_sha256_hex secret text) sig.
Proof.
  intros He Hs Hg Ht. unfold GithubController.verifyGithubWebhook.
  rewrite He, (present_Some sig Hg), (present_Some secret Hs). cbn [negb orb].
  unfold GithubController.signed_text. rewrite Ht. reflexivity.
Qed.

(** Whenever the header's length is not that of the digest string, the
    verifier throws instead of returning [false]. *)
Lemma verifyGithubWebhook_length_mismatch (e : env) (secret sig text : string)
    (payload : value) :
  GITHUB_WEBHOOK_SECRET e = Some secret -> secret <> "" -> sig <> "" ->
  JSON.stringify payload = Some text ->
  String.length sig <> 71 ->
  GithubController.verifyGithubWebhook e payload (Some sig)
  = Throw (RangeError "Input buffers must have the same byte length").
Proof.
  intros He Hs Hg Ht Hlen.
  rewrite (verifyGithubWebhook_digest e secret sig text payload He Hs Hg Ht).
  unfold GithubController.timingSafeEqual. rewrite digest_string_length.
  destruct (Nat.eqb_spec 71 (String.length sig)) as [E | _]; [| reflexivity].
  symmetry in E. contradiction.
Qed.

(** C1 fails on the code. With a secret configured, a signature header
    whose length is not that of the digest string makes the verifier throw
    a RangeError from the comparator; the handler answers 500, not 401. *)
Theorem verifier_throws_on_length_mismatch :
  GithubController.verifyGithubWebhook with_secret (VObj []) (Some "sha256=abc")
    = Throw (RangeError "Input buffers must have the same byte length")
  /\ GithubController.handleGithubWebhook with_secret quiet
       (GithubController.Request (Some "push") (Some "sha256=abc") (VObj [])) fresh
     = (Ok (Response 500
              (VObj [("success", VBool false);
                     ("message", VStr "Error processing GitHub webhook");
                     ("error", VStr "Input buffers must have the same byte length")])),
        fresh).
Proof.
  assert (H : GithubController.verifyGithubWebhook with_secret (VObj []) (Some "sha256=abc")
              = Throw (RangeError "Input buffers must have the same byte length")).
  { apply (verifyGithubWebhook_length_mismatch with_secret "s3cret" "sha256=abc" "{}");
      try reflexivity; try discriminate. }
  split; [exact H |].
  unfold GithubController.handleGithubWebhook, try_catch, mbind, lift.
  cbn [GithubController.x_github_event GithubController.x_hub_signature_256
       GithubController.req_body].
  rewrite H. reflexivity.
Qed.

(** With a secret configured and a signature header present, the
    verifier accepts exactly the header that is [sha256=] followed by the
    hex HMAC-SHA256, under the secret, of [JSON.stringify] of the parsed
    payload. *)
Lemma verifier_accepts_digest_of_reserialization (e : env) (secret sig text : string)
    (payload : value) :
  GITHUB_WEBHOOK_SECRET e = Some secret -> secret <> "" -> sig <> "" ->
  JSON.stringify payload = Some text ->
  GithubController.verifyGithubWebhook e payload (Some sig) = Ok true
  <-> sig = "sha256=" ++ HMAC.hmac_sha256_hex secret text.
Proof.
  intros He Hs Hg Ht.
  rewrite (verifyGithubWebhook_digest e secret sig text payload He Hs Hg Ht).
  unfold GithubController.timingSafeEqual. split.
  - destruct (Nat.eqb _ _); [| discriminate].
    destruct (String.eqb_spec ("sha256=" ++ HMAC.hmac_sha256_hex secret text) sig)
      as [E | _]; [intros _; now symmetry | discriminate].
  - intros ->. now rewrite Nat.eqb_refl, String.eqb_refl.
Qed.

(** C2 fails on the code.  The verifier hashes [JSON.stringify] of the
    parsed payload, not the bytes of the request body.  The body
    [{"a": 1}] (with a space) parses to a payload whose re-serialization
    is [{"a":1}]; the header that carries the HMAC-SHA256 of the bytes
    that were sent, under the configured secret, is refused, and the
    handler answers 401, while the HMAC of the re-serialization, which
    was never sent, is accepted. *)
Theorem signature_of_raw_body_rejected :
  JSON.parse (dq "{'a': 1}") = Some (VObj [("a", VNum (Finite false 1 0))])
  /\ GithubController.signed_text (VObj [("a", VNum (Finite false 1 0))])
     = Ok (dq "{'a':1}")
  /\ GithubController.verifyGithubWebhook with_secret (VObj [("a", VNum (Finite false 1 0))])
       (Some ("sha256=" ++ HMAC.hmac_sha256_hex "s3cret" (dq "{'a': 1}"))) = Ok false
  /\ GithubController.verifyGithubWebhook with_secret (VObj [("a", VNum (Finite false 1 0))])
       (Some ("sha256=" ++ HMAC.hmac_sha256_hex "s3cret" (dq "{'a':1}"))) = Ok true
  /\ GithubController.handleGithubWebhook with_secret quiet
       (GithubController.Request (Some "push")
          (Some ("sha256=" ++ HMAC.hmac_sha256_hex "s3cret" (dq "{'a': 1}")))
          (VObj [("a", VNum (Finite false 1 0))])) fresh
     = (Ok (Response 401 (VObj [("success", VBool false);
                                ("message", VStr "Invalid webhook signature")])),
        fresh).
Proof. split; [| split; [| split; [| split]]]; vm_compute; reflexivity. Qed.

Ltac known_answers :=
  repeat match goal with |- _ /\ _ => split end; vm_compute; reflexivity.

(** Known answers for the Number value of a literal. *)
Example parse_rounds_to_nearest_double :
  JSON.parse "9007199254740993" = Some (VNum (Finite false 9007199254740992 0))
  /\ JSON.parse "0.30000000000000004" = Some (VNum (Finite false 30000000000000004 (-17)))
  /\ JSON.parse "1e-400" = Some (VNum (Finite false 0 0))
  /\ JSON.parse "5e-324" = Some (VNum (Finite false 5 (-324)))
  /\ JSON.parse "1.7976931348623159e308" = Some (VNum (Infinity false))
  /\ option_map JSON.stringify (JSON.parse "123456789012345678901234567890")
     = Some (Some "1.2345678901234568e+29")
  /\ option_map JSON.stringify (JSON.parse "2.2250738585072011e-308")
     = Some (Some "2.225073858507201e-308")
  /\ option_map JSON.stringify (JSON.parse "[1E2, 0.50, -0, 1e21]")
     = Some (Some "[100,0.5,0,1e+21]").
Proof. known_answers. Qed.

Example string_to_number_underflows :
  gt_zero (VStr "1e-400") = Ok false
  /\ gt_zero (VStr " 5e-324 ") = Ok true
  /\ gt_zero (VStr "0x10") = Ok true
  /\ gt_zero (VStr "-1") = Ok false
  /\ gt_zero (VStr "abc") = Ok false.
Proof. known_answers. Qed.

(** Known answers for the body parser: the empty body, strict mode, and
    the limit of 102400 bytes. *)
Example express_json_cases :
  App.express_json "" = App.Body (VObj [])
  /\ App.express_json " [1]" = App.Body (VArr [VNum (Finite false 1 0)])
  /\ App.express_json "1" = App.Refused 400
  /\ App.express_json (dq "{'a':}") = App.Refused 400
  /\ App.express_json (repeat_string " " (N.to_nat 102398) ++ "{}") = App.Body (VObj [])
  /\ App.express_json (repeat_string " " (N.to_nat 102399) ++ "{}") = App.Refused 413.
Proof. known_answers. Qed.

(** Known answers for the file system calls: a recursive mkdir of a
    directory that exists succeeds without writing, a regular file is in
    its way, and a missing directory cannot be made where writes are
    refused; a file is not appended to below a regular file. *)
Example fs_calls_cases :
  fs_mkdir "logs" (World (Fs ["logs"] [] true erofs) GoogleDocsSync.constructor [])
  = (Ok tt, World (Fs ["logs"] [] true erofs) GoogleDocsSync.constructor [FsMkdir "logs"])
  /\ fst (fs_mkdir "logs" (World (Fs [] [("logs", "x")] false erofs)
                             GoogleDocsSync.constructor []))
     = Throw (Error "EEXIST: file already exists, mkdir 'logs'")
  /\ fst (fs_mkdir "logs" (World (Fs [] [] true erofs) GoogleDocsSync.constructor []))
     = Throw (Error "EROFS: read-only file system, mkdir 'logs'")
  /\ fst (fs_appendFile "logs" "a.log" "x"
            (World (Fs ["logs"] [] true erofs) GoogleDocsSync.constructor []))
     = Throw (Error "EROFS: read-only file system, open 'logs/a.log'")
  /\ fst (fs_appendFile "logs" "a.log" "x"
            (World (Fs [] [("logs", "x")] false erofs) GoogleDocsSync.constructor []))
     = Throw (Error "ENOTDIR: not a directory, open 'logs/a.log'")
  /\ fst (fs_appendFile "logs" "a.log" "x"
            (World (Fs [] [] false erofs) GoogleDocsSync.constructor []))
     = Throw (Error "ENOENT: no such file or directory, open 'logs/a.log'").
Proof. known_answers. Qed.

(** Known answers for the hash and the MAC. *)
Example sha256_abc :
  Bytes.to_hex (SHA256.sha256 (Bytes.of_string "abc"))
  = "ba7816bf8f01cfea414140de5dae2223b00361a396177a9cb410ff61f20015ad".
Proof. vm_compute. reflexivity. Qed.

Example sha256_empty :
  Bytes.to_hex (SHA256.sha256 [])
  = "e3b0c44298fc1c149afbf4c8996fb92427ae41e4649b934ca495991b7852b855".
Proof. vm_compute. reflexivity. Qed.

Example sha256_two_blocks :
  Bytes.to_hex (SHA256.sha256 (repeat 97%Z 100))
  = "2816597888e4a0d3a36b82b83316ab32680eb8f00f8cd3b904d681246d285a0e".
Proof. vm_compute. reflexivity. Qed.

Example hmac_sha256_fox :
  HMAC.hmac_sha256_hex "key" "The quick brown fox jumps over the lazy dog"
  = "f7bc83f430538424b13298e6aa6fb143ef4d59a14946175997479dbc2d1a3cd8".
Proof. vm_compute. reflexivity. Qed.

Example hmac_sha256_long_key :
  Bytes.to_hex (HMAC.hmac_sha256 (repeat 107%Z 100) (Bytes.of_string "abc"))
  = "b58b2b694fdba0dd76da3ebe99174f728d327560f36ece224e90867972479922".
Proof. vm_compute. reflexivity. Qed.

Example hmac_sha256_raw_body :
  HMAC.hmac_sha256_hex "s3cret" (dq "{'a': 1}")
  = "1a9fab6cd4b8cdcaad8640f3eca73fa924c62ff24f3833254ef3547232153767".
Proof. vm_compute. reflexivity. Qed.

(** ** Plaintext layout of a commit entry *)

Lemma append_assoc (a b c : string) : (a ++ b) ++ c = a ++ b ++ c.
Proof. induction a as [| ch a IH]; cbn; [reflexivity | now rewrite IH]. Qed.

Lemma append_empty_r (a : string) : a ++ "" = a.
Proof. induction a as [| ch a IH]; cbn; [reflexivity | now rewrite IH]. Qed.

Lemma concat_empty_cons (s : string) (l : list string) :
  String.concat "" (s :: l) = s ++ String.concat "" l.
Proof. destruct l; cbn; [now rewrite append_empty_r | reflexivity]. Qed.

Lemma unlines_cons (l : string) (ls : list string) :
  unlines (l :: ls) = l ++ LF ++ unlines ls.
Proof. unfold unlines. cbn [map]. now rewrite concat_empty_cons, append_assoc. Qed.

Lemma unlines_app (l1 l2 : list string) :
  unlines (l1 ++ l2) = unlines l1 ++ unlines l2.
Proof.
  induction l1 as [| l ls IH]; [reflexivity |].
  cbn [List.app]. now rewrite !unlines_cons, IH, !append_assoc.
Qed.

Lemma file_lines_unlines (fl : list ProcessCommit.file_change) (content : string) :
  ProcessCommit.file_lines fl content = content ++ unlines (map layout_file fl).
Proof.
  revert content. induction fl as [| f r IH]; intros content; cbn [ProcessCommit.file_lines map].
  - now rewrite append_empty_r.
  - rewrite IH, unlines_cons. unfold layout_file, layout_symbol, ProcessCommit.statusSymbol.
    now rewrite !append_assoc.
Qed.

Lemma formatCommitForDocs_layout (c : ProcessCommit.commit_info) :
  ProcessCommit.formatCommitForDocs c = plaintext_layout c.
Proof.
  unfold ProcessCommit.formatCommitForDocs, plaintext_layout, layout_head, layout_tail.
  cbv zeta. rewrite file_lines_unlines.
  rewrite !unlines_app, !unlines_cons. cbn [unlines map String.concat].
  unfold LF. repeat (progress (rewrite ?append_assoc; cbn [String.append])).
  reflexivity.
Qed.

(** ** Status symbols (process-commit.js, formatCommitForDocs) *)

Lemma statusSymbol_cases (st : string) :
  (st = "A" -> ProcessCommit.statusSymbol st = "+")
  /\ (st = "D" -> ProcessCommit.statusSymbol st = "-")
  /\ (st <> "A" -> st <> "D" -> ProcessCommit.statusSymbol st = "~").
Proof.
  split; [intros ->; reflexivity |]. split; [intros ->; reflexivity |].
  intros HA HD. unfold ProcessCommit.statusSymbol.
  destruct (String.eqb_spec st "A") as [E | _]; [contradiction |].
  destruct (String.eqb_spec st "D") as [E | _]; [contradiction | reflexivity].
Qed.

(** C5. For every file-change entry of a commit record, whatever its
    status string, the text [formatCommitForDocs] returns holds the
    entry's line at the entry's place: after the header and the lines of
    the entries before it, and before the lines of the entries after it
    and the diff section.  The line is a symbol, a space and the file
    name; the symbol is [+] when the status is [A], [-] when it is [D],
    and [~] for every other status.  The formatter is a total function of
    the record, so no status value makes it throw. *)
Theorem status_symbol_total_mapping :
  forall (c : ProcessCommit.commit_info) (before after : list ProcessCommit.file_change)
         (f : ProcessCommit.file_change),
    ProcessCommit.filesChanged c = (before ++ f :: after)%list ->
    exists symbol : string,
      ProcessCommit.formatCommitForDocs c
      = unlines (layout_head c ++ map layout_file before)
          ++ (symbol ++ " " ++ ProcessCommit.show (ProcessCommit.file f) ++ LF)
          ++ unlines (map layout_file after ++ layout_tail c)
      /\ (ProcessCommit.status f = "A" -> symbol = "+")
      /\ (ProcessCommit.status f = "D" -> symbol = "-")
      /\ (ProcessCommit.status f <> "A" -> ProcessCommit.status f <> "D" -> symbol = "~").
Proof.
  intros c before after f Hfiles.
  exists (ProcessCommit.statusSymbol (ProcessCommit.status f)).
  split; [| apply statusSymbol_cases].
  rewrite formatCommitForDocs_layout. unfold plaintext_layout. rewrite Hfiles.
  rewrite map_app. cbn [map].
  rewrite !unlines_app, unlines_cons.
  unfold layout_file at 2, layout_symbol, ProcessCommit.statusSymbol.
  now rewrite !append_assoc.
Qed.

(** The second entry of the sample record has status [M]: its line is
    [~ b.txt], after the line [+ a.txt] of the first. *)
Lemma status_symbol_total_mapping_witness :
  exists symbol : string,
    ProcessCommit.formatCommitForDocs sample_commit
    = unlines (layout_head sample_commit ++ ["+ a.txt"])
        ++ (symbol ++ " " ++ "b.txt" ++ LF)
        ++ unlines (layout_tail sample_commit)
    /\ symbol = "~".
Proof.
  destruct (status_symbol_total_mapping sample_commit
              [ProcessCommit.FileChange "A" (Some "a.txt")] []
              (ProcessCommit.FileChange "M" (Some "b.txt")) eq_refl)
    as (symbol & Htext & _ & _ & Hother).
  exists symbol. split; [exact Htext | apply Hother; discriminate].
Defined.

(** ** What a computation adds to the trace *)

Lemma emits_silent {A} P (m : M A) :
  (forall w, trace (snd (m w)) = trace w) -> emits P m.
Proof. intros H w. exists []. now rewrite H, app_nil_r. Qed.

Lemma emits_ret {A} P (a : A) : emits P (ret a).
Proof. now apply emits_silent. Qed.

Lemma emits_throw {A} P (err : error) : emits P (@throw A err).
Proof. now apply emits_silent. Qed.

Lemma emits_lift {A} P (r : result A) : emits P (lift r).
Proof. now apply emits_silent. Qed.

Lemma emits_history P : emits P history.
Proof. now apply emits_silent. Qed.

Lemma emits_this P : emits P GoogleDocsSync.this.
Proof. now apply emits_silent. Qed.

Lemma emits_set_this P (s : docs_sync) : emits P (GoogleDocsSync.set_this s).
Proof. now apply emits_silent. Qed.

Lemma emits_emit (P : event -> Prop) (ev : event) : P ev -> emits P (emit ev).
Proof. intros H w. exists [ev]. split; [reflexivity | now constructor]. Qed.

Lemma emits_bind {A B} P (m : M A) (k : A -> M B) :
  emits P m -> (forall a, emits P (k a)) -> emits P (mbind m k).
Proof.
  intros Hm Hk w. unfold mbind. destruct (Hm w) as (l1 & E1 & F1).
  destruct (m w) as [[a | err] w']; cbn in *.
  - destruct (Hk a w') as (l2 & E2 & F2). exists (l1 ++ l2)%list.
    rewrite E2, E1, app_assoc. split; [reflexivity | now apply Forall_app].
  - now exists l1.
Qed.

(** A step that reads a pure result: the rest runs only on [Ok]. *)
Lemma emits_bind_lift {A B} P (r : result A) (k : A -> M B) :
  (forall a, r = Ok a -> emits P (k a)) -> emits P (mbind (lift r) k).
Proof.
  intros Hk w. unfold mbind, lift. destruct r as [a | err].
  - now apply Hk.
  - exists []. now rewrite app_nil_r.
Qed.

Lemma emits_try_catch {A} P (m : M A) (h : error -> M A) :
  emits P m -> (forall err, emits P (h err)) -> emits P (try_catch m h).
Proof.
  intros Hm Hh w. unfold try_catch. destruct (Hm w) as (l1 & E1 & F1).
  destruct (m w) as [[a | err] w']; cbn in *.
  - now exists l1.
  - destruct (Hh err w') as (l2 & E2 & F2). exists (l1 ++ l2)%list.
    rewrite E2, E1, app_assoc. split; [reflexivity | now apply Forall_app].
Qed.

Lemma emits_if {A} P (b : bool) (m1 m2 : M A) :
  emits P m1 -> emits P m2 -> emits P (if b then m1 else m2).
Proof. destruct b; auto. Qed.

Lemma emits_fs_access P (p : string) : emits P (fs_access p).
Proof.
  apply emits_silent. intros w. unfold fs_access.
  now destruct (has_dir p (fs w) || _)%bool.
Qed.

Lemma emits_fs_mkdir (P : event -> Prop) (p : string) :
  P (FsMkdir p) -> emits P (fs_mkdir p).
Proof.
  intros H. unfold fs_mkdir. apply emits_bind; [now apply emits_emit |].
  intros _. apply emits_silent. intros w.
  now destruct (has_dir p (fs w)), (is_file p (fs w)), (read_only (fs w)).
Qed.

Lemma emits_fs_appendFile (P : event -> Prop) (dir name c : string) :
  P (FsAppendFile (dir ++ "/" ++ name) c) -> emits P (fs_appendFile dir name c).
Proof.
  intros H. unfold fs_appendFile. apply emits_bind; [now apply emits_emit |].
  intros _. apply emits_silent. intros w.
  now destruct (has_dir dir (fs w)), (is_file dir (fs w)), (read_only (fs w)).
Qed.

Lemma emits_initialize P (e : env) (x : externals) :
  emits P (GoogleDocsSync.initialize e x).
Proof.
  apply emits_silent. intros w.
  now destruct (initialize_spec e x w) as [-> | [_ ->]].
Qed.

Create HintDb effects.
#[local] Hint Resolve emits_ret emits_throw emits_lift emits_history emits_this
  emits_set_this emits_emit emits_bind emits_try_catch emits_if emits_fs_access
  emits_fs_mkdir emits_fs_appendFile emits_initialize : effects.

Lemma emits_appendToDocument (P : event -> Prop) (e : env) (x : externals)
    (content : string) (documentId : option string) :
  (forall ev, is_docs_request ev = true -> P ev) ->
  emits P (GoogleDocsSync.appendToDocument e x content documentId).
Proof.
  intros HP. unfold GoogleDocsSync.appendToDocument.
  apply emits_try_catch; [| auto with effects].
  apply emits_bind; [auto with effects |]. intros s.
  apply emits_bind; [auto with effects |]. intros ok.
  apply emits_if; [auto with effects |].
  destruct (if present documentId then documentId else GOOGLE_DOCS_ID e) as [id |];
    [| auto with effects].
  apply emits_if; [auto with effects |].
  apply emits_bind; [auto with effects |]. intros h.
  apply emits_bind; [apply emits_emit, HP; reflexivity |]. intros _.
  apply emits_bind; [auto with effects |]. intros doc.
  apply emits_bind; [auto with effects |]. intros endIndex.
  apply emits_bind; [auto with effects |]. intros h'.
  apply emits_bind; [apply emits_emit, HP; reflexivity |]. intros _.
  auto with effects.
Qed.

(** ** The entries the push handler appends to commits.log *)

Lemma prefix_app (p s : string) : prefix p (p ++ s) = true.
Proof.
  induction p as [| c p IH]; cbn; [now destruct s |].
  destruct (ascii_dec c c); [exact IH | contradiction].
Qed.

Lemma prefix_app_r (p s t : string) : prefix p s = true -> prefix p (s ++ t) = true.
Proof.
  revert s. induction p as [| c p IH]; intros s H; [now destruct (s ++ t) |].
  destruct s as [| d s]; [discriminate |]. cbn in *.
  destruct (ascii_dec c d); [now apply IH | discriminate].
Qed.

Lemma file_lines_prefix (p symbol : string) (files : list value) (log log' : string) :
  prefix p log = true ->
  GithubController.file_lines symbol files log = Ok log' -> prefix p log' = true.
Proof.
  revert log. induction files as [| f r IH]; intros log Hp H; cbn in H.
  - now inversion H; subst.
  - bind_inv H. apply (IH _ (prefix_app_r _ _ _ Hp) H).
Qed.

Lemma file_section_prefix (p prop title symbol : string) (list : value)
    (log log' : string) :
  prefix p log = true ->
  GithubController.file_section prop title symbol list log = Ok log' ->
  prefix p log' = true.
Proof.
  intros Hp H. unfold GithubController.file_section in H.
  bind_inv H. bind_inv H. destruct a0.
  - destruct list; try discriminate. bind_inv H. inversion H; subst log'.
    apply prefix_app_r.
    apply (file_lines_prefix p symbol items _ _ (prefix_app_r _ _ _ Hp) Ha1).
  - now inversion H; subst.
Qed.

Lemma commit_block_prefix (p : string) (previousCommit commit : value) (log log' : string) :
  prefix p log = true ->
  GithubController.commit_block previousCommit commit log = Ok log' ->
  prefix p log' = true.
Proof.
  intros Hp H. unfold GithubController.commit_block in H.
  do 10 bind_inv H. cbv zeta in H.
  bind_inv H. bind_inv H. bind_inv H. bind_inv H. bind_inv H. bind_inv H.
  inversion H; subst log'. apply prefix_app_r.
  eapply file_section_prefix; [| eassumption].
  eapply file_section_prefix; [| eassumption].
  eapply file_section_prefix; [| eassumption].
  now apply prefix_app_r.
Qed.

Lemma commit_blocks_prefix (p : string) (previousCommit : value) (commits : list value)
    (log log' : string) :
  prefix p log = true ->
  GithubController.commit_blocks previousCommit commits log = Ok log' ->
  prefix p log' = true.
Proof.
  revert log. induction commits as [| c r IH]; intros log Hp H; cbn in H.
  - now inversion H; subst.
  - bind_inv H. apply (IH _ (commit_block_prefix _ _ _ _ _ Hp Ha) H).
Qed.

(** Whatever the payload, the text the push handler builds starts with
    the repository line. *)
Lemma format_push_prefix (payload repository commits pusher previousCommit : value)
    (now log : string) :
  GithubController.format_push payload repository commits pusher previousCommit now = Ok log ->
  prefix "Repository: " log = true.
Proof.
  unfold GithubController.format_push. intros H.
  do 12 bind_inv H. cbv zeta in H. bind_inv H.
  apply (commit_blocks_prefix _ _ _ _ _ (prefix_app "Repository: " _) H).
Qed.

Lemma emits_handlePushEvent (e : env) (x : externals) (payload : value) :
  emits push_log_event (GithubController.handlePushEvent e x payload).
Proof.
  unfold GithubController.handlePushEvent.
  apply emits_try_catch; [| auto with effects].
  apply emits_bind; [auto with effects |]. intros _.
  do 5 (apply emits_bind; [auto with effects |]; intro).
  apply emits_bind; [auto 6 with effects |]. intros nothing.
  apply emits_if; [auto with effects |].
  apply emits_bind; [auto with effects |]. intros h.
  apply emits_bind_lift. intros commitLog Hlog.
  apply format_push_prefix in Hlog.
  apply emits_bind.
  - unfold GithubController.appendToCommitLog.
    apply emits_try_catch; [| auto with effects].
    apply emits_bind; [apply emits_try_catch; [auto with effects |] |].
    + intros _. apply emits_fs_mkdir. exact I.
    + intros _. apply emits_fs_appendFile. split; [reflexivity | exact Hlog].
  - intros _. unfold GithubController.syncToGoogleDocs.
    apply emits_try_catch; [| auto with effects].
    apply emits_if; [auto with effects |].
    apply emits_bind; [| auto with effects].
    apply emits_appendToDocument. now intros [].
Qed.

Lemma emits_handleGithubWebhook (e : env) (x : externals)
    (req : GithubController.request) :
  emits push_log_event (GithubController.handleGithubWebhook e x req).
Proof.
  unfold GithubController.handleGithubWebhook, GithubController.json.
  apply emits_try_catch; [| auto with effects].
  destruct (GithubController.x_github_event req) as [event |]; [| auto with effects].
  apply emits_if; [auto with effects |].
  apply emits_bind; [auto with effects |]. intros valid.
  apply emits_if; [auto with effects |].
  apply emits_bind; [| auto with effects].
  apply emits_if; [apply emits_handlePushEvent | auto with effects].
Qed.

Lemma emits_syncToGoogleDocs (e : env) (x : externals) (c : ProcessCommit.commit_info) :
  emits (doc_entry_event c) (ProcessCommit.syncToGoogleDocs e x c).
Proof.
  unfold ProcessCommit.syncToGoogleDocs.
  apply emits_try_catch; [| auto with effects].
  destruct (GOOGLE_DOCS_ID e) as [googleDocsId |]; [| auto with effects].
  destruct (GOOGLE_APPLICATION_CREDENTIALS e) as [credentialsPath |]; [| auto with effects].
  apply emits_if; [auto with effects |].
  apply emits_bind; [auto 6 with effects |]. intros found.
  apply emits_if; [auto with effects |].
  apply emits_bind; [auto with effects |]. intros _.
  cbv zeta.
  apply emits_bind; [auto with effects |]. intros h.
  apply emits_bind; [apply emits_emit; exact I |]. intros _.
  apply emits_bind; [auto with effects |]. intros doc.
  apply emits_bind; [auto with effects |]. intros endIndex.
  apply emits_bind; [auto with effects |]. intros h'.
  apply emits_bind; [| auto with effects].
  apply emits_emit. apply formatCommitForDocs_layout.
Qed.

(** C3 (as amended). The §4.1 layout is the output of the plaintext
    formatter, [formatCommitForDocs], for every commit record, and it is
    the text the hook script inserts into the document.  What the GitHub
    push handler appends to commits.log is a different text: it starts
    with the line [Repository: ..]. *)
Theorem plaintext_layout_is_the_formatter_output :
  (forall c : ProcessCommit.commit_info,
     ProcessCommit.formatCommitForDocs c = plaintext_layout c)
  /\ (forall (e : env) (x : externals) (c : ProcessCommit.commit_info) (w : world),
        exists new,
          trace (snd (ProcessCommit.syncToGoogleDocs e x c w)) = (trace w ++ new)%list
          /\ Forall (doc_entry_event c) new)
  /\ (forall (e : env) (x : externals) (req : GithubController.request) (w : world),
        exists new,
          trace (snd (GithubController.handleGithubWebhook e x req w)) = (trace w ++ new)%list
          /\ Forall push_log_event new).
Proof.
  split; [exact formatCommitForDocs_layout |].
  split; [exact emits_syncToGoogleDocs | exact emits_handleGithubWebhook].
Qed.

(** C3 fails as stated: the entry the push handler appends to
    commits.log for a one-commit push is not in the §4.1 layout of any
    commit record: it has no COMMIT DETAILS header, and the committer is
    rendered as [name (email)]. *)
Lemma push_entry_not_in_plaintext_layout :
  trace (snd (GithubController.handleGithubWebhook no_secret quiet
                (GithubController.Request (Some "push") None sample_push) fresh))
    = [FsMkdir "logs"; FsAppendFile "logs/commits.log" sample_push_entry]
  /\ (forall c : ProcessCommit.commit_info, sample_push_entry <> plaintext_layout c).
Proof.
  split; [vm_compute; reflexivity |].
  intros c H. unfold plaintext_layout, layout_head in H.
  rewrite unlines_app, unlines_cons in H. discriminate H.
Qed.

(** ** JSON: what is printed parses back *)

(** *** White space *)

Lemma all_ws_app (a b : string) : all_ws a = true -> all_ws b = true -> all_ws (a ++ b) = true.
Proof.
  induction a as [| c a IH]; cbn; [auto |].
  intros H Hb. apply andb_true_iff in H as [Hc Ha]. now rewrite Hc, IH.
Qed.

Lemma skip_ws_app (w s : string) : all_ws w = true -> JSON.skip_ws (w ++ s) = JSON.skip_ws s.
Proof.
  induction w as [| c w IH]; cbn; [reflexivity |].
  intros H. apply andb_true_iff in H as [Hc Hw]. now rewrite Hc, IH.
Qed.

Lemma peek_ws (w : string) (c : ascii) (r : string) :
  all_ws w = true -> JSON.is_ws c = false ->
  JSON.peek (w ++ String c r) = Some (c, r).
Proof.
  intros Hw Hc. unfold JSON.peek. rewrite (skip_ws_app w _ Hw). cbn. now rewrite Hc.
Qed.

Lemma peek_char (c : ascii) (r : string) :
  JSON.is_ws c = false -> JSON.peek (String c r) = Some (c, r).
Proof. intros Hc. unfold JSON.peek. cbn. now rewrite Hc. Qed.

(** *** Strings *)

Lemma parse_chars_escape (c : ascii) (rest : string) :
  JSON.parse_chars (JSON.escape_char c ++ rest)
  = JSON.prepend (String c "") (JSON.parse_chars rest).
Proof. destruct c as [[] [] [] [] [] [] [] []]; reflexivity. Qed.

Lemma parse_chars_quote_body (s rest : string) :
  JSON.parse_chars (JSON.quote_body s ++ String dquote rest) = Some (s, rest).
Proof.
  induction s as [| c s IH]; [reflexivity |].
  cbn [JSON.quote_body]. rewrite append_assoc, parse_chars_escape, IH. reflexivity.
Qed.

Lemma quote_app (s rest : string) :
  JSON.quote s ++ rest = String dquote (JSON.quote_body s ++ String dquote rest).
Proof. unfold JSON.quote. cbn [String.append]. now rewrite append_assoc. Qed.

(** *** Arrays and objects *)

Lemma wrap_cons (gap ind opening closing p : string) (parts : list string) :
  JSON.wrap gap ind opening closing (p :: parts)
  = opening ++ ws_open gap ind
      ++ String.concat (String "," (ws_open gap ind)) (p :: parts)
      ++ ws_close gap ind ++ closing.
Proof.
  unfold JSON.wrap, ws_open, ws_close. destruct (String.eqb gap ""); reflexivity.
Qed.

Lemma all_ws_open (gap ind : string) :
  all_ws gap = true -> all_ws ind = true -> all_ws (ws_open gap ind) = true.
Proof.
  intros Hg Hi. unfold ws_open. destruct (String.eqb gap ""); [reflexivity |].
  cbn. now apply all_ws_app.
Qed.

Lemma all_ws_close (gap ind : string) :
  all_ws ind = true -> all_ws (ws_close gap ind) = true.
Proof.
  intros Hi. unfold ws_close. destruct (String.eqb gap ""); [reflexivity | exact Hi].
Qed.

Lemma wrap_nonempty (gap ind opening closing : string) (parts : list string) :
  parts <> [] ->
  JSON.wrap gap ind opening closing parts
  = opening ++ ws_open gap ind
      ++ String.concat (String "," (ws_open gap ind)) parts
      ++ ws_close gap ind ++ closing.
Proof. destruct parts as [| p parts]; [contradiction | intros _; apply wrap_cons]. Qed.

Lemma value_start_facts (c : ascii) :
  value_start c = true ->
  JSON.is_ws c = false /\ Ascii.eqb c "]" = false /\ Ascii.eqb c "}" = false.
Proof.
  unfold value_start. intros H.
  repeat (apply orb_true_iff in H; destruct H as [H | H]);
    apply Ascii.eqb_eq in H; subst c; repeat split.
Qed.

Lemma ser_start (gap ind : string) (v : value) :
  plain v -> exists c t, JSON.ser gap ind v = String c t /\ value_start c = true.
Proof.
  destruct v as [| | [] | n | s | items | ps]; cbn [plain]; intros H; try contradiction.
  - now exists "n"%char, "ull".
  - now exists "t"%char, "rue".
  - now exists "f"%char, "alse".
  - eexists dquote, _. split; [reflexivity | reflexivity].
  - cbn [JSON.ser]. destruct (map _ items) as [| p parts].
    + now exists "["%char, "]".
    + rewrite wrap_cons. eexists "["%char, _. split; reflexivity.
  - cbn [JSON.ser]. destruct (flat_map _ ps) as [| p parts].
    + now exists "{"%char, "}".
    + rewrite wrap_cons. eexists "{"%char, _. split; reflexivity.
Qed.

Lemma concat_start (sep p : string) (parts : list string) (c : ascii) (t : string) :
  p = String c t -> exists t', String.concat sep (p :: parts) = String c t'.
Proof. intros ->. destruct parts; cbn; eauto. Qed.

Lemma parse_elements_ser (gap ind : string) :
  all_ws gap = true -> all_ws ind = true ->
  forall (items : list value) (x : value) (acc : list value) (fuel : nat) (rest : string),
    Forall (fun y => plain y /\ parses_back y) (x :: items) ->
    need_elements (x :: items) <= fuel ->
    JSON.parse_elements fuel acc
      (ws_open gap ind
         ++ String.concat (String "," (ws_open gap ind))
              (map (fun y => JSON.ser gap (ind ++ gap) y) (x :: items))
         ++ ws_close gap ind ++ String "]" rest)
    = Some (VArr (rev acc ++ map json_image (x :: items)), rest).
Proof.
  intros Hg Hi.
  assert (Hopen := all_ws_open gap ind Hg Hi).
  assert (Hclose := all_ws_close gap ind Hi).
  assert (Hind' : all_ws (ind ++ gap) = true) by now apply all_ws_app.
  induction items as [| y items IH]; intros x acc fuel rest HF Hfuel.
  - inversion HF as [| ? ? [Hpx Hx] _]; subst.
    destruct fuel as [| f]; [cbn in Hfuel; lia |].
    cbn [map String.concat JSON.parse_elements].
    rewrite (Hx Hpx gap (ind ++ gap) (ws_open gap ind) f _ Hg Hind' Hopen)
      by (cbn in Hfuel; lia).
    rewrite (peek_ws _ "]" rest Hclose eq_refl). reflexivity.
  - inversion HF as [| ? ? [Hpx Hx] HF']; subst.
    destruct fuel as [| f]; [cbn in Hfuel; lia |].
    change (map (fun y0 => JSON.ser gap (ind ++ gap) y0) (x :: y :: items))
      with (JSON.ser gap (ind ++ gap) x
              :: map (fun y0 => JSON.ser gap (ind ++ gap) y0) (y :: items)).
    change (String.concat (String "," (ws_open gap ind))
              (JSON.ser gap (ind ++ gap) x
                 :: map (fun y0 => JSON.ser gap (ind ++ gap) y0) (y :: items)))
      with (JSON.ser gap (ind ++ gap) x ++ String "," (ws_open gap ind)
              ++ String.concat (String "," (ws_open gap ind))
                   (map (fun y0 => JSON.ser gap (ind ++ gap) y0) (y :: items))).
    cbn [JSON.parse_elements]. rewrite !append_assoc.
    rewrite (Hx Hpx gap (ind ++ gap) (ws_open gap ind) f _ Hg Hind' Hopen)
      by (cbn in Hfuel |- *; lia).
    cbn [String.append]. rewrite (peek_char "," _ eq_refl). cbn [Ascii.eqb Bool.eqb].
    cbv iota.
    rewrite (IH y (json_image x :: acc) f rest HF') by (cbn in Hfuel |- *; lia).
    cbn [rev map]. now rewrite <- List.app_assoc.
Qed.

Lemma flat_map_members {B} (F : string * value -> B) (ps : list (string * value)) :
  flat_map (fun kv => match snd kv with VUndefined => [] | _ => [F kv] end) ps
  = map F (members ps).
Proof.
  induction ps as [| [k v] ps IH]; [reflexivity |].
  cbn [flat_map members filter snd]. fold (members ps). rewrite IH.
  now destruct v.
Qed.

Lemma ser_obj (gap ind : string) (ps : list (string * value)) :
  JSON.ser gap ind (VObj ps)
  = JSON.wrap gap ind "{" "}" (map (member_text gap ind) (members ps)).
Proof.
  cbn [JSON.ser]. f_equal.
  exact (flat_map_members (member_text gap ind) ps).
Qed.

Lemma json_image_obj (ps : list (string * value)) :
  json_image (VObj ps) = VObj (map member_image (members ps)).
Proof. cbn [json_image]. f_equal. exact (flat_map_members member_image ps). Qed.

Lemma need_obj (ps : list (string * value)) :
  need (VObj ps) = S (need_members (members ps)).
Proof.
  cbn [need]. f_equal. induction ps as [| [k v] ps IH]; [reflexivity |].
  cbn [fold_right members filter snd]. fold (members ps). rewrite IH.
  now destruct v.
Qed.

Lemma member_text_app (gap ind k : string) (v : value) (tail : string) :
  member_text gap ind (k, v) ++ tail
  = String dquote
      (JSON.quote_body k
         ++ String dquote
              (String ":" (colon_space gap ++ JSON.ser gap (ind ++ gap) v ++ tail))).
Proof.
  unfold member_text. cbn [fst snd]. rewrite !append_assoc, quote_app.
  reflexivity.
Qed.

Lemma all_ws_colon_space (gap : string) : all_ws (colon_space gap) = true.
Proof. unfold colon_space. now destruct (String.eqb gap ""). Qed.

Lemma lookup_not_in (k : string) (ps : list (string * value)) :
  ~ In k (map fst ps) -> lookup k ps = None.
Proof.
  induction ps as [| [k' v] ps IH]; [reflexivity |]. cbn. intros H.
  destruct (String.eqb_spec k k') as [-> | _]; [exfalso; auto | auto].
Qed.

Lemma obj_set_fresh (acc : list (string * value)) (k : string) (v : value) :
  ~ In k (map fst acc) -> JSON.array_index k = None ->
  JSON.obj_set acc k v = (acc ++ [(k, v)])%list.
Proof.
  intros Hk Hi. unfold JSON.obj_set, has_own.
  now rewrite (lookup_not_in k acc Hk), Hi.
Qed.

Lemma need_members_cons (kv : string * value) (ms : list (string * value)) :
  need_members (kv :: ms) = S (need (snd kv) + need_members ms).
Proof. reflexivity. Qed.

Lemma parse_members_ser (gap ind : string) :
  all_ws gap = true -> all_ws ind = true ->
  forall (ms : list (string * value)) (kv : string * value)
         (acc : list (string * value)) (fuel : nat) (rest : string),
    Forall (fun m => plain (snd m) /\ parses_back (snd m)) (kv :: ms) ->
    NoDup (map fst acc ++ map fst (kv :: ms)) ->
    Forall (fun k => JSON.array_index k = None) (map fst (kv :: ms)) ->
    need_members (kv :: ms) <= fuel ->
    JSON.parse_members fuel acc
      (ws_open gap ind
         ++ String.concat (String "," (ws_open gap ind))
              (map (member_text gap ind) (kv :: ms))
         ++ ws_close gap ind ++ String "}" rest)
    = Some (VObj (acc ++ map member_image (kv :: ms)), rest).
Proof.
  intros Hg Hi.
  assert (Hopen := all_ws_open gap ind Hg Hi).
  assert (Hclose := all_ws_close gap ind Hi).
  assert (Hind' : all_ws (ind ++ gap) = true) by now apply all_ws_app.
  assert (Hsp := all_ws_colon_space gap).
  induction ms as [| m ms IH]; intros [k v] acc fuel rest HF Hnd Hidx Hfuel;
    inversion HF as [| ? ? [Hpv Hv] HF']; subst; cbn [snd] in Hpv, Hv;
    inversion Hidx as [| ? ? Hik Hidx']; subst;
    rewrite need_members_cons in Hfuel; cbn [snd] in Hfuel;
    (destruct fuel as [| f]; [lia |]);
    assert (Hfresh : ~ In k (map fst acc))
      by (cbn [map fst] in Hnd; apply NoDup_remove_2 in Hnd;
          intros Hin; apply Hnd, in_or_app; now left).
  - cbn [map String.concat JSON.parse_members].
    rewrite member_text_app.
    rewrite (peek_ws _ dquote _ Hopen eq_refl).
    change (Ascii.eqb dquote dquote) with true. cbv iota.
    rewrite parse_chars_quote_body.
    rewrite (peek_char ":" _ eq_refl).
    change (Ascii.eqb ":" ":") with true. cbv iota.
    rewrite (Hv Hpv gap (ind ++ gap) (colon_space gap) f _ Hg Hind' Hsp)
      by lia.
    rewrite (peek_ws _ "}" rest Hclose eq_refl).
    change (Ascii.eqb "}" ",") with false. change (Ascii.eqb "}" "}") with true.
    cbv iota. now rewrite (obj_set_fresh acc k _ Hfresh Hik).
  - change (map (member_text gap ind) ((k, v) :: m :: ms))
      with (member_text gap ind (k, v) :: map (member_text gap ind) (m :: ms)).
    change (String.concat (String "," (ws_open gap ind))
              (member_text gap ind (k, v) :: map (member_text gap ind) (m :: ms)))
      with (member_text gap ind (k, v) ++ String "," (ws_open gap ind)
              ++ String.concat (String "," (ws_open gap ind))
                   (map (member_text gap ind) (m :: ms))).
    cbn [JSON.parse_members]. rewrite !append_assoc, member_text_app.
    rewrite (peek_ws _ dquote _ Hopen eq_refl).
    change (Ascii.eqb dquote dquote) with true. cbv iota.
    rewrite parse_chars_quote_body.
    rewrite (peek_char ":" _ eq_refl).
    change (Ascii.eqb ":" ":") with true. cbv iota.
    rewrite (Hv Hpv gap (ind ++ gap) (colon_space gap) f _ Hg Hind' Hsp)
      by lia.
    cbn [String.append]. rewrite (peek_char "," _ eq_refl).
    change (Ascii.eqb "," ",") with true. cbv iota.
    rewrite (obj_set_fresh acc k _ Hfresh Hik).
    rewrite (IH m (acc ++ [(k, json_image v)])%list f rest HF').
    + cbn [map]. now rewrite <- List.app_assoc.
    + rewrite map_app. cbn [map fst] in Hnd |- *.
      rewrite <- List.app_assoc. exact Hnd.
    + exact Hidx'.
    + lia.
Qed.

Lemma need_elements_cons (x : value) (items : list value) :
  need_elements (x :: items) = S (need x + need_elements items).
Proof. reflexivity. Qed.

Lemma plain_items (items : list value) :
  fold_right (fun x acc => plain x /\ acc) True items ->
  Forall parses_back items ->
  Forall (fun y => plain y /\ parses_back y) items.
Proof.
  induction items as [| x items IH]; cbn; [constructor |].
  intros [Hx Hr] HF. inversion HF; subst. constructor; auto.
Qed.

Lemma plain_members (ps : list (string * value)) :
  fold_right (fun kv acc => (snd kv = VUndefined \/ plain (snd kv)) /\ acc) True ps ->
  Forall (fun kv => parses_back (snd kv)) ps ->
  Forall (fun m => plain (snd m) /\ parses_back (snd m)) (members ps).
Proof.
  induction ps as [| [k v] ps IH]; cbn [fold_right members filter snd]; [constructor |].
  fold (members ps). intros [Hv Hr] HF. inversion HF as [| ? ? Hpb HF']; subst.
  cbn [snd] in Hpb.
  destruct v; cbn [is_undefined negb]; auto;
    (constructor; [split; [destruct Hv as [Hv | Hv]; [discriminate Hv | exact Hv] | exact Hpb]
                  | auto]).
Qed.

Lemma drop_app (a b : string) : drop (String.length a) (a ++ b) = b.
Proof. induction a as [| c a IH]; cbn; [now destruct b | exact IH]. Qed.

Lemma literal_app (name : string) (v : value) (rest : string) :
  JSON.literal name v (name ++ rest) = Some (v, rest).
Proof. unfold JSON.literal. now rewrite prefix_app, drop_app. Qed.

(** Every plain value parses back from its text, compact or indented. *)
Lemma parse_value_ser (v : value) : parses_back v.
Proof.
  induction v as [| | b | n | s | items IH | ps IH] using value_induction;
    unfold parses_back; cbn [plain]; intros Hp gap ind w fuel rest Hg Hi Hw Hfuel;
    try contradiction.
  - destruct fuel as [| f]; [cbn in Hfuel; lia |].
    cbn [JSON.ser String.append JSON.parse_value].
    rewrite (peek_ws w "n" _ Hw eq_refl).
    exact (literal_app "null" VNull rest).
  - destruct fuel as [| f]; [cbn in Hfuel; lia |].
    destruct b; cbn [JSON.ser String.append JSON.parse_value].
    + rewrite (peek_ws w "t" _ Hw eq_refl).
      exact (literal_app "true" (VBool true) rest).
    + rewrite (peek_ws w "f" _ Hw eq_refl).
      exact (literal_app "false" (VBool false) rest).
  - destruct fuel as [| f]; [cbn in Hfuel; lia |].
    cbn [JSON.ser JSON.parse_value]. rewrite quote_app.
    rewrite (peek_ws w dquote _ Hw eq_refl).
    change (Ascii.eqb dquote "{") with false. change (Ascii.eqb dquote "[") with false.
    change (Ascii.eqb dquote dquote) with true. cbv iota.
    now rewrite parse_chars_quote_body.
  - destruct fuel as [| f]; [cbn in Hfuel; lia |].
    pose proof (plain_items items Hp IH) as HF.
    cbn [JSON.ser json_image].
    destruct items as [| x items].
    + cbn [map JSON.wrap String.append JSON.parse_value].
      rewrite (peek_ws w "[" _ Hw eq_refl).
      change (Ascii.eqb "[" "{") with false. change (Ascii.eqb "[" "[") with true.
      cbv iota. rewrite (peek_char "]" rest eq_refl). reflexivity.
    + rewrite wrap_nonempty by discriminate.
      rewrite !append_assoc. cbn [String.append JSON.parse_value].
      rewrite (peek_ws w "[" _ Hw eq_refl).
      change (Ascii.eqb "[" "{") with false. change (Ascii.eqb "[" "[") with true.
      cbv iota.
      inversion HF as [| ? ? [Hpx _] _]; subst.
      destruct (ser_start gap (ind ++ gap) x Hpx) as (c & t & Hser & Hc).
      destruct (value_start_facts c Hc) as (Hws & Hrb & _).
      destruct (concat_start (String "," (ws_open gap ind)) _
                  (map (fun y => JSON.ser gap (ind ++ gap) y) items) c t Hser)
        as (t' & Hcat).
      assert (Hpeek : JSON.peek
                (ws_open gap ind
                   ++ String.concat (String "," (ws_open gap ind))
                        (map (fun x0 => JSON.ser gap (ind ++ gap) x0) (x :: items))
                   ++ ws_close gap ind ++ String "]" rest)
              = Some (c, t' ++ ws_close gap ind ++ String "]" rest)).
      { cbn [map]. rewrite Hcat. cbn [String.append].
        apply peek_ws; [now apply all_ws_open | exact Hws]. }
      rewrite Hpeek, Hrb.
      rewrite (parse_elements_ser gap ind Hg Hi items x [] f rest HF).
      * reflexivity.
      * cbn [need] in Hfuel. fold (need_elements (x :: items)) in Hfuel. lia.
  - destruct fuel as [| f]; [cbn in Hfuel; lia |].
    destruct Hp as (Hnd & Hidx & Hvals).
    pose proof (plain_members ps Hvals IH) as HF.
    rewrite need_obj in Hfuel.
    rewrite ser_obj, json_image_obj.
    destruct (members ps) as [| [k v] ms].
    + cbn [map JSON.wrap String.append JSON.parse_value].
      rewrite (peek_ws w "{" _ Hw eq_refl).
      change (Ascii.eqb "{" "{") with true. cbv iota.
      rewrite (peek_char "}" rest eq_refl). reflexivity.
    + rewrite wrap_nonempty by discriminate.
      rewrite !append_assoc. cbn [String.append JSON.parse_value].
      rewrite (peek_ws w "{" _ Hw eq_refl).
      change (Ascii.eqb "{" "{") with true. cbv iota.
      destruct (concat_start (String "," (ws_open gap ind)) (member_text gap ind (k, v))
                  (map (member_text gap ind) ms) dquote
                  (JSON.quote_body k ++ String dquote
                     (":" ++ colon_space gap ++ JSON.ser gap (ind ++ gap) v)))
        as (t' & Hcat).
      { unfold member_text, JSON.quote. cbn [fst snd String.append].
        now rewrite append_assoc. }
      assert (Hpeek : JSON.peek
                (ws_open gap ind
                   ++ String.concat (String "," (ws_open gap ind))
                        (map (member_text gap ind) ((k, v) :: ms))
                   ++ ws_close gap ind ++ String "}" rest)
              = Some (dquote, t' ++ ws_close gap ind ++ String "}" rest)).
      { cbn [map]. rewrite Hcat. cbn [String.append].
        apply peek_ws; [now apply all_ws_open | reflexivity]. }
      rewrite Hpeek. change (Ascii.eqb dquote "}") with false. cbv iota.
      rewrite (parse_members_ser gap ind Hg Hi ms (k, v) [] f rest HF).
      * reflexivity.
      * exact Hnd.
      * exact Hidx.
      * lia.
Qed.

(** *** The fuel [JSON.parse] gives is enough *)

Lemma length_append (a b : string) :
  String.length (a ++ b) = String.length a + String.length b.
Proof. induction a as [| c a IH]; cbn; [reflexivity | now rewrite IH]. Qed.

Lemma concat_length (sep : string) (parts : list string) :
  1 <= String.length sep ->
  list_sum (map String.length parts) + (List.length parts - 1)
  <= String.length (String.concat sep parts).
Proof.
  intros Hsep. induction parts as [| p parts IH]; [cbn; lia |].
  destruct parts as [| q parts]; [cbn; lia |].
  change (String.concat sep (p :: q :: parts))
    with (p ++ sep ++ String.concat sep (q :: parts)).
  rewrite !length_append. cbn [map list_sum fold_right List.length] in IH |- *. lia.
Qed.

Lemma wrap_length (gap ind opening closing : string) (parts : list string) :
  String.length opening + String.length closing
    + list_sum (map String.length parts) + (List.length parts - 1)
  <= String.length (JSON.wrap gap ind opening closing parts).
Proof.
  destruct parts as [| p parts]; [cbn; rewrite length_append; lia |].
  rewrite wrap_cons, !length_append.
  pose proof (concat_length (String "," (ws_open gap ind)) (p :: parts)) as H.
  cbn [String.length] in H. lia.
Qed.

Lemma need_le_length (v : value) :
  plain v -> forall gap ind, need v <= String.length (JSON.ser gap ind v).
Proof.
  induction v as [| | b | n | s | items IH | ps IH] using value_induction;
    cbn [plain]; intros Hp gap ind; try contradiction.
  - cbn; lia.
  - destruct b; cbn; lia.
  - cbn [need JSON.ser]. unfold JSON.quote. cbn [String.length]. lia.
  - cbn [need JSON.ser].
    pose proof (wrap_length gap ind "[" "]"
                  (map (fun x => JSON.ser gap (ind ++ gap) x) items)) as Hw.
    cbn [String.length] in Hw. rewrite length_map in Hw.
    assert (Hsum : fold_right (fun x n => S (need x + n)) 0 items
                   <= list_sum (map String.length
                                    (map (fun x => JSON.ser gap (ind ++ gap) x) items))
                      + List.length items).
    { clear Hw. induction items as [| x items IHi]; [cbn; lia |].
      cbn [plain fold_right] in Hp. destruct Hp as [Hx Hr].
      inversion IH as [| ? ? Hx' IH']; subst.
      specialize (IHi IH' Hr). specialize (Hx' Hx gap (ind ++ gap)).
      unfold list_sum in *. cbn [fold_right map List.length] in *. lia. }
    unfold list_sum in *. destruct items; [cbn in *; lia |]. cbn [List.length] in *. lia.
  - destruct Hp as (_ & _ & Hvals).
    rewrite need_obj, ser_obj.
    pose proof (wrap_length gap ind "{" "}" (map (member_text gap ind) (members ps))) as Hw.
    cbn [String.length] in Hw. rewrite length_map in Hw.
    assert (Hsum : need_members (members ps)
                   <= list_sum (map String.length (map (member_text gap ind) (members ps)))
                      + List.length (members ps)).
    { clear Hw. induction ps as [| [k v] ps IHp]; [cbn; lia |].
      cbn [fold_right snd] in Hvals. destruct Hvals as [Hv Hr].
      inversion IH as [| ? ? Hv' IH']; subst. cbn [snd] in Hv'.
      specialize (IHp IH' Hr).
      cbn [members filter snd]. fold (members ps).
      destruct v; cbn [is_undefined negb]; try exact IHp;
        (destruct Hv as [Hv | Hv]; [discriminate Hv |];
         specialize (Hv' Hv gap (ind ++ gap));
         rewrite need_members_cons; unfold list_sum in *;
         cbn [map fold_right List.length snd] in *;
         unfold member_text at 1; cbn [fst snd]; rewrite !length_append; lia). }
    unfold list_sum in *. destruct (members ps); [cbn in *; lia |].
    cbn [List.length] in *. lia.
Qed.

Lemma skip_ws_all (t : string) : all_ws t = true -> JSON.skip_ws t = "".
Proof.
  intros H. rewrite <- (append_empty_r t). now rewrite (skip_ws_app t "" H).
Qed.

(** Round trip: the text of a plain value, compact or indented, and
    followed by any white space, parses to the value it denotes. *)
Lemma parse_ser (v : value) (gap trailing : string) :
  plain v -> all_ws gap = true -> all_ws trailing = true ->
  JSON.parse (JSON.ser gap "" v ++ trailing) = Some (json_image v).
Proof.
  intros Hp Hg Ht. unfold JSON.parse.
  pose proof (parse_value_ser v Hp gap "" ""
                (S (String.length (JSON.ser gap "" v ++ trailing))) trailing
                Hg eq_refl eq_refl) as H.
  cbn [String.append] in H.
  rewrite H; [now rewrite (skip_ws_all trailing Ht) |].
  pose proof (need_le_length v Hp gap ""). rewrite length_append. lia.
Qed.

(** ** The JSON log of processed commits *)

Ltac distinct_keys :=
  repeat (constructor; [cbn; intuition discriminate |]); constructor.

Ltac plain_keys :=
  repeat (constructor; [reflexivity |]); constructor.

Lemma plain_file_value (f : ProcessCommit.file_change) : plain (ProcessCommit.file_value f).
Proof.
  destruct f as [st [path |]]; cbn; (split; [distinct_keys | split; [plain_keys | auto 6]]).
Qed.

Lemma plain_commit_value (c : ProcessCommit.commit_info) : plain (ProcessCommit.commit_value c).
Proof.
  destruct c as [i p [n e] m t fl d].
  assert (Hfl : plain (VArr (map ProcessCommit.file_value fl))).
  { cbn [plain]. induction fl as [| f fl IH]; cbn; [exact I |].
    split; [apply plain_file_value | exact IH]. }
  assert (Hc : plain (VObj [("name", opt_value n); ("email", opt_value e)])).
  { destruct n, e; cbn; (split; [distinct_keys | split; [plain_keys | auto 6]]). }
  unfold ProcessCommit.commit_value.
  cbn [ProcessCommit.id ProcessCommit.previousCommit ProcessCommit.committer
       ProcessCommit.name ProcessCommit.email ProcessCommit.message
       ProcessCommit.timestamp ProcessCommit.filesChanged ProcessCommit.diff].
  destruct p; cbn [plain members filter snd opt_value is_undefined negb map fst fold_right];
    (split; [distinct_keys | split; [plain_keys |]]); repeat split; auto.
Qed.

Lemma read_files_image (fl : list ProcessCommit.file_change) :
  read_files (json_image (VArr (map ProcessCommit.file_value fl))) = Some fl.
Proof.
  cbn [json_image read_files]. induction fl as [| [st path] fl IH]; [reflexivity |].
  cbn [map read_all]. rewrite IH. now destruct path.
Qed.

Lemma read_commit_image (c : ProcessCommit.commit_info) :
  read_commit (json_image (ProcessCommit.commit_value c)) = Some c.
Proof.
  destruct c as [i p [n e] m t fl d].
  pose proof (read_files_image fl) as Hfl.
  unfold read_commit.
  assert (Hf : field (json_image (ProcessCommit.commit_value
                 (ProcessCommit.CommitInfo i p (ProcessCommit.Committer n e) m t fl d)))
                 "filesChanged"
               = json_image (VArr (map ProcessCommit.file_value fl)))
    by now destruct p.
  rewrite Hf, Hfl. now destruct p, n, e.
Qed.

Lemma logEntry_ser (c : ProcessCommit.commit_info) :
  ProcessCommit.logEntry c = JSON.ser "  " "" (ProcessCommit.commit_value c).
Proof. reflexivity. Qed.

Lemma file_content_append_to (p c : string) (fl : list (string * string)) :
  file_content p (append_to p c fl)
  = Some (match file_content p fl with Some old => old | None => "" end ++ c).
Proof.
  induction fl as [| [q old] fl IH]; cbn.
  - now rewrite String.eqb_refl.
  - destruct (String.eqb_spec p q) as [-> | Hne]; cbn.
    + now rewrite String.eqb_refl.
    + destruct (String.eqb_spec p q); [contradiction | exact IH].
Qed.

(** What [logProcessedCommit] does to the world: on a file system that
    takes writes, where no regular file is in the way of the logs
    directory; on one that refuses them; and to the files in any case. *)
Lemma logProcessedCommit_writable (c : ProcessCommit.commit_info) (w : world) :
  read_only (fs w) = false -> logs_dir_available (fs w) ->
  ProcessCommit.logProcessedCommit c w
  = (Ok tt,
     World (Fs (with_dir ProcessCommit.LOGS_DIR (fs w))
               (append_to ProcessCommit.PROCESSED_LOG_FILE
                  (ProcessCommit.logEntry c ++ LF ++ LF) (files (fs w)))
               false (refusal (fs w)))
           (sync w)
           (trace w ++ [FsMkdir ProcessCommit.LOGS_DIR;
                        FsAppendFile ProcessCommit.PROCESSED_LOG_FILE
                          (ProcessCommit.logEntry c ++ LF ++ LF)])%list).
Proof.
  destruct w as [[ds fl ro rf] sy tr]. cbn [fs read_only]. intros -> Havail.
  unfold with_dir, logs_dir_available in *. cbn [files] in Havail.
  cbv [ProcessCommit.logProcessedCommit try_catch mbind fs_mkdir fs_appendFile emit
       throw fs sync trace read_only refusal dirs files is_file].
  change ProcessCommit.LOGS_DIR with GithubController.LOGS_DIR.
  destruct (has_dir GithubController.LOGS_DIR (Fs ds fl false rf)) eqn:Hd.
  - rewrite Hd. now rewrite <- List.app_assoc.
  - destruct Havail as [H | H]; [discriminate |]. rewrite H.
    assert (Hd' : has_dir GithubController.LOGS_DIR
                    (Fs (GithubController.LOGS_DIR :: ds) fl false rf) = true).
    { unfold has_dir. cbn [dirs existsb]. now rewrite String.eqb_refl. }
    rewrite Hd'. now rewrite <- List.app_assoc.
Qed.

Lemma logProcessedCommit_read_only (c : ProcessCommit.commit_info) (w : world) :
  read_only (fs w) = true ->
  exists error,
    ProcessCommit.logProcessedCommit c w
    = (Throw error,
       World (fs w) (sync w)
         (trace w ++ FsMkdir ProcessCommit.LOGS_DIR
            :: (if has_dir ProcessCommit.LOGS_DIR (fs w)
                then [FsAppendFile ProcessCommit.PROCESSED_LOG_FILE
                        (ProcessCommit.logEntry c ++ LF ++ LF)]
                else []))%list).
Proof.
  destruct w as [[ds fl ro rf] sy tr]. cbn [fs read_only]. intros ->.
  cbv [ProcessCommit.logProcessedCommit try_catch mbind fs_mkdir fs_appendFile emit
       throw fs sync trace read_only refusal dirs files is_file].
  destruct (has_dir ProcessCommit.LOGS_DIR (Fs ds fl true rf)) eqn:Hd.
  - rewrite Hd. eexists. now rewrite <- List.app_assoc.
  - destruct (file_content ProcessCommit.LOGS_DIR fl); eexists; reflexivity.
Qed.

Lemma logProcessedCommit_files (c : ProcessCommit.commit_info) (w : world) :
  let w' := snd (ProcessCommit.logProcessedCommit c w) in
  files (fs w') = files (fs w)
  \/ files (fs w')
     = append_to ProcessCommit.PROCESSED_LOG_FILE (ProcessCommit.logEntry c ++ LF ++ LF)
         (files (fs w)).
Proof.
  destruct w as [[ds fl ro rf] sy tr].
  cbv [ProcessCommit.logProcessedCommit try_catch mbind fs_mkdir fs_appendFile emit
       throw fs sync trace read_only refusal dirs files is_file].
  destruct (has_dir ProcessCommit.LOGS_DIR (Fs ds fl ro rf)) eqn:Hd.
  - rewrite Hd. destruct ro; cbn; auto.
  - destruct (file_content ProcessCommit.LOGS_DIR fl); [cbn; auto |].
    destruct ro; [cbn; auto |].
    assert (Hd' : has_dir ProcessCommit.LOGS_DIR
                    (Fs (ProcessCommit.LOGS_DIR :: ds) fl false rf) = true).
    { unfold has_dir. cbn [dirs existsb]. now rewrite String.eqb_refl. }
    rewrite Hd'. cbn. auto.
Qed.

Lemma emits_weaken {A} (P Q : event -> Prop) (m : M A) :
  (forall ev, P ev -> Q ev) -> emits P m -> emits Q m.
Proof.
  intros HPQ Hm w. destruct (Hm w) as (l & E & F). exists l. split; [exact E |].
  eapply Forall_impl; eassumption.
Qed.

Lemma emits_processCommit (e : env) (x : externals) (argv : list string) :
  emits json_log_event (ProcessCommit.processCommit e x argv).
Proof.
  unfold ProcessCommit.processCommit.
  apply emits_try_catch; [| auto with effects].
  destruct (nth_error argv 0) as [cid |]; [| auto with effects].
  apply emits_if; [auto with effects |].
  apply emits_bind; [auto with effects |]. intros h. cbv zeta.
  apply emits_bind.
  - unfold ProcessCommit.logProcessedCommit.
    apply emits_try_catch; [| auto with effects].
    apply emits_bind; [apply emits_fs_mkdir; exact I |]. intros _.
    apply emits_fs_appendFile. split; [reflexivity | eauto].
  - intros _. apply emits_bind; [| auto with effects].
    eapply emits_weaken; [| apply emits_syncToGoogleDocs].
    intros [] H; cbn in *; try contradiction; exact I.
Qed.

(** C4. A commit record written to the JSON log parses back to an
    object from which the same record is read, field by field, the diff
    text included; its keys are in the stable order; and every entry the
    script appends to processed-commits.log is the text of a record
    followed by two line feeds: one call of [logProcessedCommit] leaves
    the files as they are or appends that text to the log, does append it
    (after what the log held) where the file system takes writes and no
    regular file is in the way of the logs directory, and the script
    appends nothing else in any run. *)
Theorem commit_log_entry_round_trip :
  forall c : ProcessCommit.commit_info,
    (exists parsed,
       JSON.parse (ProcessCommit.logEntry c) = Some parsed
       /\ JSON.parse (ProcessCommit.logEntry c ++ LF ++ LF) = Some parsed
       /\ read_commit parsed = Some c
       /\ field parsed "diff" = VStr (ProcessCommit.diff c)
       /\ keys parsed = entry_keys c)
    /\ (forall w : world,
          let entry := ProcessCommit.logEntry c ++ LF ++ LF in
          let w' := snd (ProcessCommit.logProcessedCommit c w) in
          (files (fs w') = files (fs w)
           \/ files (fs w') = append_to ProcessCommit.PROCESSED_LOG_FILE entry (files (fs w)))
          /\ (read_only (fs w) = false -> logs_dir_available (fs w) ->
                fst (ProcessCommit.logProcessedCommit c w) = Ok tt
                /\ trace w' = (trace w ++ [FsMkdir ProcessCommit.LOGS_DIR;
                                           FsAppendFile ProcessCommit.PROCESSED_LOG_FILE
                                             entry])%list
                /\ file_content ProcessCommit.PROCESSED_LOG_FILE (files (fs w'))
                   = Some (match file_content ProcessCommit.PROCESSED_LOG_FILE
                                   (files (fs w)) with
                           | Some old => old
                           | None => ""
                           end ++ entry)))
    /\ (forall (e : env) (x : externals) (argv : list string) (w : world),
          exists new,
            trace (snd (ProcessCommit.processCommit e x argv w)) = (trace w ++ new)%list
            /\ Forall json_log_event new).
Proof.
  intros c. split; [| split; [| exact emits_processCommit]].
  - exists (json_image (ProcessCommit.commit_value c)).
    split; [| split; [| split; [| split]]].
    + rewrite logEntry_ser, <- (append_empty_r (JSON.ser "  " "" _)).
      apply parse_ser; [apply plain_commit_value | reflexivity | reflexivity].
    + rewrite logEntry_ser.
      apply parse_ser; [apply plain_commit_value | reflexivity | reflexivity].
    + apply read_commit_image.
    + destruct c as [i p [n e] m t fl d]. now destruct p.
    + destruct c as [i p [n e] m t fl d]. now destruct p.
  - intros w. cbv zeta. split; [apply logProcessedCommit_files |].
    intros Hw Havail. rewrite (logProcessedCommit_writable c w Hw Havail).
    cbn [fst snd trace fs files].
    split; [reflexivity | split; [reflexivity | apply file_content_append_to]].
Qed.

(** On a fresh world the sample record's entry ends up as the whole
    content of processed-commits.log. *)
Lemma commit_log_entry_round_trip_witness :
  file_content ProcessCommit.PROCESSED_LOG_FILE
    (files (fs (snd (ProcessCommit.logProcessedCommit sample_commit fresh))))
  = Some ("" ++ ProcessCommit.logEntry sample_commit ++ LF ++ LF).
Proof.
  refine (proj2 (proj2 (proj2 (proj1 (proj2 (commit_log_entry_round_trip sample_commit))
                                 fresh) eq_refl _))).
  right. reflexivity.
Defined.

(** The sample record's entry, as written: the committer's [email],
    which is [undefined], is left out, and the quotes, the backslash, the
    line feed and the tab of the diff are escaped. *)
Example sample_entry_text :
  ProcessCommit.logEntry sample_commit
  = dq (unlines_but_last
      [ "{";
        "  'id': '2222222',";
        "  'previousCommit': '1111111',";
        "  'committer': {";
        "    'name': 'Ann'";
        "  },";
        "  'message': 'Fix typo',";
        "  'timestamp': '2024-01-01T00:00:00.000Z',";
        "  'filesChanged': [";
        "    {";
        "      'status': 'A',";
        "      'file': 'a.txt'";
        "    },";
        "    {";
        "      'status': 'M',";
        "      'file': 'b.txt'";
        "    }";
        "  ],";
        "  'diff': '+say \'hi\' \\ bye\n\tend'";
        "}" ]).
Proof. vm_compute. reflexivity. Qed.

Example sample_entry_parses :
  option_map read_commit (JSON.parse (ProcessCommit.logEntry sample_commit))
  = Some (Some sample_commit).
Proof. vm_compute. reflexivity. Qed.

(* ================================================================== *)
(** * Further properties                                               *)
(* ================================================================== *)

(** ** One run of the GitHub handler, of the log append and of Doc Sync *)

Lemma github_gate (e : env) (payload : value) (signature : option string) (w : world) :
  accepted e payload signature ->
  (if present (GITHUB_WEBHOOK_SECRET e)
   then lift (GithubController.verifyGithubWebhook e payload signature)
   else ret true) w = (Ok true, w).
Proof.
  intros [H | H].
  - now rewrite H.
  - destruct (present (GITHUB_WEBHOOK_SECRET e)); [| reflexivity].
    unfold lift. now rewrite H.
Qed.

Lemma handleGithubWebhook_accepted (e : env) (x : externals) (event : string)
    (signature : option string) (payload : value) (w : world) :
  event <> "" -> accepted e payload signature ->
  GithubController.handleGithubWebhook e x
    (GithubController.Request (Some event) signature payload) w
  = match (if String.eqb event "push" then GithubController.handlePushEvent e x payload
           else ret tt) w with
    | (Ok _, w') =>
        (Ok (Response 200
               (VObj [("success", VBool true);
                      ("message", VStr ("Successfully processed " ++ event ++ " event"))])),
         w')
    | (Throw error, w') =>
        (Ok (Response 500
               (VObj [("success", VBool false);
                      ("message", VStr "Error processing GitHub webhook");
                      ("error", VStr (error_message error))])),
         w')
    end.
Proof.
  intros Hev Hgate.
  unfold GithubController.handleGithubWebhook, try_catch, mbind.
  cbn [GithubController.x_github_event GithubController.x_hub_signature_256
       GithubController.req_body].
  rewrite (present_Some event Hev). cbn [negb].
  rewrite (github_gate e payload signature w Hgate). cbn [negb].
  destruct (String.eqb event "push"); [| reflexivity].
  destruct (GithubController.handlePushEvent e x payload w) as [[[] | err] w']; reflexivity.
Qed.

Lemma handlePushEvent_commits (e : env) (x : externals) (ps : list (string * value))
    (c : value) (cs : list value) (w : world) :
  lookup "commits" ps = Some (VArr (c :: cs)) ->
  GithubController.handlePushEvent e x (VObj ps) w
  = match GithubController.format_push (VObj ps) (field (VObj ps) "repository")
            (VArr (c :: cs)) (field (VObj ps) "pusher") (field (VObj ps) "before")
            (clock x (trace w)) with
    | Ok commitLog =>
        match GithubController.appendToCommitLog commitLog w with
        | (Ok _, w1) => GithubController.syncToGoogleDocs e x commitLog w1
        | (Throw error, w1) => (Throw error, w1)
        end
    | Throw error => (Throw error, w)
    end.
Proof.
  intros Hc.
  unfold GithubController.handlePushEvent, try_catch, mbind, lift, ret, history, throw.
  cbn [destructure get field]. rewrite Hc. cbn [truthy negb is_zero num_of_nat List.length].
  cbn -[GithubController.format_push GithubController.appendToCommitLog
        GithubController.syncToGoogleDocs].
  destruct (GithubController.format_push _ _ _ _ _ _) as [commitLog | err]; [| reflexivity].
  destruct (GithubController.appendToCommitLog commitLog w) as [[[] | err] w1]; [| reflexivity].
  destruct (GithubController.syncToGoogleDocs e x commitLog w1) as [[[] | err] w2]; reflexivity.
Qed.

Lemma has_dir_with_dir (d : string) (st : fs_state) (ro : bool) (fl : list (string * string))
    (rf : string -> string -> error) :
  has_dir d (Fs (with_dir d st) fl ro rf) = true.
Proof.
  unfold with_dir, has_dir. cbn [dirs].
  destruct (existsb (String.eqb d) (dirs st)) eqn:H; [exact H |].
  cbn [existsb]. now rewrite String.eqb_refl.
Qed.

Lemma appendToCommitLog_writable (content : string) (w : world) :
  read_only (fs w) = false -> logs_dir_available (fs w) ->
  GithubController.appendToCommitLog content w
  = (Ok tt,
     World (Fs (with_dir GithubController.LOGS_DIR (fs w))
               (append_to GithubController.COMMITS_LOG_FILE content (files (fs w)))
               false (refusal (fs w)))
           (sync w)
           (trace w ++ mkdir_if_missing GithubController.LOGS_DIR (fs w)
              ++ [FsAppendFile GithubController.COMMITS_LOG_FILE content])%list).
Proof.
  destruct w as [[ds fl ro rf] sy tr]. cbn [fs read_only]. intros -> Havail.
  unfold logs_dir_available, mkdir_if_missing, with_dir in *. cbn [files] in *.
  cbv [GithubController.appendToCommitLog try_catch mbind fs_access fs_mkdir
       fs_appendFile emit throw fs sync trace read_only refusal dirs files is_file].
  destruct (has_dir GithubController.LOGS_DIR (Fs ds fl false rf)) eqn:Hd.
  - cbn [orb]. rewrite Hd. reflexivity.
  - destruct Havail as [H | H]; [discriminate |]. rewrite H. cbn [orb]. rewrite Hd.
    cbv beta iota. rewrite ?H.
    assert (Hd' : has_dir GithubController.LOGS_DIR
                    (Fs (GithubController.LOGS_DIR :: ds) fl false rf) = true).
    { unfold has_dir. cbn [dirs existsb]. now rewrite String.eqb_refl. }
    rewrite Hd'. now rewrite <- List.app_assoc.
Qed.

(** On a file system that refuses writes the append fails at its first
    write: the open of the log where the directory exists, the mkdir
    where it does not. *)
Lemma appendToCommitLog_read_only (content : string) (w : world) :
  read_only (fs w) = true -> logs_dir_available (fs w) ->
  GithubController.appendToCommitLog content w
  = (Throw (refused_write (fs w)),
     World (fs w) (sync w) (trace w ++ [refused_event content (fs w)])%list).
Proof.
  destruct w as [[ds fl ro rf] sy tr]. cbn [fs read_only]. intros -> Havail.
  unfold logs_dir_available, refused_write, refused_event in *. cbn [files] in *.
  cbv [GithubController.appendToCommitLog try_catch mbind fs_access fs_mkdir
       fs_appendFile emit throw fs sync trace read_only refusal dirs files is_file].
  destruct (has_dir GithubController.LOGS_DIR (Fs ds fl true rf)) eqn:Hd.
  - cbn [orb]. rewrite Hd. reflexivity.
  - destruct Havail as [H | H]; [discriminate |]. rewrite H. cbn [orb].
    rewrite Hd. cbv beta iota. rewrite ?H. reflexivity.
Qed.

Lemma present_true (o : option string) :
  present o = true -> exists s, o = Some s /\ s <> "".
Proof.
  destruct o as [s |]; [| discriminate]. unfold present, opt_value, truthy.
  destruct (String.eqb_spec s ""); [discriminate |]. eauto.
Qed.

(** What one call of [appendToDocument] can do. *)
Lemma appendToDocument_run (e : env) (x : externals) (content : string)
    (documentId : option string) (w : world) :
  exists (b : bool) (new : list event) (s' : docs_sync),
    GoogleDocsSync.appendToDocument e x content documentId w
      = (Ok b, World (fs w) s' (trace w ++ new)%list)
    /\ (initialized (sync w) = true -> s' = sync w)
    /\ ((new = [] /\ b = false)
        \/ exists id,
             target_document e documentId = Some id /\ id <> ""
             /\ initialized s' = true
             /\ ((new = [DocsGet id] /\ b = false)
                 \/ exists ends i,
                      documents_get x (trace w) id = Ok ends
                      /\ GoogleDocsSync.last_endIndex ends = Ok i
                      /\ new = [DocsGet id; DocsBatchUpdate id (i - 1) content]
                      /\ (b = true
                          <-> documents_batchUpdate x (trace w ++ [DocsGet id])%list
                                id (i - 1)%Z content = Ok tt))).
Proof.
  destruct w as [f s tr]. unfold target_document.
  cbv [GoogleDocsSync.appendToDocument try_catch mbind GoogleDocsSync.this ret lift
       history emit fs sync trace].
  assert (Hinit :
    exists ok s',
      (if initialized s then ret true else GoogleDocsSync.initialize e x)
        (World f s tr) = (Ok ok, World f s' tr)
      /\ (initialized s = true -> s' = s)
      /\ (ok = true -> initialized s' = true)
      /\ (ok = false -> s' = s)).
  { destruct (initialized s) eqn:Hi.
    - exists true, s. auto.
    - destruct (initialize_spec e x (World f s tr)) as [-> | [_ ->]].
      + exists false, s. repeat split; auto; discriminate.
      + exists true, (DocsSync true true). repeat split; auto; discriminate. }
  cbv [ret] in Hinit. destruct Hinit as (ok & s' & -> & Hkeep & Hok & Hno).
  destruct ok; cbn [negb].
  2:{ exists false, [], s'. rewrite app_nil_r. auto. }
  specialize (Hok eq_refl).
  destruct (if present documentId then documentId else GOOGLE_DOCS_ID e) as [id |] eqn:Hid.
  2:{ exists false, [], s'. rewrite app_nil_r. auto. }
  destruct (present (Some id)) eqn:Hp; cbn [negb].
  2:{ exists false, [], s'. rewrite app_nil_r. auto. }
  apply present_true in Hp. destruct Hp as (id' & E & Hne). inversion E; subst id'.
  cbv [fs sync trace].
  destruct (documents_get x tr id) as [ends | err] eqn:Hg.
  2:{ exists false, [DocsGet id], s'. split; [reflexivity |]. split; [exact Hkeep |].
      right. exists id. auto 6. }
  destruct (GoogleDocsSync.last_endIndex ends) as [i | err] eqn:Hl.
  2:{ exists false, [DocsGet id], s'. split; [reflexivity |]. split; [exact Hkeep |].
      right. exists id. auto 6. }
  cbv [fs sync trace].
  destruct (documents_batchUpdate x (tr ++ [DocsGet id]) id (i - 1) content) as [[] | err] eqn:Hb.
  - exists true, [DocsGet id; DocsBatchUpdate id (i - 1) content], s'.
    split; [now rewrite <- List.app_assoc |]. split; [exact Hkeep |].
    right. exists id. repeat split; auto. right. exists ends, i. repeat split; auto.
  - exists false, [DocsGet id; DocsBatchUpdate id (i - 1) content], s'.
    split; [now rewrite <- List.app_assoc |]. split; [exact Hkeep |].
    right. exists id. repeat split; auto. right. exists ends, i.
    split; [exact Hg |]. split; [exact Hl |]. split; [reflexivity |].
    split; [discriminate | congruence].
Qed.

Lemma syncToGoogleDocs_run (e : env) (x : externals) (content : string) (w : world) :
  exists (s' : docs_sync) (new : list event),
    GithubController.syncToGoogleDocs e x content w
      = (Ok tt, World (fs w) s' (trace w ++ new)%list)
    /\ Forall (fun ev => is_docs_request ev = true) new.
Proof.
  unfold GithubController.syncToGoogleDocs, try_catch, mbind, ret.
  destruct (negb (present (GOOGLE_DOCS_ID e))
            || negb (present (GOOGLE_APPLICATION_CREDENTIALS e)))%bool.
  - exists (sync w), []. rewrite app_nil_r. destruct w; auto.
  - destruct (appendToDocument_run e x content None w)
      as (b & new & s' & -> & _
          & [[-> _] | (id & _ & _ & _ & [[-> _] | (ends & i & _ & _ & -> & _)])]);
      exists s'; eexists; (split; [reflexivity |]); repeat constructor.
Qed.

(** ** GitHub webhook handler: every request is answered *)

(** X1. The GitHub webhook handler answers every request: whatever the
    headers, the payload, the environment and the outside world do, no
    exception escapes, and the status is 200, 400, 401 or 500. *)
Theorem github_handler_always_answers :
  forall (e : env) (x : externals) (req : GithubController.request) (w : world),
  exists (r : response) (w' : world),
    GithubController.handleGithubWebhook e x req w = (Ok r, w')
    /\ (status r = 200 \/ status r = 400 \/ status r = 401 \/ status r = 500).
Proof.
  intros e x [event signature payload] w.
  unfold GithubController.handleGithubWebhook, try_catch, GithubController.json, ret.
  cbn [GithubController.x_github_event GithubController.x_hub_signature_256
       GithubController.req_body].
  destruct event as [event |]; [| eexists _, _; split; [reflexivity | cbn; auto]].
  destruct (negb (present (Some event))); [eexists _, _; split; [reflexivity | cbn; auto] |].
  unfold mbind.
  destruct ((if present (GITHUB_WEBHOOK_SECRET e)
             then lift (GithubController.verifyGithubWebhook e payload signature)
             else fun w0 => (Ok true, w0)) w) as [[valid | err] w1];
    [| eexists _, _; split; [reflexivity | cbn; auto]].
  destruct valid; cbn [negb]; [| eexists _, _; split; [reflexivity | cbn; auto]].
  destruct (String.eqb event "push").
  - destruct (GithubController.handlePushEvent e x payload w1) as [[[] | err] w2];
      eexists _, _; (split; [reflexivity | cbn; auto]).
  - eexists _, _; split; [reflexivity | cbn; auto].
Qed.

(** ** GitHub webhook handler: the signature gate *)

Lemma verifyGithubWebhook_absent (e : env) (payload : value) (signature : option string) :
  present signature = false ->
  GithubController.verifyGithubWebhook e payload signature = Ok false.
Proof.
  intros H. unfold GithubController.verifyGithubWebhook.
  destruct signature as [sig |]; [| reflexivity].
  destruct (GITHUB_WEBHOOK_SECRET e); [| reflexivity].
  now rewrite H.
Qed.

Lemma handleGithubWebhook_rejected (e : env) (x : externals) (event : string)
    (signature : option string) (payload : value) (w : world) :
  event <> "" -> present (GITHUB_WEBHOOK_SECRET e) = true ->
  GithubController.verifyGithubWebhook e payload signature = Ok false ->
  GithubController.handleGithubWebhook e x
    (GithubController.Request (Some event) signature payload) w
  = (Ok (Response 401 (VObj [("success", VBool false);
                             ("message", VStr "Invalid webhook signature")])),
     w).
Proof.
  intros Hev Hs Hv.
  unfold GithubController.handleGithubWebhook, try_catch, mbind, lift.
  cbn [GithubController.x_github_event GithubController.x_hub_signature_256
       GithubController.req_body].
  rewrite (present_Some event Hev), Hs, Hv. reflexivity.
Qed.

(** X2. With a secret configured, a request whose signature header is
    absent or empty, or is a string of 71 bytes in UTF-8 (the byte length
    of the digest string, which is what the comparator checks) other than
    [sha256=] followed by the hex HMAC of the re-serialized payload, is
    answered with 401, whatever the event; nothing is written and no
    request leaves the process. *)
Theorem invalid_signature_rejected_401 :
  forall (e : env) (x : externals) (event secret : string)
         (signature : option string) (payload : value) (w : world),
    GITHUB_WEBHOOK_SECRET e = Some secret -> secret <> "" -> event <> "" ->
    (present signature = false
     \/ exists sig text,
          signature = Some sig /\ JSON.stringify payload = Some text
          /\ String.length sig = 71
          /\ sig <> "sha256=" ++ HMAC.hmac_sha256_hex secret text) ->
    GithubController.handleGithubWebhook e x
      (GithubController.Request (Some event) signature payload) w
    = (Ok (Response 401 (VObj [("success", VBool false);
                               ("message", VStr "Invalid webhook signature")])),
       w).
Proof.
  intros e x event secret signature payload w He Hs Hev Hsig.
  apply handleGithubWebhook_rejected; [exact Hev | rewrite He; now apply present_Some |].
  destruct Hsig as [Habsent | (sig & text & -> & Ht & Hlen & Hne)].
  - now apply verifyGithubWebhook_absent.
  - assert (Hg : sig <> "") by (intros ->; discriminate Hlen).
    rewrite (verifyGithubWebhook_digest e secret sig text payload He Hs Hg Ht).
    unfold GithubController.timingSafeEqual.
    rewrite digest_string_length, Hlen. cbn [Nat.eqb].
    destruct (String.eqb_spec ("sha256=" ++ HMAC.hmac_sha256_hex secret text) sig)
      as [E | _]; [symmetry in E; contradiction | reflexivity].
Qed.

Lemma invalid_signature_rejected_401_witness :
  GithubController.handleGithubWebhook with_secret quiet
    (GithubController.Request (Some "ping") None (VObj [])) fresh
  = (Ok (Response 401 (VObj [("success", VBool false);
                             ("message", VStr "Invalid webhook signature")])),
     fresh)
  /\ GithubController.handleGithubWebhook with_secret quiet
       (GithubController.Request (Some "push")
          (Some ("sha256=" ++ repeat_string "0" 64)) sample_push) fresh
     = (Ok (Response 401 (VObj [("success", VBool false);
                                ("message", VStr "Invalid webhook signature")])),
        fresh).
Proof.
  split.
  - apply (invalid_signature_rejected_401 with_secret quiet "ping" "s3cret" None
             (VObj []) fresh eq_refl); [discriminate | discriminate |].
    left. reflexivity.
  - apply (invalid_signature_rejected_401 with_secret quiet "push" "s3cret"
             (Some ("sha256=" ++ repeat_string "0" 64)) sample_push fresh eq_refl);
      [discriminate | discriminate |].
    right. exists ("sha256=" ++ repeat_string "0" 64).
    eexists. split; [reflexivity |]. split; [reflexivity |].
    split; [reflexivity |]. vm_compute. discriminate.
Defined.

(** X3. Without a configured secret (unset or empty) the signature
    header is not looked at: two requests that differ only in that header
    get the same response and have the same effects. *)
Theorem no_secret_signature_ignored :
  forall (e : env) (x : externals) (event signature signature' : option string)
         (payload : value) (w : world),
    present (GITHUB_WEBHOOK_SECRET e) = false ->
    GithubController.handleGithubWebhook e x
      (GithubController.Request event signature payload) w
    = GithubController.handleGithubWebhook e x
        (GithubController.Request event signature' payload) w.
Proof.
  intros e x event signature signature' payload w H.
  unfold GithubController.handleGithubWebhook.
  cbn [GithubController.x_github_event GithubController.x_hub_signature_256
       GithubController.req_body].
  now rewrite H.
Qed.

Lemma no_secret_signature_ignored_witness :
  GithubController.handleGithubWebhook no_secret quiet
    (GithubController.Request (Some "push") (Some "sha256=forged") sample_push) fresh
  = GithubController.handleGithubWebhook no_secret quiet
      (GithubController.Request (Some "push") None sample_push) fresh.
Proof.
  apply (no_secret_signature_ignored no_secret quiet (Some "push")
           (Some "sha256=forged") None sample_push fresh).
  reflexivity.
Defined.

(** ** GitHub webhook handler: dispatch on the event *)

(** X4. An event other than [push] that passes the signature gate is
    acknowledged with 200 and a message naming the event, and has no
    effect at all: the payload is not read. *)
Theorem other_events_acknowledged_200 :
  forall (e : env) (x : externals) (event : string) (signature : option string)
         (payload : value) (w : world),
    event <> "" -> event <> "push" -> accepted e payload signature ->
    GithubController.handleGithubWebhook e x
      (GithubController.Request (Some event) signature payload) w
    = (Ok (Response 200
             (VObj [("success", VBool true);
                    ("message", VStr ("Successfully processed " ++ event ++ " event"))])),
       w).
Proof.
  intros e x event signature payload w Hev Hpush Hgate.
  rewrite (handleGithubWebhook_accepted e x event signature payload w Hev Hgate).
  destruct (String.eqb_spec event "push"); [contradiction | reflexivity].
Qed.

Lemma other_events_acknowledged_200_witness :
  GithubController.handleGithubWebhook no_secret quiet
    (GithubController.Request (Some "pull_request") None VUndefined) fresh
  = (Ok (Response 200
           (VObj [("success", VBool true);
                  ("message", VStr "Successfully processed pull_request event")])),
     fresh).
Proof.
  apply (other_events_acknowledged_200 no_secret quiet "pull_request" None VUndefined fresh);
    [discriminate | discriminate | left; reflexivity].
Defined.

(** ** GitHub webhook handler: pushes with commits *)

Lemma file_content_append_other (p q c : string) (fl : list (string * string)) :
  p <> q -> file_content p (append_to q c fl) = file_content p fl.
Proof.
  intros Hne. induction fl as [| [k old] fl IH]; cbn.
  - destruct (String.eqb_spec p q); [contradiction | reflexivity].
  - destruct (String.eqb_spec q k) as [-> | Hqk]; cbn.
    + destruct (String.eqb_spec p k); [contradiction | reflexivity].
    + destruct (String.eqb_spec p k); [reflexivity | exact IH].
Qed.

(** X5. A push with commits that passes the signature gate and whose
    payload the handler can format is answered with 200, and the formatted
    entry is appended to commits.log (the logs directory is made when it
    is missing): the file then holds what it held before, followed by the
    entry.  This holds whatever the Doc Sync configuration is and
    whatever the document service answers: after the append only
    document requests follow, and their failure does not change the
    response. *)
Theorem push_with_commits_is_logged :
  forall (e : env) (x : externals) (signature : option string)
         (ps : list (string * value)) (c : value) (cs : list value)
         (entry : string) (w : world),
    accepted e (VObj ps) signature ->
    lookup "commits" ps = Some (VArr (c :: cs)) ->
    push_entry x (trace w) ps (c :: cs) = Ok entry ->
    read_only (fs w) = false -> logs_dir_available (fs w) ->
    exists (w' : world) (requests : list event),
      GithubController.handleGithubWebhook e x
        (GithubController.Request (Some "push") signature (VObj ps)) w
      = (Ok (Response 200
               (VObj [("success", VBool true);
                      ("message", VStr "Successfully processed push event")])),
         w')
      /\ file_content GithubController.COMMITS_LOG_FILE (files (fs w'))
         = Some (content_of GithubController.COMMITS_LOG_FILE (fs w) ++ entry)
      /\ has_dir GithubController.LOGS_DIR (fs w') = true
      /\ trace w'
         = (trace w ++ mkdir_if_missing GithubController.LOGS_DIR (fs w)
              ++ [FsAppendFile GithubController.COMMITS_LOG_FILE entry] ++ requests)%list
      /\ Forall (fun ev => is_docs_request ev = true) requests.
Proof.
  intros e x signature ps c cs entry w Hgate Hc Hentry Hrw Havail.
  rewrite (handleGithubWebhook_accepted e x "push" signature (VObj ps) w
             ltac:(discriminate) Hgate).
  change (String.eqb "push" "push") with true. cbv iota.
  rewrite (handlePushEvent_commits e x ps c cs w Hc).
  unfold push_entry in Hentry. rewrite Hentry.
  rewrite (appendToCommitLog_writable entry w Hrw Havail).
  match goal with
  | |- context [GithubController.syncToGoogleDocs e x entry ?w1] =>
      destruct (syncToGoogleDocs_run e x entry w1) as (s' & requests & -> & Hreq)
  end.
  eexists _, requests. split; [reflexivity |].
  cbn [fs files trace]. split; [apply file_content_append_to |].
  split; [apply has_dir_with_dir |].
  split; [now rewrite <- !List.app_assoc | exact Hreq].
Qed.

Lemma push_with_commits_is_logged_witness :
  exists (w' : world) (requests : list event),
    GithubController.handleGithubWebhook no_secret quiet
      (GithubController.Request (Some "push") None sample_push) fresh
    = (Ok (Response 200
             (VObj [("success", VBool true);
                    ("message", VStr "Successfully processed push event")])),
       w')
    /\ file_content GithubController.COMMITS_LOG_FILE (files (fs w'))
       = Some (content_of GithubController.COMMITS_LOG_FILE (fs fresh) ++ sample_push_entry)
    /\ has_dir GithubController.LOGS_DIR (fs w') = true
    /\ trace w'
       = (trace fresh ++ mkdir_if_missing GithubController.LOGS_DIR (fs fresh)
            ++ [FsAppendFile GithubController.COMMITS_LOG_FILE sample_push_entry]
            ++ requests)%list
    /\ Forall (fun ev => is_docs_request ev = true) requests.
Proof.
  eapply (push_with_commits_is_logged no_secret quiet None).
  - left. reflexivity.
  - reflexivity.
  - vm_compute. reflexivity.
  - reflexivity.
  - right. reflexivity.
Defined.

(** X6. When the file system refuses the first write of the log (the
    open of commits.log where the logs directory exists, the mkdir of the
    directory where it does not), a push with commits is answered with
    500 carrying the message of the error that write raised; the files
    are as before and the document is not contacted: the one event
    recorded is the refused write. *)
Theorem push_log_write_failure_500 :
  forall (e : env) (x : externals) (signature : option string)
         (ps : list (string * value)) (c : value) (cs : list value)
         (entry : string) (w : world),
    accepted e (VObj ps) signature ->
    lookup "commits" ps = Some (VArr (c :: cs)) ->
    push_entry x (trace w) ps (c :: cs) = Ok entry ->
    read_only (fs w) = true -> logs_dir_available (fs w) ->
    GithubController.handleGithubWebhook e x
      (GithubController.Request (Some "push") signature (VObj ps)) w
    = (Ok (Response 500
             (VObj [("success", VBool false);
                    ("message", VStr "Error processing GitHub webhook");
                    ("error", VStr (error_message (refused_write (fs w))))])),
       World (fs w) (sync w) (trace w ++ [refused_event entry (fs w)])%list).
Proof.
  intros e x signature ps c cs entry w Hgate Hc Hentry Hro Havail.
  rewrite (handleGithubWebhook_accepted e x "push" signature (VObj ps) w
             ltac:(discriminate) Hgate).
  change (String.eqb "push" "push") with true. cbv iota.
  rewrite (handlePushEvent_commits e x ps c cs w Hc).
  unfold push_entry in Hentry. rewrite Hentry.
  now rewrite (appendToCommitLog_read_only entry w Hro Havail).
Qed.

(** The logs directory exists on a read-only mount: the open of the log
    is refused. *)
Lemma push_log_write_failure_500_witness :
  GithubController.handleGithubWebhook no_secret quiet
    (GithubController.Request (Some "push") None sample_push)
    (World (Fs ["logs"] [] true erofs) GoogleDocsSync.constructor [])
  = (Ok (Response 500
           (VObj [("success", VBool false);
                  ("message", VStr "Error processing GitHub webhook");
                  ("error",
                   VStr "EROFS: read-only file system, open 'logs/commits.log'")])),
     World (Fs ["logs"] [] true erofs) GoogleDocsSync.constructor
       [FsAppendFile "logs/commits.log" sample_push_entry]).
Proof.
  eapply (push_log_write_failure_500 no_secret quiet None _ _ _ sample_push_entry
           (World (Fs ["logs"] [] true erofs) GoogleDocsSync.constructor [])).
  - left. reflexivity.
  - reflexivity.
  - vm_compute. reflexivity.
  - reflexivity.
  - left. reflexivity.
Defined.

(** X7. When the payload of a push with commits cannot be formatted (a
    field the formatter dereferences is missing, as the [ref] of the
    push or the [committer] of a commit), the answer is 500 with the
    exception's message, and nothing has been written or sent: the
    entry is built completely before the first write. *)
Theorem malformed_push_500_nothing_logged :
  forall (e : env) (x : externals) (signature : option string)
         (ps : list (string * value)) (c : value) (cs : list value)
         (error : error) (w : world),
    accepted e (VObj ps) signature ->
    lookup "commits" ps = Some (VArr (c :: cs)) ->
    push_entry x (trace w) ps (c :: cs) = Throw error ->
    GithubController.handleGithubWebhook e x
      (GithubController.Request (Some "push") signature (VObj ps)) w
    = (Ok (Response 500
             (VObj [("success", VBool false);
                    ("message", VStr "Error processing GitHub webhook");
                    ("error", VStr (error_message error))])),
       w).
Proof.
  intros e x signature ps c cs error w Hgate Hc Hentry.
  rewrite (handleGithubWebhook_accepted e x "push" signature (VObj ps) w
             ltac:(discriminate) Hgate).
  change (String.eqb "push" "push") with true. cbv iota.
  rewrite (handlePushEvent_commits e x ps c cs w Hc).
  unfold push_entry in Hentry. now rewrite Hentry.
Qed.

Lemma malformed_push_500_nothing_logged_witness :
  GithubController.handleGithubWebhook no_secret quiet
    (GithubController.Request (Some "push") None
       (VObj [("repository", VObj [("full_name", VStr "octo/repo")]);
              ("pusher", VObj [("name", VStr "Ann")]);
              ("commits", VArr [VObj [("id", VStr "2222222")]])])) fresh
  = (Ok (Response 500
           (VObj [("success", VBool false);
                  ("message", VStr "Error processing GitHub webhook");
                  ("error", VStr "Cannot read properties of undefined (reading 'replace')")])),
     fresh).
Proof.
  apply (malformed_push_500_nothing_logged no_secret quiet None
           [("repository", VObj [("full_name", VStr "octo/repo")]);
            ("pusher", VObj [("name", VStr "Ann")]);
            ("commits", VArr [VObj [("id", VStr "2222222")]])]
           (VObj [("id", VStr "2222222")]) []
           (TypeError "Cannot read properties of undefined (reading 'replace')") fresh).
  - left. reflexivity.
  - reflexivity.
  - reflexivity.
Defined.

(** X8. The push handler's Doc Sync step never fails the request: it
    returns normally whatever the configuration and the document service
    do, writes no file, and adds only document requests to the trace; and
    when the document id or the credentials path is unset or empty it
    does nothing at all, even when the client is already initialized. *)
Theorem push_doc_sync_never_fails :
  forall (e : env) (x : externals) (content : string) (w : world),
    (exists (s' : docs_sync) (requests : list event),
       GithubController.syncToGoogleDocs e x content w
         = (Ok tt, World (fs w) s' (trace w ++ requests)%list)
       /\ Forall (fun ev => is_docs_request ev = true) requests)
    /\ (present (GOOGLE_DOCS_ID e) = false
        \/ present (GOOGLE_APPLICATION_CREDENTIALS e) = false ->
        GithubController.syncToGoogleDocs e x content w = (Ok tt, w)).
Proof.
  intros e x content w. split; [apply syncToGoogleDocs_run |].
  intros H. unfold GithubController.syncToGoogleDocs, try_catch.
  destruct H as [-> | ->]; [reflexivity | now rewrite orb_true_r].
Qed.

Lemma push_doc_sync_never_fails_witness :
  GithubController.syncToGoogleDocs credentials_only quiet "entry"
    (World (Fs [] [] false erofs) (DocsSync true true) [])
  = (Ok tt, World (Fs [] [] false erofs) (DocsSync true true) []).
Proof.
  apply (proj2 (push_doc_sync_never_fails credentials_only quiet "entry"
                  (World (Fs [] [] false erofs) (DocsSync true true) []))).
  left. reflexivity.
Defined.

(** ** The push entry: branch line and commit blocks *)

Lemma substring_drop (p s : string) :
  substring (String.length p) (String.length (p ++ s) - String.length p) (p ++ s) = s.
Proof.
  induction p as [| c p IH]; cbn [String.append String.length substring].
  - rewrite Nat.sub_0_r. induction s as [| d s IHs]; cbn; [reflexivity | now rewrite IHs].
  - exact IH.
Qed.

Lemma remove_first_prefix (pat s : string) : remove_first pat (pat ++ s) = s.
Proof.
  destruct (pat ++ s) as [| c r] eqn:E; cbn [remove_first].
  - destruct pat; [| discriminate]. cbn in E. subst s. reflexivity.
  - rewrite <- E, prefix_app. apply substring_drop.
Qed.

Lemma remove_first_absent (pat s : string) :
  occurs pat s = false -> remove_first pat s = s.
Proof.
  induction s as [| c r IH]; cbn [occurs remove_first]; intros H;
    apply orb_false_iff in H; destruct H as [Hp Hr]; rewrite Hp; [reflexivity |].
  now rewrite (IH Hr).
Qed.

(** X9. The branch line of a push entry: a [ref] that starts with
    [refs/heads/] is shown without that prefix (and only the first
    occurrence goes), a [ref] in which [refs/heads/] does not occur, such
    as a tag's, is shown as it is, and a push without [ref] cannot be
    formatted. *)
Theorem branch_line_strips_heads_prefix :
  (forall branch : string,
     GithubController.branch_of (VStr ("refs/heads/" ++ branch)) = Ok branch)
  /\ (forall ref : string,
        occurs "refs/heads/" ref = false ->
        GithubController.branch_of (VStr ref) = Ok ref)
  /\ GithubController.branch_of VUndefined
     = Throw (TypeError "Cannot read properties of undefined (reading 'replace')").
Proof.
  split; [| split; [| reflexivity]].
  - intros branch. unfold GithubController.branch_of.
    now rewrite (remove_first_prefix "refs/heads/" branch).
  - intros ref H. unfold GithubController.branch_of. now rewrite remove_first_absent.
Qed.

Lemma branch_line_strips_heads_prefix_witness :
  GithubController.branch_of (VStr "refs/heads/feature/refs/heads/x")
    = Ok "feature/refs/heads/x"
  /\ GithubController.branch_of (VStr "refs/tags/v1.0") = Ok "refs/tags/v1.0".
Proof.
  split.
  - apply (proj1 branch_line_strips_heads_prefix "feature/refs/heads/x").
  - apply (proj1 (proj2 branch_line_strips_heads_prefix) "refs/tags/v1.0"). reflexivity.
Defined.

Ltac string_assoc :=
  unfold LF; repeat (progress (rewrite ?append_assoc; cbn [String.append])); reflexivity.

Lemma file_lines_acc (symbol : string) (files : list value) (log : string) :
  GithubController.file_lines symbol files log
  = do text <- GithubController.file_lines symbol files ""; Ok (log ++ text).
Proof.
  revert log. induction files as [| f r IH]; intros log; cbn [GithubController.file_lines].
  - cbn. now rewrite append_empty_r.
  - destruct (ToString f) as [s | err]; [| reflexivity]. cbn [bind].
    rewrite (IH (log ++ _)), (IH ("" ++ _)).
    destruct (GithubController.file_lines symbol r "") as [t | err]; [| reflexivity].
    cbn [bind]. f_equal. string_assoc.
Qed.

Lemma file_section_acc (prop title symbol : string) (list : value) (log : string) :
  GithubController.file_section prop title symbol list log
  = do text <- GithubController.file_section prop title symbol list ""; Ok (log ++ text).
Proof.
  unfold GithubController.file_section.
  destruct (get list "length") as [len | err]; [| reflexivity]. cbn [bind].
  destruct (gt_zero len) as [[] | err]; cbn [bind]; [| now rewrite append_empty_r | reflexivity].
  destruct list; try reflexivity.
  rewrite (file_lines_acc symbol items (log ++ _)), (file_lines_acc symbol items ("" ++ _)).
  destruct (GithubController.file_lines symbol items "") as [t | err]; [| reflexivity].
  cbn [bind String.append]. now rewrite !append_assoc.
Qed.

Lemma commit_block_acc (previousCommit commit : value) (log : string) :
  GithubController.commit_block previousCommit commit log
  = do block <- GithubController.commit_block previousCommit commit ""; Ok (log ++ block).
Proof.
  unfold GithubController.commit_block. cbv zeta.
  repeat match goal with
         | |- context [bind (get ?v ?k) _] =>
             destruct (get v k) as [? | ?]; [cbn [bind] | reflexivity]
         | |- context [bind (ToString ?v) _] =>
             destruct (ToString v) as [? | ?]; [cbn [bind] | reflexivity]
         | |- context [GithubController.file_section ?p ?t ?s ?l ?acc] =>
             lazymatch acc with
             | EmptyString => fail
             | _ => rewrite (file_section_acc p t s l acc)
             end
         | |- context [bind (GithubController.file_section ?p ?t ?s ?l "") _] =>
             destruct (GithubController.file_section p t s l "") as [? | ?];
             [cbn [bind] | reflexivity]
         end.
  f_equal. string_assoc.
Qed.

Lemma commit_blocks_traverse (previousCommit : value) (commits : list value) (log : string) :
  GithubController.commit_blocks previousCommit commits log
  = do blocks <- traverse (fun c => GithubController.commit_block previousCommit c "") commits;
    Ok (log ++ String.concat "" blocks).
Proof.
  revert log. induction commits as [| c r IH]; intros log;
    cbn [GithubController.commit_blocks traverse].
  - cbn. now rewrite append_empty_r.
  - rewrite (commit_block_acc previousCommit c log).
    destruct (GithubController.commit_block previousCommit c "") as [b | err];
      [cbn [bind] | reflexivity].
    rewrite IH.
    destruct (traverse _ r) as [bs | err]; [cbn [bind] | reflexivity].
    now rewrite concat_empty_cons, append_assoc.
Qed.

(** X10. A push entry is its header (the text formatted for the same
    push without commits: repository, branch, pusher, date and an empty
    line) followed by one block per commit, in payload order; the block
    of a commit depends on that commit and on the push's [before] only,
    not on the commits around it nor on what was formatted before it.
    When a commit cannot be formatted, the exception of the first such
    commit is the result. *)
Theorem push_entry_is_header_then_blocks :
  forall (payload repository pusher previousCommit : value) (commits : list value)
         (now : string),
    GithubController.format_push payload repository (VArr commits) pusher previousCommit now
    = do header <- GithubController.format_push payload repository (VArr []) pusher
                     previousCommit now;
      do blocks <- traverse (fun c => GithubController.commit_block previousCommit c "")
                     commits;
      Ok (header ++ String.concat "" blocks).
Proof.
  intros payload repository pusher previousCommit commits now.
  unfold GithubController.format_push.
  cbn [get GithubController.iterate bind ToString].
  repeat match goal with
         | |- context [bind (get ?v ?k) _] =>
             destruct (get v k) as [? | ?]; [cbn [bind] | reflexivity]
         | |- context [bind (ToString ?v) _] =>
             destruct (ToString v) as [? | ?]; [cbn [bind] | reflexivity]
         | |- context [bind (GithubController.branch_of ?v) _] =>
             destruct (GithubController.branch_of v) as [? | ?]; [cbn [bind] | reflexivity]
         end.
  cbv zeta. cbn [GithubController.commit_blocks bind].
  apply commit_blocks_traverse.
Qed.

(** ** The commit log file *)

Lemma has_dir_with_dir_mono (d d' : string) (st : fs_state) (ro : bool)
    (fl : list (string * string)) (rf : string -> string -> error) :
  has_dir d' st = true -> has_dir d' (Fs (with_dir d st) fl ro rf) = true.
Proof.
  unfold with_dir, has_dir. cbn [dirs]. intros H.
  destruct (existsb (String.eqb d) (dirs st)); [exact H |].
  cbn [existsb]. rewrite H. apply orb_true_r.
Qed.

(** X11. [appendToCommitLog] only ever appends: on a writable file
    system it returns normally, commits.log then holds its previous
    content followed by the new text, the logs directory exists, and
    every other file and directory is as before; on a read-only one it
    throws the file system's error and changes nothing. *)
Theorem commit_log_is_append_only :
  forall (content : string) (w : world),
    logs_dir_available (fs w) ->
    (read_only (fs w) = false ->
       fst (GithubController.appendToCommitLog content w) = Ok tt
       /\ file_content GithubController.COMMITS_LOG_FILE
            (files (fs (snd (GithubController.appendToCommitLog content w))))
          = Some (content_of GithubController.COMMITS_LOG_FILE (fs w) ++ content)
       /\ has_dir GithubController.LOGS_DIR
            (fs (snd (GithubController.appendToCommitLog content w))) = true
       /\ (forall p, p <> GithubController.COMMITS_LOG_FILE ->
             file_content p (files (fs (snd (GithubController.appendToCommitLog content w))))
             = file_content p (files (fs w)))
       /\ (forall d, has_dir d (fs w) = true ->
             has_dir d (fs (snd (GithubController.appendToCommitLog content w))) = true))
    /\ (read_only (fs w) = true ->
          (exists error, fst (GithubController.appendToCommitLog content w) = Throw error)
          /\ fs (snd (GithubController.appendToCommitLog content w)) = fs w).
Proof.
  intros content w Havail. split; intros Hro.
  - rewrite (appendToCommitLog_writable content w Hro Havail). cbn [fst snd fs files].
    split; [reflexivity |]. split; [apply file_content_append_to |].
    split; [apply has_dir_with_dir |].
    split; [intros p Hp; now apply file_content_append_other |].
    intros d Hd. now apply has_dir_with_dir_mono.
  - rewrite (appendToCommitLog_read_only content w Hro Havail). cbn. eauto.
Qed.

Lemma commit_log_is_append_only_witness :
  fst (GithubController.appendToCommitLog "second"
         (World (Fs ["logs"] [("logs/commits.log", "first")] false erofs)
                GoogleDocsSync.constructor [])) = Ok tt
  /\ file_content GithubController.COMMITS_LOG_FILE
       (files (fs (snd (GithubController.appendToCommitLog "second"
          (World (Fs ["logs"] [("logs/commits.log", "first")] false erofs)
                 GoogleDocsSync.constructor [])))))
     = Some "firstsecond".
Proof.
  pose proof (proj1 (commit_log_is_append_only "second"
                (World (Fs ["logs"] [("logs/commits.log", "first")] false erofs)
                       GoogleDocsSync.constructor [])
                (or_introl eq_refl)) eq_refl) as (H1 & H2 & _).
  split; [exact H1 | exact H2].
Defined.

(** ** Doc Sync client *)

Lemma last_endIndex_Ok (ends : list Z) (i : Z) :
  GoogleDocsSync.last_endIndex ends = Ok i <-> exists front, ends = (front ++ [i])%list.
Proof.
  unfold GoogleDocsSync.last_endIndex. split.
  - destruct (rev ends) as [| j r] eqn:E; [discriminate |].
    intros H. inversion H; subst j. exists (rev r).
    rewrite <- (rev_involutive ends), E. reflexivity.
  - intros [front ->]. now rewrite rev_app_distr.
Qed.

(** X12. [appendToDocument] never throws and never touches the file
    system: it returns a boolean, and what it adds to the trace is nothing,
    or one fetch of the addressed document, or that fetch followed by
    one insertion of the given text into the same document.  The
    document addressed is the [documentId] argument when it is given
    and not empty, and [GOOGLE_DOCS_ID] otherwise. *)
Theorem append_to_document_never_throws :
  forall (e : env) (x : externals) (content : string) (documentId : option string)
         (w : world),
  exists (b : bool) (w' : world) (new : list event),
    GoogleDocsSync.appendToDocument e x content documentId w = (Ok b, w')
    /\ fs w' = fs w
    /\ trace w' = (trace w ++ new)%list
    /\ (new = []
        \/ exists id,
             (if present documentId then documentId else GOOGLE_DOCS_ID e) = Some id
             /\ (new = [DocsGet id]
                 \/ exists index, new = [DocsGet id; DocsBatchUpdate id index content])).
Proof.
  intros e x content documentId w.
  destruct (appendToDocument_run e x content documentId w)
    as (b & new & s' & E & _ & H).
  exists b, (World (fs w) s' (trace w ++ new)%list), new.
  split; [exact E |]. split; [reflexivity |]. split; [reflexivity |].
  destruct H as [[-> _] | (id & Hid & _ & _ & [[-> _] | (ends & i & _ & _ & -> & _)])];
    [now left | right; exists id; split; [exact Hid | now left]
    | right; exists id; split; [exact Hid | right; now exists (i - 1)%Z]].
Qed.

(** X13. When [appendToDocument] returns [true], it has fetched the
    addressed document and then inserted the text at the index just before
    the end of the document's last content element ([endIndex - 1]), in
    that order and nothing else; and the client is initialized from then
    on. *)
Theorem append_true_inserts_before_end :
  forall (e : env) (x : externals) (content : string) (documentId : option string)
         (w : world),
    fst (GoogleDocsSync.appendToDocument e x content documentId w) = Ok true ->
    exists (id : string) (front : list Z) (endIndex : Z),
      (if present documentId then documentId else GOOGLE_DOCS_ID e) = Some id
      /\ id <> ""
      /\ documents_get x (trace w) id = Ok (front ++ [endIndex])%list
      /\ trace (snd (GoogleDocsSync.appendToDocument e x content documentId w))
         = (trace w ++ [DocsGet id; DocsBatchUpdate id (endIndex - 1) content])%list
      /\ initialized (sync (snd (GoogleDocsSync.appendToDocument e x content documentId w)))
         = true.
Proof.
  intros e x content documentId w.
  destruct (appendToDocument_run e x content documentId w)
    as (b & new & s' & -> & _ & H). cbn [fst snd trace sync].
  intros Hb. inversion Hb; subst b.
  destruct H as [[_ H] | (id & Hid & Hne & Hinit & [[_ H] | (ends & i & Hg & Hl & -> & _)])];
    try discriminate.
  apply last_endIndex_Ok in Hl. destruct Hl as [front ->].
  exists id, front, i. auto.
Qed.

Lemma append_true_inserts_before_end_witness :
  exists (id : string) (front : list Z) (endIndex : Z),
    (if present None then None else GOOGLE_DOCS_ID docs_configured) = Some id
    /\ id <> ""
    /\ documents_get quiet (trace fresh) id = Ok (front ++ [endIndex])%list
    /\ trace (snd (GoogleDocsSync.appendToDocument docs_configured quiet "text" None fresh))
       = (trace fresh ++ [DocsGet id; DocsBatchUpdate id (endIndex - 1) "text"])%list
    /\ initialized (sync (snd (GoogleDocsSync.appendToDocument docs_configured quiet
                                 "text" None fresh)))
       = true.
Proof.
  apply (append_true_inserts_before_end docs_configured quiet "text" None fresh).
  reflexivity.
Defined.

(** X14. [initialize] never throws.  It returns [true], and marks the
    singleton initialized, exactly when the credentials path is set, is
    not empty, and the client can be built from it; otherwise it returns
    [false] and leaves the singleton as it was, so that the next append
    tries again. *)
Theorem initialize_needs_credentials_and_client :
  forall (e : env) (x : externals) (w : world),
    (client_available e x
     /\ GoogleDocsSync.initialize e x w
        = (Ok true, World (fs w) (DocsSync true true) (trace w)))
    \/ (~ client_available e x
        /\ GoogleDocsSync.initialize e x w = (Ok false, w)).
Proof.
  intros e x w. unfold client_available.
  unfold GoogleDocsSync.initialize, try_catch, mbind, lift, ret, GoogleDocsSync.set_this.
  destruct (GOOGLE_APPLICATION_CREDENTIALS e) as [path |].
  2:{ right. split; [intros (p & E & _); discriminate | reflexivity]. }
  destruct (present (Some path)) eqn:Hp; cbn [negb].
  2:{ right. split; [| reflexivity]. intros (p & E & Hne & _). inversion E; subst p.
      rewrite (present_Some path Hne) in Hp. discriminate. }
  apply present_true in Hp. destruct Hp as (p & E & Hne). inversion E; subst p.
  destruct (google_client x path) as [[] | err] eqn:Hc.
  - left. split; [exists path; auto | reflexivity].
  - right. split; [| reflexivity]. intros (p & E' & _ & Hc'). inversion E'; subst p.
    congruence.
Qed.

(** X15. Once the singleton is initialized, an append does not look at
    the credentials path again and does not build another client: its
    result and its effects are the same under any other credentials
    setting. *)
Theorem initialized_client_is_reused :
  forall (e : env) (x : externals) (content : string) (documentId : option string)
         (w : world) (path : option string) (client : string -> result unit),
    initialized (sync w) = true ->
    GoogleDocsSync.appendToDocument (with_credentials e path) (with_google_client x client)
      content documentId w
    = GoogleDocsSync.appendToDocument e x content documentId w.
Proof.
  intros e x content documentId w path client H.
  unfold GoogleDocsSync.appendToDocument, try_catch, mbind, GoogleDocsSync.this.
  rewrite H. reflexivity.
Qed.

Lemma initialized_client_is_reused_witness :
  GoogleDocsSync.appendToDocument (with_credentials docs_configured None)
    (with_google_client quiet (fun _ => Throw (Error "no key file")))
    "more" None
    (snd (GoogleDocsSync.appendToDocument docs_configured quiet "text" None fresh))
  = GoogleDocsSync.appendToDocument docs_configured quiet "more" None
      (snd (GoogleDocsSync.appendToDocument docs_configured quiet "text" None fresh)).
Proof.
  apply (initialized_client_is_reused docs_configured quiet "more" None
           (snd (GoogleDocsSync.appendToDocument docs_configured quiet "text" None fresh))).
  reflexivity.
Defined.

(** ** The post-commit script *)

(** What the script's Doc Sync step can do. *)
Lemma script_sync_run (e : env) (x : externals) (c : ProcessCommit.commit_info) (w : world) :
  exists new : list event,
    ProcessCommit.syncToGoogleDocs e x c w = (Ok tt, World (fs w) (sync w) (trace w ++ new)%list)
    /\ Forall (fun ev => is_docs_request ev = true) new.
Proof.
  destruct w as [f s tr].
  assert (Hnone : exists new : list event,
            (Ok tt, World f s tr) = (Ok tt, World f s (tr ++ new)%list)
            /\ Forall (fun ev => is_docs_request ev = true) new)
    by (exists []; now rewrite app_nil_r).
  cbv [ProcessCommit.syncToGoogleDocs try_catch mbind ret lift history emit fs sync trace].
  destruct (GOOGLE_DOCS_ID e) as [id |]; [| exact Hnone].
  destruct (GOOGLE_APPLICATION_CREDENTIALS e) as [path |]; [| exact Hnone].
  destruct (negb (present (Some id)) || negb (present (Some path)))%bool; [exact Hnone |].
  destruct (fs_access path (World f s tr)) as [[[] | err] w1] eqn:Ha;
    unfold fs_access in Ha; cbn [fs] in Ha;
    destruct (has_dir path f || _)%bool; inversion Ha; subst; clear Ha; cbn [negb];
    try exact Hnone.
  destruct (google_client x path) as [[] | err]; [| exact Hnone].
  cbv [fs sync trace].
  destruct (documents_get x tr id) as [ends | err];
    [| exists [DocsGet id]; split; [reflexivity | repeat constructor]].
  destruct (GoogleDocsSync.last_endIndex ends) as [i | err];
    [| exists [DocsGet id]; split; [reflexivity | repeat constructor]].
  cbv [fs sync trace].
  exists [DocsGet id; DocsBatchUpdate id (i - 1) (ProcessCommit.formatCommitForDocs c)].
  destruct (documents_batchUpdate x _ id (i - 1) _) as [[] | err];
    (split; [now rewrite <- List.app_assoc | repeat constructor]).
Qed.

(** X16. Without a commit id (no argument, or an empty first argument)
    the script exits with code 1 and has done nothing: no file is written,
    git is not asked, the document is not contacted. *)
Theorem process_commit_without_id_exits_1 :
  forall (e : env) (x : externals) (argv : list string) (w : world),
    present (nth_error argv 0) = false ->
    ProcessCommit.processCommit e x argv w = (Ok 1, w).
Proof.
  intros e x argv w H.
  unfold ProcessCommit.processCommit, try_catch.
  destruct (nth_error argv 0) as [cid |]; [| reflexivity].
  now rewrite H.
Qed.

Lemma process_commit_without_id_exits_1_witness :
  ProcessCommit.processCommit docs_configured quiet [] fresh = (Ok 1, fresh)
  /\ ProcessCommit.processCommit docs_configured quiet [""; "1111111"] fresh = (Ok 1, fresh).
Proof.
  split.
  - apply (process_commit_without_id_exits_1 docs_configured quiet [] fresh). reflexivity.
  - apply (process_commit_without_id_exits_1 docs_configured quiet [""; "1111111"] fresh).
    reflexivity.
Defined.

Lemma processCommit_with_id (e : env) (x : externals) (commitId : string)
    (rest : list string) (w : world) :
  commitId <> "" ->
  ProcessCommit.processCommit e x (commitId :: rest) w
  = let c := commit_of_argv x (clock x (trace w)) commitId rest in
    match ProcessCommit.logProcessedCommit c w with
    | (Ok _, w1) =>
        match ProcessCommit.syncToGoogleDocs e x c w1 with
        | (Ok _, w2) => (Ok 0, w2)
        | (Throw _, w2) => (Ok 1, w2)
        end
    | (Throw _, w1) => (Ok 1, w1)
    end.
Proof.
  intros Hid. unfold ProcessCommit.processCommit, try_catch.
  change (nth_error (commitId :: rest) 0) with (Some commitId).
  rewrite (present_Some commitId Hid). cbn [negb].
  unfold mbind, history, ret, commit_of_argv. cbv zeta.
  change (nth_error (commitId :: rest) 1) with (nth_error rest 0).
  change (nth_error (commitId :: rest) 2) with (nth_error rest 1).
  change (nth_error (commitId :: rest) 3) with (nth_error rest 2).
  change (skipn 4 (commitId :: rest)) with (skipn 3 rest).
  destruct (ProcessCommit.logProcessedCommit _ w) as [[[] | err] w1]; [| reflexivity].
  destruct (ProcessCommit.syncToGoogleDocs e x _ w1) as [[[] | err] w2]; reflexivity.
Qed.



(** X18. When the file system refuses writes the script exits with code
    1, the file system is as before and the Doc Sync step is not reached.
    What is recorded is the call of mkdir and, where the logs directory
    exists (so that mkdir has nothing to make and succeeds), the refused
    append of the entry. *)
Theorem process_commit_log_failure_exits_1 :
  forall (e : env) (x : externals) (commitId : string) (rest : list string) (w : world),
    commitId <> "" -> read_only (fs w) = true ->
    let c := commit_of_argv x (clock x (trace w)) commitId rest in
    let entry := ProcessCommit.logEntry c ++ LF ++ LF in
    ProcessCommit.processCommit e x (commitId :: rest) w
    = (Ok 1,
       World (fs w) (sync w)
         (trace w ++ FsMkdir ProcessCommit.LOGS_DIR
            :: (if has_dir ProcessCommit.LOGS_DIR (fs w)
                then [FsAppendFile ProcessCommit.PROCESSED_LOG_FILE entry]
                else []))%list).
Proof.
  intros e x commitId rest w Hid Hro c entry.
  rewrite (processCommit_with_id e x commitId rest w Hid). cbv zeta. fold c.
  destruct (logProcessedCommit_read_only c w Hro) as (err & ->).
  reflexivity.
Qed.

(** The logs directory exists on a read-only mount: the append is
    attempted and refused, with the Doc Sync integration configured. *)
Lemma process_commit_log_failure_exits_1_witness :
  ProcessCommit.processCommit docs_configured quiet ["2222222"]
    (World (Fs ["logs"] [] true erofs) GoogleDocsSync.constructor [])
  = (Ok 1,
     World (Fs ["logs"] [] true erofs) GoogleDocsSync.constructor
       [FsMkdir "logs";
        FsAppendFile "logs/processed-commits.log"
          (ProcessCommit.logEntry
             (commit_of_argv quiet "2024-01-01T00:00:00.000Z" "2222222" [])
           ++ LF ++ LF)]).
Proof.
  apply (process_commit_log_failure_exits_1 docs_configured quiet "2222222" []
           (World (Fs ["logs"] [] true erofs) GoogleDocsSync.constructor []));
    [discriminate | reflexivity].
Defined.

(** ** The post-commit script: reading git's list of changed files *)

Lemma split_on_whole (sep : ascii) (s : string) :
  no_char sep s = true -> split_on sep s = [s].
Proof.
  induction s as [| c r IH]; cbn [no_char split_on]; [reflexivity |].
  intros H. apply andb_true_iff in H. destruct H as [Hc Hr].
  apply negb_true_iff in Hc. rewrite Hc, (IH Hr). reflexivity.
Qed.

Lemma split_on_app (sep : ascii) (a b : string) :
  no_char sep a = true -> split_on sep (a ++ String sep b) = a :: split_on sep b.
Proof.
  induction a as [| c r IH]; cbn [no_char split_on String.append].
  - intros _. now rewrite Ascii.eqb_refl.
  - intros H. apply andb_true_iff in H. destruct H as [Hc Hr].
    apply negb_true_iff in Hc. rewrite Hc, (IH Hr). reflexivity.
Qed.

Lemma no_char_app (c : ascii) (a b : string) :
  no_char c (a ++ b) = (no_char c a && no_char c b)%bool.
Proof.
  induction a as [| d r IH]; cbn [no_char String.append]; [reflexivity |].
  now rewrite IH, andb_assoc.
Qed.

Lemma parse_line_name_status (st path : string) :
  no_char "009" st = true -> no_char "009" path = true ->
  ProcessCommit.parse_line (st ++ TAB ++ path) = ProcessCommit.FileChange st (Some path).
Proof.
  intros Hs Hp. unfold ProcessCommit.parse_line, TAB. cbn [String.append].
  now rewrite (split_on_app "009" st path Hs), (split_on_whole "009" path Hp).
Qed.

Lemma name_status_line_app (st path rest : string) :
  name_status_line (st, path) ++ rest = (st ++ TAB ++ path) ++ String "010" rest.
Proof. unfold name_status_line. cbn [fst snd]. string_assoc. Qed.

(** X19. The script reads back what [git diff-tree --name-status]
    prints: from lines of the form status, tab, path, line feed it builds
    the list of changes with the same statuses and paths, in the same
    order. *)
Theorem parse_files_reads_name_status :
  forall changes : list (string * string),
    Forall printable_change changes ->
    ProcessCommit.parse_files (String.concat "" (map name_status_line changes))
    = map (fun f => ProcessCommit.FileChange (fst f) (Some (snd f))) changes.
Proof.
  intros changes H. unfold ProcessCommit.parse_files.
  induction H as [| [st path] changes (Hne & Hst & Hsl & Hpt & Hpl) _ IH].
  - reflexivity.
  - cbn [map fst snd] in *. rewrite concat_empty_cons, name_status_line_app.
    rewrite split_on_app
      by (unfold TAB; rewrite !no_char_app, Hsl, Hpl; reflexivity).
    cbn [filter].
    assert (Hline : String.eqb (st ++ TAB ++ path) "" = false)
      by (destruct st; [contradiction | reflexivity]).
    rewrite Hline. cbn [negb map]. rewrite IH.
    now rewrite (parse_line_name_status st path Hst Hpt).
Qed.

Lemma parse_files_reads_name_status_witness :
  ProcessCommit.parse_files
    (String.concat "" (map name_status_line [("A", "src/a.js"); ("M", "README.md")]))
  = [ProcessCommit.FileChange "A" (Some "src/a.js");
     ProcessCommit.FileChange "M" (Some "README.md")].
Proof.
  apply (parse_files_reads_name_status [("A", "src/a.js"); ("M", "README.md")]).
  repeat constructor; discriminate.
Defined.

(** ** The post-commit script: Doc Sync *)

(** X20. The script's Doc Sync step is skipped, leaving everything as
    it was and without an exception, when the document id or the
    credentials path is unset or empty, and when there is no file at the
    credentials path. *)
Theorem script_doc_sync_skipped :
  forall (e : env) (x : externals) (c : ProcessCommit.commit_info) (w : world),
    (present (GOOGLE_DOCS_ID e) = false
     \/ present (GOOGLE_APPLICATION_CREDENTIALS e) = false
     \/ exists path,
          GOOGLE_APPLICATION_CREDENTIALS e = Some path /\ on_disk path (fs w) = false) ->
    ProcessCommit.syncToGoogleDocs e x c w = (Ok tt, w).
Proof.
  intros e x c w H.
  unfold ProcessCommit.syncToGoogleDocs, try_catch, mbind, ret.
  destruct (GOOGLE_DOCS_ID e) as [id |]; [| reflexivity].
  destruct (GOOGLE_APPLICATION_CREDENTIALS e) as [path |]; [| reflexivity].
  destruct H as [-> | [-> | (p & E & Hd)]]; [reflexivity | now rewrite orb_true_r |].
  inversion E; subst p.
  destruct (negb (present (Some id)) || negb (present (Some path)))%bool; [reflexivity |].
  unfold fs_access. unfold on_disk in Hd. rewrite Hd. reflexivity.
Qed.

Lemma script_doc_sync_skipped_witness :
  ProcessCommit.syncToGoogleDocs document_only quiet sample_commit fresh = (Ok tt, fresh)
  /\ ProcessCommit.syncToGoogleDocs docs_configured quiet sample_commit fresh = (Ok tt, fresh).
Proof.
  split.
  - apply (script_doc_sync_skipped document_only quiet sample_commit fresh).
    right. left. reflexivity.
  - apply (script_doc_sync_skipped docs_configured quiet sample_commit fresh).
    right. right. exists "google-credentials.json". split; reflexivity.
Defined.

(** X21. When the integration is configured, the credentials file
    exists, the client can be built and the document can be fetched, the
    script inserts the formatted commit at the index just before the end
    of the document's last content element, after one fetch; it returns
    normally whether or not the insertion succeeds, and writes no
    file. *)
Theorem script_doc_sync_inserts_formatted_commit :
  forall (e : env) (x : externals) (c : ProcessCommit.commit_info) (w : world)
         (id path : string) (front : list Z) (endIndex : Z),
    GOOGLE_DOCS_ID e = Some id -> id <> "" ->
    GOOGLE_APPLICATION_CREDENTIALS e = Some path -> path <> "" ->
    on_disk path (fs w) = true ->
    google_client x path = Ok tt ->
    documents_get x (trace w) id = Ok (front ++ [endIndex])%list ->
    ProcessCommit.syncToGoogleDocs e x c w
    = (Ok tt,
       World (fs w) (sync w)
             (trace w ++ [DocsGet id;
                          DocsBatchUpdate id (endIndex - 1)
                            (ProcessCommit.formatCommitForDocs c)])%list).
Proof.
  intros e x c w id path front endIndex Hid Hne Hpath Hpne Hdisk Hclient Hget.
  destruct w as [f s tr]. cbn [fs sync trace] in *.
  cbv [ProcessCommit.syncToGoogleDocs try_catch mbind ret lift history emit fs_access
       fs sync trace].
  rewrite Hid, Hpath, (present_Some id Hne), (present_Some path Hpne). cbn [negb orb].
  unfold on_disk in Hdisk. rewrite Hdisk. cbn [negb]. rewrite Hclient.
  cbv [fs sync trace]. rewrite Hget.
  rewrite (proj2 (last_endIndex_Ok (front ++ [endIndex]) endIndex)) by eauto.
  cbv [fs sync trace].
  destruct (documents_batchUpdate x _ id (endIndex - 1) _) as [[] | err];
    now rewrite <- List.app_assoc.
Qed.

Lemma script_doc_sync_inserts_formatted_commit_witness :
  ProcessCommit.syncToGoogleDocs docs_configured quiet sample_commit
    (World (Fs [] [("google-credentials.json", "{}")] false erofs) GoogleDocsSync.constructor [])
  = (Ok tt,
     World (Fs [] [("google-credentials.json", "{}")] false erofs) GoogleDocsSync.constructor
           ([] ++ [DocsGet "doc-1";
                   DocsBatchUpdate "doc-1" (2 - 1)
                     (ProcessCommit.formatCommitForDocs sample_commit)])%list).
Proof.
  apply (script_doc_sync_inserts_formatted_commit docs_configured quiet sample_commit
           (World (Fs [] [("google-credentials.json", "{}")] false erofs)
                  GoogleDocsSync.constructor [])
           "doc-1" "google-credentials.json" [] 2%Z);
    try reflexivity; discriminate.
Defined.

(** ** Generic webhook handler: content requests *)

(** X22. The generic webhook handler answers every request: no
    exception escapes, and the status is 200, 400 or 500. *)
Theorem webhook_handler_always_answers :
  forall (e : env) (x : externals) (body : value) (w : world),
  exists (r : response) (w' : world),
    WebhookController.handleWebhook e x body w = (Ok r, w')
    /\ (status r = 200 \/ status r = 400 \/ status r = 500).
Proof.
  intros e x body w.
  unfold WebhookController.handleWebhook, try_catch, WebhookController.json, ret, mbind, lift.
  destruct (destructure "event" "req.body" body) as [[] | err];
    [| eexists _, _; split; [reflexivity | cbn; auto]].
  destruct (get body "event") as [event | err];
    [| eexists _, _; split; [reflexivity | cbn; auto]].
  destruct (get body "data") as [data | err];
    [| eexists _, _; split; [reflexivity | cbn; auto]].
  destruct (negb (truthy event)); [eexists _, _; split; [reflexivity | cbn; auto] |].
  destruct (is_string event "content_request").
  - destruct (WebhookController.processContentRequest e x data w) as [[resp | err] w'];
      eexists _, _; (split; [reflexivity | cbn; auto]).
  - destruct (ToString event) as [name | err];
      eexists _, _; (split; [reflexivity | cbn; auto]).
Qed.

Lemma handleWebhook_content_request (e : env) (x : externals) (body data : value)
    (w : world) :
  get body "event" = Ok (VStr "content_request") -> get body "data" = Ok data ->
  WebhookController.handleWebhook e x body w
  = match WebhookController.processContentRequest e x data w with
    | (Ok response, w') =>
        (Ok (Response 200 (VObj [("success", VBool true);
                                 ("message", VStr "Webhook processed successfully");
                                 ("data", response)])), w')
    | (Throw error, w') =>
        (Ok (Response 500 (VObj [("success", VBool false);
                                 ("message", VStr "Error processing webhook");
                                 ("error", VStr (error_message error))])), w')
    end.
Proof.
  intros Hev Hdata.
  unfold WebhookController.handleWebhook, try_catch, WebhookController.json, ret, mbind, lift.
  rewrite (proj2 (get_Ok_total body "event" _ Hev)), Hev, Hdata. cbn [truthy negb is_string].
  change (String.eqb "content_request" "") with false.
  change (String.eqb "content_request" "content_request") with true. cbn [negb].
  destruct (WebhookController.processContentRequest e x data w) as [[resp | err] w'];
    reflexivity.
Qed.

(** X23. A content request on a server without an OpenAI API key (unset
    or empty) is answered with 500 and the message that the client is not
    initialized; no request is sent and nothing else happens, whatever
    the data. *)
Theorem content_request_without_api_key_500 :
  forall (e : env) (x : externals) (body data : value) (w : world),
    get body "event" = Ok (VStr "content_request") -> get body "data" = Ok data ->
    present (OPENAI_API_KEY e) = false ->
    WebhookController.handleWebhook e x body w
    = (Ok (webhook_failure "OpenAI client not initialized. Check your API key."), w).
Proof.
  intros e x body data w Hev Hdata Hkey.
  rewrite (handleWebhook_content_request e x body data w Hev Hdata).
  unfold WebhookController.processContentRequest, WebhookController.getOpenAIClient,
    try_catch, throw.
  rewrite Hkey. reflexivity.
Qed.

Lemma content_request_without_api_key_500_witness :
  WebhookController.handleWebhook no_secret quiet
    (VObj [("event", VStr "content_request"); ("data", VObj [("prompt", VStr "Hi")])]) fresh
  = (Ok (webhook_failure "OpenAI client not initialized. Check your API key."), fresh).
Proof.
  apply (content_request_without_api_key_500 no_secret quiet _ (VObj [("prompt", VStr "Hi")])
           fresh); reflexivity.
Defined.

Lemma processContentRequest_run (e : env) (x : externals) (data : value) (w : world) :
  present (OPENAI_API_KEY e) = true ->
  WebhookController.processContentRequest e x data w
  = match WebhookController.completion_request data with
    | Ok request =>
        let w' := World (fs w) (sync w) (trace w ++ [ChatCompletionsCreate request])%list in
        match chat_completions_create x (trace w) request with
        | Ok c => (Ok (content_response request c), w')
        | Throw error =>
            (Throw (Error ("Failed to generate AI content: " ++ error_message error)), w')
        end
    | Throw error =>
        (Throw (Error ("Failed to generate AI content: " ++ error_message error)), w)
    end.
Proof.
  intros Hkey.
  unfold WebhookController.processContentRequest, WebhookController.getOpenAIClient.
  rewrite Hkey. destruct (OPENAI_API_KEY e) as [key |]; [| discriminate].
  destruct w as [f s tr].
  cbv [try_catch mbind lift history emit ret throw fs sync trace].
  destruct (WebhookController.completion_request data) as [request | err]; [| reflexivity].
  destruct (chat_completions_create x tr request) as [c | err]; reflexivity.
Qed.

(** X24. With an API key configured, a content request whose data can be
    turned into a chat request and for which the API returns a completion
    is answered with 200: the data of the response carries the generated
    content, the model that was asked for, and the three token counts
    (undefined when the completion has no usage), and exactly one request
    has been sent. *)
Theorem content_request_answered_from_completion :
  forall (e : env) (x : externals) (body data : value) (w : world)
         (request : chat_request) (c : completion),
    get body "event" = Ok (VStr "content_request") -> get body "data" = Ok data ->
    present (OPENAI_API_KEY e) = true ->
    WebhookController.completion_request data = Ok request ->
    chat_completions_create x (trace w) request = Ok c ->
    WebhookController.handleWebhook e x body w
    = (Ok (Response 200 (VObj [("success", VBool true);
                               ("message", VStr "Webhook processed successfully");
                               ("data", content_response request c)])),
       World (fs w) (sync w) (trace w ++ [ChatCompletionsCreate request])%list)
    /\ (usage_of c = None ->
        field (content_response request c) "total_tokens" = VUndefined).
Proof.
  intros e x body data w request c Hev Hdata Hkey Hreq Hc.
  rewrite (handleWebhook_content_request e x body data w Hev Hdata).
  rewrite (processContentRequest_run e x data w Hkey), Hreq. cbv zeta. rewrite Hc.
  split; [reflexivity |].
  intros Hu. cbn. unfold WebhookController.usage_field. now rewrite Hu.
Qed.

Lemma content_request_answered_from_completion_witness :
  WebhookController.handleWebhook with_api_key quiet
    (VObj [("event", VStr "content_request"); ("data", VObj [("prompt", VStr "Hi")])]) fresh
  = (Ok (Response 200
           (VObj [("success", VBool true);
                  ("message", VStr "Webhook processed successfully");
                  ("data", VObj [("generated_content", VStr "hello");
                                 ("model_used", VStr "gpt-3.5-turbo");
                                 ("prompt_tokens", VUndefined);
                                 ("completion_tokens", VUndefined);
                                 ("total_tokens", VUndefined)])])),
     World (fs fresh) (sync fresh)
       (trace fresh
          ++ [ChatCompletionsCreate
                (ChatRequest (VStr "gpt-3.5-turbo") "You are a helpful assistant."
                   (VStr "Hi") (VNum (Finite false 7 (-1))) (VNum (Finite false 500 0)))])%list).
Proof.
  apply (proj1 (content_request_answered_from_completion with_api_key quiet
                  (VObj [("event", VStr "content_request");
                         ("data", VObj [("prompt", VStr "Hi")])])
                  (VObj [("prompt", VStr "Hi")]) fresh
                  (ChatRequest (VStr "gpt-3.5-turbo") "You are a helpful assistant."
                     (VStr "Hi") (VNum (Finite false 7 (-1))) (VNum (Finite false 500 0)))
                  (Completion (VStr "hello") None)
                  eq_refl eq_refl eq_refl eq_refl eq_refl)).
Defined.

(** X25. With an API key configured, a content request that fails is
    answered with 500 and the failure's message after the prefix
    [Failed to generate AI content: ].  When the data cannot be turned
    into a request (it is missing, say) nothing is sent; when the API
    call fails, that one call is all that happened. *)
Theorem content_request_failure_500 :
  forall (e : env) (x : externals) (body data : value) (w : world),
    get body "event" = Ok (VStr "content_request") -> get body "data" = Ok data ->
    present (OPENAI_API_KEY e) = true ->
    (forall error,
       WebhookController.completion_request data = Throw error ->
       WebhookController.handleWebhook e x body w
       = (Ok (webhook_failure (error_message error)), w))
    /\ (forall request error,
          WebhookController.completion_request data = Ok request ->
          chat_completions_create x (trace w) request = Throw error ->
          WebhookController.handleWebhook e x body w
          = (Ok (webhook_failure (error_message error)),
             World (fs w) (sync w) (trace w ++ [ChatCompletionsCreate request])%list)).
Proof.
  intros e x body data w Hev Hdata Hkey.
  rewrite (handleWebhook_content_request e x body data w Hev Hdata).
  rewrite (processContentRequest_run e x data w Hkey).
  split.
  - intros err ->. reflexivity.
  - intros request err -> Hc. cbv zeta. now rewrite Hc.
Qed.

Lemma content_request_failure_500_witness :
  WebhookController.handleWebhook with_api_key quiet
    (VObj [("event", VStr "content_request")]) fresh
  = (Ok (webhook_failure "Cannot read properties of undefined (reading 'prompt')"), fresh).
Proof.
  apply (proj1 (content_request_failure_500 with_api_key quiet
                  (VObj [("event", VStr "content_request")]) VUndefined fresh
                  eq_refl eq_refl eq_refl)
           (TypeError "Cannot read properties of undefined (reading 'prompt')")).
  reflexivity.
Defined.

(** X26. The chat request of a content request: the model is the one
    the data names, or [gpt-3.5-turbo] when it names none (or a falsy
    one); the system message is the plain one when the data has no
    context (or a falsy one), and ends with the context when the context
    is a string that is not empty. *)
Theorem content_request_model_and_context :
  forall (data : value) (request : chat_request),
    WebhookController.completion_request data = Ok request ->
    exists model context,
      get data "model" = Ok model /\ get data "context" = Ok context
      /\ req_model request = or_else model (VStr "gpt-3.5-turbo")
      /\ (truthy context = false -> req_system request = "You are a helpful assistant.")
      /\ (forall c, context = VStr c -> c <> "" ->
            req_system request = "You are a helpful assistant. Context: " ++ c).
Proof.
  unfold WebhookController.completion_request. intros data request H.
  bind_inv H. cbv zeta in H. bind_inv H. bind_inv H. bind_inv H.
  bind_inv H. bind_inv H. bind_inv H. bind_inv H.
  inversion H; subst request; clear H. cbn [req_model req_system].
  exists a2, a0. split; [assumption |]. split; [assumption |]. split; [reflexivity |].
  split.
  - intros Hf. rewrite Hf in Ha1. now inversion Ha1.
  - intros c -> Hne. cbn [truthy] in Ha1.
    destruct (String.eqb_spec c ""); [contradiction |]. cbn in Ha1. now inversion Ha1.
Qed.

Lemma content_request_model_and_context_witness :
  exists model context,
    get (VObj [("context", VStr "Be brief"); ("model", VStr "gpt-4")]) "model" = Ok model
    /\ get (VObj [("context", VStr "Be brief"); ("model", VStr "gpt-4")]) "context"
       = Ok context
    /\ req_model (ChatRequest (VStr "gpt-4") "You are a helpful assistant. Context: Be brief"
                    (VStr "Tell me something interesting")
                    (VNum (Finite false 7 (-1))) (VNum (Finite false 500 0)))
       = or_else model (VStr "gpt-3.5-turbo")
    /\ (truthy context = false ->
        req_system (ChatRequest (VStr "gpt-4") "You are a helpful assistant. Context: Be brief"
                      (VStr "Tell me something interesting")
                      (VNum (Finite false 7 (-1))) (VNum (Finite false 500 0)))
        = "You are a helpful assistant.")
    /\ (forall c, context = VStr c -> c <> "" ->
          req_system (ChatRequest (VStr "gpt-4")
                        "You are a helpful assistant. Context: Be brief"
                        (VStr "Tell me something interesting")
                        (VNum (Finite false 7 (-1))) (VNum (Finite false 500 0)))
          = "You are a helpful assistant. Context: " ++ c).
Proof.
  apply (content_request_model_and_context
           (VObj [("context", VStr "Be brief"); ("model", VStr "gpt-4")])).
  reflexivity.
Defined.

(** ** test-commit.js *)

Lemma test_file_lines_agree (fl : list ProcessCommit.file_change) (log : string) :
  TestCommit.file_lines fl log = ProcessCommit.file_lines fl log.
Proof.
  revert log. induction fl as [| f r IH]; intros log; [reflexivity |].
  cbn [TestCommit.file_lines ProcessCommit.file_lines]. cbv zeta. apply IH.
Qed.

Lemma test_commit_entry_is_formatter_output_aux (c : ProcessCommit.commit_info) :
  TestCommit.commitLog c = ProcessCommit.formatCommitForDocs c.
Proof.
  unfold TestCommit.commitLog, ProcessCommit.formatCommitForDocs. cbv zeta.
  now rewrite test_file_lines_agree.
Qed.

(** X27. The test script formats its entry for commits.log with the
    same result as the hook script's [formatCommitForDocs]: for every
    commit record the two texts are equal, so what the test script
    appends to commits.log is in the plaintext layout. *)
Theorem test_commit_entry_is_formatter_output :
  forall c : ProcessCommit.commit_info,
    TestCommit.commitLog c = ProcessCommit.formatCommitForDocs c.
Proof.
  intros c. unfold TestCommit.commitLog, ProcessCommit.formatCommitForDocs. cbv zeta.
  now rewrite (test_file_lines_agree (ProcessCommit.filesChanged c)).
Qed.

Lemma fs_appendFile_writable (dir name c : string) (w : world) :
  read_only (fs w) = false -> has_dir dir (fs w) = true ->
  fs_appendFile dir name c w
  = (Ok tt,
     World (Fs (dirs (fs w)) (append_to (dir ++ "/" ++ name) c (files (fs w))) false
               (refusal (fs w)))
           (sync w) (trace w ++ [FsAppendFile (dir ++ "/" ++ name) c])%list).
Proof.
  destruct w as [[ds fl ro rf] sy tr]. cbn [fs read_only]. intros -> Hd.
  cbv [fs_appendFile mbind emit fs sync trace read_only refusal dirs files].
  now rewrite Hd.
Qed.

Lemma ensure_dir_writable (d : string) (w : world) :
  read_only (fs w) = false ->
  has_dir d (fs w) = true \/ file_content d (files (fs w)) = None ->
  try_catch (fs_access d) (fun _ => fs_mkdir d) w
  = (Ok tt,
     World (Fs (with_dir d (fs w)) (files (fs w)) false (refusal (fs w))) (sync w)
           (trace w ++ mkdir_if_missing d (fs w))%list).
Proof.
  destruct w as [[ds fl ro rf] sy tr]. cbn [fs read_only files]. intros -> Havail.
  unfold with_dir, mkdir_if_missing.
  cbv [try_catch fs_access fs_mkdir mbind emit fs sync trace read_only refusal dirs files
       is_file].
  destruct (has_dir d (Fs ds fl false rf)) eqn:Hd.
  - cbn [orb]. now rewrite app_nil_r.
  - destruct Havail as [H | H]; [discriminate |]. rewrite H. cbn [orb]. rewrite Hd.
    cbv beta iota. now rewrite ?H.
Qed.

(** X28. On a writable file system the test script returns normally
    after appending one entry in the plaintext layout to commits.log and
    two records to processed-commits.log: its own sample record, and the
    record the hook script (run as a child process) builds for the same
    commit id, previous commit, committer and message.  This holds
    whatever git and the document service answer to the child. *)
Theorem test_commit_main_writes_both_logs :
  forall (e : env) (x : externals) (now1 now2 : N) (w : world),
    read_only (fs w) = false -> logs_dir_available (fs w) ->
    exists (w' : world) (sample child : ProcessCommit.commit_info),
      TestCommit.main e x now1 now2 w = (Ok tt, w')
      /\ sample = TestCommit.sampleCommit now1 now2
                    (clock x (trace w ++ mkdir_if_missing TestCommit.logsDir (fs w))%list)
      /\ file_content GithubController.COMMITS_LOG_FILE (files (fs w'))
         = Some (content_of GithubController.COMMITS_LOG_FILE (fs w)
                 ++ ProcessCommit.formatCommitForDocs sample)
      /\ file_content ProcessCommit.PROCESSED_LOG_FILE (files (fs w'))
         = Some (content_of ProcessCommit.PROCESSED_LOG_FILE (fs w)
                 ++ (ProcessCommit.logEntry sample ++ LF ++ LF)
                 ++ (ProcessCommit.logEntry child ++ LF ++ LF))
      /\ ProcessCommit.id child = ProcessCommit.id sample
      /\ ProcessCommit.previousCommit child = ProcessCommit.previousCommit sample
      /\ ProcessCommit.committer child = ProcessCommit.committer sample
      /\ ProcessCommit.message child = ProcessCommit.message sample.
Proof.
  intros e x now1 now2 w Hrw Havail.
  set (sample := TestCommit.sampleCommit now1 now2
                   (clock x (trace w ++ mkdir_if_missing TestCommit.logsDir (fs w))%list)).
  unfold TestCommit.main.
  unfold try_catch at 1. unfold mbind at 1.
  rewrite (ensure_dir_writable TestCommit.logsDir w Hrw Havail).
  unfold mbind at 1. unfold history at 1. cbn [trace]. cbv zeta. fold sample.
  rewrite (test_commit_entry_is_formatter_output_aux sample).
  unfold mbind at 1.
  rewrite fs_appendFile_writable by (cbn [fs]; first [reflexivity | apply has_dir_with_dir]).
  cbn [fs sync trace dirs files].
  unfold mbind at 1.
  rewrite fs_appendFile_writable by (cbn [fs]; first [reflexivity | apply has_dir_with_dir]).
  cbn [fs sync trace dirs files].
  unfold try_catch at 1. unfold mbind at 1.
  change (TestCommit.argv sample)
    with (ProcessCommit.id sample
            :: ["sample-previous-" ++ TestCommit.toString16 now2; "Test User";
                "test@example.com"; "Test commit from test-commit.js"]).
  rewrite processCommit_with_id by discriminate. cbv zeta.
  match goal with
  | |- context [ProcessCommit.logProcessedCommit ?c ?w3] =>
      set (child := c);
      rewrite (logProcessedCommit_writable child w3 eq_refl
                 (or_introl (has_dir_with_dir _ _ _ _ _)))
  end.
  match goal with
  | |- context [ProcessCommit.syncToGoogleDocs e x child ?w4] =>
      destruct (script_sync_run e x child w4) as (requests & -> & _)
  end.
  cbn [Nat.eqb]. unfold ret.
  eexists _, sample, child. split; [reflexivity |]. split; [reflexivity |].
  cbn [fs files].
  split.
  { rewrite !file_content_append_other by discriminate. apply file_content_append_to. }
  split.
  { rewrite file_content_append_to, file_content_append_to.
    rewrite file_content_append_other by discriminate.
    unfold content_of. f_equal. now rewrite !append_assoc. }
  repeat split.
Qed.

Lemma test_commit_main_writes_both_logs_witness :
  exists (w' : world) (sample child : ProcessCommit.commit_info),
    TestCommit.main no_secret quiet 1700000000000 1700000000001 fresh = (Ok tt, w')
    /\ sample = TestCommit.sampleCommit 1700000000000 1700000000001
                  (clock quiet (trace fresh ++ mkdir_if_missing TestCommit.logsDir (fs fresh))%list)
    /\ file_content GithubController.COMMITS_LOG_FILE (files (fs w'))
       = Some (content_of GithubController.COMMITS_LOG_FILE (fs fresh)
               ++ ProcessCommit.formatCommitForDocs sample)
    /\ file_content ProcessCommit.PROCESSED_LOG_FILE (files (fs w'))
       = Some (content_of ProcessCommit.PROCESSED_LOG_FILE (fs fresh)
               ++ (ProcessCommit.logEntry sample ++ LF ++ LF)
               ++ (ProcessCommit.logEntry child ++ LF ++ LF))
    /\ ProcessCommit.id child = ProcessCommit.id sample
    /\ ProcessCommit.previousCommit child = ProcessCommit.previousCommit sample
    /\ ProcessCommit.committer child = ProcessCommit.committer sample
    /\ ProcessCommit.message child = ProcessCommit.message sample.
Proof.
  apply (test_commit_main_writes_both_logs no_secret quiet 1700000000000 1700000000001 fresh).
  - reflexivity.
  - right. reflexivity.
Defined.

(** ** The GitHub webhook test client and the handler *)

Lemma plain_reads_back (v : value) : plain v -> reads_back v.
Proof.
  intros Hp fuel rest Hfuel _.
  exact (parse_value_ser v Hp "" "" "" fuel rest eq_refl eq_refl eq_refl Hfuel).
Qed.

Lemma parse_members_compact :
  forall (ms : list (string * value)) (kv : string * value)
         (acc : list (string * value)) (fuel : nat) (rest : string),
    Forall (fun m => reads_back (snd m)) (kv :: ms) ->
    NoDup (map fst acc ++ map fst (kv :: ms)) ->
    Forall (fun k => JSON.array_index k = None) (map fst (kv :: ms)) ->
    need_members (kv :: ms) <= fuel ->
    JSON.parse_members fuel acc
      (String.concat "," (map (member_text "" "") (kv :: ms)) ++ String "}" rest)
    = Some (VObj (acc ++ map member_image (kv :: ms)), rest).
Proof.
  induction ms as [| m ms IH]; intros [k v] acc fuel rest HF Hnd Hidx Hfuel;
    inversion HF as [| ? ? Hv HF']; subst; cbn [snd] in Hv;
    inversion Hidx as [| ? ? Hik Hidx']; subst;
    rewrite need_members_cons in Hfuel; cbn [snd] in Hfuel;
    (destruct fuel as [| f]; [lia |]);
    assert (Hfresh : ~ In k (map fst acc))
      by (cbn [map fst] in Hnd; apply NoDup_remove_2 in Hnd;
          intros Hin; apply Hnd, in_or_app; now left).
  - cbn [map String.concat JSON.parse_members].
    rewrite member_text_app.
    rewrite (peek_char dquote _ eq_refl).
    change (Ascii.eqb dquote dquote) with true. cbv iota.
    rewrite parse_chars_quote_body.
    rewrite (peek_char ":" _ eq_refl).
    change (Ascii.eqb ":" ":") with true. cbv iota.
    cbn [colon_space String.eqb String.append].
    rewrite (Hv f (String "}" rest)) by (try lia; eexists _, _; eauto).
    rewrite (peek_char "}" rest eq_refl).
    change (Ascii.eqb "}" ",") with false. change (Ascii.eqb "}" "}") with true.
    cbv iota. now rewrite (obj_set_fresh acc k _ Hfresh Hik).
  - change (map (member_text "" "") ((k, v) :: m :: ms))
      with (member_text "" "" (k, v) :: map (member_text "" "") (m :: ms)).
    change (String.concat "," (member_text "" "" (k, v) :: map (member_text "" "") (m :: ms)))
      with (member_text "" "" (k, v) ++ ","
              ++ String.concat "," (map (member_text "" "") (m :: ms))).
    cbn [JSON.parse_members]. rewrite !append_assoc, member_text_app.
    rewrite (peek_char dquote _ eq_refl).
    change (Ascii.eqb dquote dquote) with true. cbv iota.
    rewrite parse_chars_quote_body.
    rewrite (peek_char ":" _ eq_refl).
    change (Ascii.eqb ":" ":") with true. cbv iota.
    cbn [colon_space String.eqb String.append].
    rewrite (Hv f (String "," _)) by (try lia; eexists _, _; eauto).
    rewrite (peek_char "," _ eq_refl).
    change (Ascii.eqb "," ",") with true. cbv iota.
    rewrite (obj_set_fresh acc k _ Hfresh Hik).
    rewrite (IH m (acc ++ [(k, json_image v)])%list f rest HF').
    + cbn [map]. now rewrite <- List.app_assoc.
    + rewrite map_app. cbn [map fst] in Hnd |- *.
      rewrite <- List.app_assoc. exact Hnd.
    + exact Hidx'.
    + lia.
Qed.

Lemma object_parses_back (ps : list (string * value)) :
  members ps <> [] ->
  Forall (fun m => reads_back (snd m)) (members ps) ->
  NoDup (map fst (members ps)) ->
  Forall (fun k => JSON.array_index k = None) (map fst (members ps)) ->
  forall (fuel : nat) (rest : string),
    need (VObj ps) <= fuel ->
    JSON.parse_value fuel (JSON.ser "" "" (VObj ps) ++ rest)
    = Some (json_image (VObj ps), rest).
Proof.
  intros Hne HF Hnd Hidx fuel rest Hfuel.
  rewrite need_obj in Hfuel. rewrite ser_obj, json_image_obj.
  destruct (members ps) as [| kv ms]; [contradiction |].
  destruct fuel as [| f]; [lia |].
  change (map (member_text "" "") (kv :: ms))
    with (member_text "" "" kv :: map (member_text "" "") ms).
  rewrite wrap_cons.
  change (ws_open "" "") with "". change (ws_close "" "") with "".
  cbn [String.append JSON.parse_value].
  rewrite (peek_char "{" _ eq_refl).
  change (Ascii.eqb "{" "{") with true. cbv iota.
  rewrite !append_assoc.
  change (member_text "" "" kv :: map (member_text "" "") ms)
    with (map (member_text "" "") (kv :: ms)).
  change ("}" ++ rest) with (String "}" rest).
  assert (Hpeek : forall tail,
            exists r, JSON.peek (String.concat "," (map (member_text "" "") (kv :: ms)) ++ tail)
                      = Some (dquote, r)).
  { intros tail. destruct kv as [k v]. cbn [map].
    destruct (map (member_text "" "") ms) as [| p parts];
      cbn [String.concat]; rewrite ?append_assoc, member_text_app;
      rewrite (peek_char dquote _ eq_refl); eauto. }
  destruct (Hpeek (String "}" rest)) as [r ->].
  change (Ascii.eqb dquote "}") with false. cbv iota.
  cbn [String.append].
  apply (parse_members_compact ms kv [] f rest HF); [exact Hnd | exact Hidx | lia].
Qed.

Lemma object_reads_back (ps : list (string * value)) :
  members ps <> [] ->
  Forall (fun m => reads_back (snd m)) (members ps) ->
  NoDup (map fst (members ps)) ->
  Forall (fun k => JSON.array_index k = None) (map fst (members ps)) ->
  reads_back (VObj ps).
Proof.
  intros Hne HF Hnd Hidx fuel rest Hfuel _.
  now apply object_parses_back.
Qed.

Lemma repository_id_reads_back : reads_back (VNum (Finite false 123456789 0)).
Proof.
  intros fuel rest Hfuel (c & r & -> & [-> | ->]);
    (destruct fuel as [| f]; [cbn in Hfuel; lia |]); reflexivity.
Qed.

Lemma object_sized (ps : list (string * value)) :
  Forall (fun m => need (snd m) <= String.length (JSON.ser "" "" (snd m))) (members ps) ->
  need (VObj ps) <= String.length (JSON.ser "" "" (VObj ps)).
Proof.
  intros HF. rewrite need_obj, ser_obj.
  pose proof (wrap_length "" "" "{" "}" (map (member_text "" "") (members ps))) as Hw.
  cbn [String.length] in Hw. rewrite length_map in Hw.
  assert (Hsum : need_members (members ps)
                 <= list_sum (map String.length (map (member_text "" "") (members ps)))
                    + List.length (members ps)).
  { clear Hw. induction HF as [| [k v] ms Hv _ IH]; [cbn; lia |].
    cbn [snd] in Hv. rewrite need_members_cons. unfold list_sum in *.
    cbn [map fold_right List.length snd] in *.
    unfold member_text at 1. cbn [fst snd]. change ("" ++ "") with "".
    rewrite !length_append. lia. }
  unfold list_sum in *. destruct (members ps); [cbn in *; lia |].
  cbn [List.length] in *. lia.
Qed.

Ltac plain_value :=
  cbn [plain members filter snd fst is_undefined negb map fold_right];
  repeat match goal with
         | |- _ /\ _ => split
         | |- True => exact I
         | |- NoDup _ => distinct_keys
         | |- Forall _ _ => plain_keys
         | |- _ = VUndefined \/ _ => first [left; reflexivity | right]
         end.

Lemma sample_payload_parses_back (now : string) (random1 random2 : list Z)
    (committerName committerEmail commitMessage : string) :
  let payload :=
    GithubTestClient.generateSamplePushPayload now random1 random2
      committerName committerEmail commitMessage in
  exists text,
    JSON.stringify payload = Some text /\ JSON.parse text = Some payload.
Proof.
  intros payload. exists (JSON.ser "" "" payload). split; [reflexivity |].
  assert (Hparse : forall fuel, need payload <= fuel ->
            JSON.parse_value fuel (JSON.ser "" "" payload) = Some (payload, "")).
  { intros fuel Hfuel.
    rewrite <- (append_empty_r (JSON.ser "" "" payload)).
    unfold payload, GithubTestClient.generateSamplePushPayload in *. cbv zeta in *.
    rewrite object_parses_back;
      [reflexivity | discriminate | | distinct_keys | plain_keys | exact Hfuel].
    cbn [members filter snd is_undefined negb].
    repeat (apply Forall_cons; [cbn [snd] |]); try apply Forall_nil;
      try (solve [apply plain_reads_back; plain_value]).
    apply object_reads_back; [discriminate | | distinct_keys | plain_keys].
    cbn [members filter snd is_undefined negb].
    repeat (apply Forall_cons; [cbn [snd] |]); try apply Forall_nil;
      try (solve [apply plain_reads_back; plain_value]).
    apply repository_id_reads_back. }
  assert (Hlen : need payload <= String.length (JSON.ser "" "" payload)).
  { unfold payload, GithubTestClient.generateSamplePushPayload. cbv zeta.
    apply object_sized. cbn [members filter snd is_undefined negb].
    repeat (apply Forall_cons; [cbn [snd] |]); try apply Forall_nil;
      try (solve [apply need_le_length; plain_value]).
    apply object_sized. cbn [members filter snd is_undefined negb].
    repeat (apply Forall_cons; [cbn [snd] |]); try apply Forall_nil;
      try (solve [apply need_le_length; plain_value]).
    vm_compute. lia. }
  unfold JSON.parse.
  rewrite (Hparse (S (String.length (JSON.ser "" "" payload)))) by lia.
  reflexivity.
Qed.

Lemma verify_own_digest (e : env) (secret text : string) (payload : value) :
  GITHUB_WEBHOOK_SECRET e = Some secret -> secret <> "" ->
  JSON.stringify payload = Some text ->
  GithubController.verifyGithubWebhook e payload
    (Some ("sha256=" ++ HMAC.hmac_sha256_hex secret text)) = Ok true.
Proof.
  intros He Hs Ht.
  rewrite (verifyGithubWebhook_digest e secret _ text payload He Hs); auto.
  - unfold GithubController.timingSafeEqual. now rewrite Nat.eqb_refl, String.eqb_refl.
  - cbn [String.append]. discriminate.
Qed.

Lemma secretKey_not_empty (e : env) : GithubTestClient.secretKey e <> "".
Proof.
  unfold GithubTestClient.secretKey.
  destruct (GITHUB_WEBHOOK_SECRET e) as [s |] eqn:E; [| discriminate].
  destruct (present (Some s)) eqn:Hp; [| discriminate].
  apply present_true in Hp. destruct Hp as (s' & E' & Hne). now inversion E'; subst.
Qed.

Lemma sample_push_entry_text (x : externals) (h : list event) (now : string)
    (random1 random2 : list Z) (committerName committerEmail commitMessage : string) :
  GithubController.format_push
    (GithubTestClient.generateSamplePushPayload now random1 random2
       committerName committerEmail commitMessage)
    (field (GithubTestClient.generateSamplePushPayload now random1 random2
              committerName committerEmail commitMessage) "repository")
    (field (GithubTestClient.generateSamplePushPayload now random1 random2
              committerName committerEmail commitMessage) "commits")
    (field (GithubTestClient.generateSamplePushPayload now random1 random2
              committerName committerEmail commitMessage) "pusher")
    (field (GithubTestClient.generateSamplePushPayload now random1 random2
              committerName committerEmail commitMessage) "before")
    (clock x h)
  = Ok (client_push_entry (clock x h) random1 random2
          committerName committerEmail commitMessage).
Proof.
  unfold GithubTestClient.generateSamplePushPayload, client_push_entry. cbv zeta.
  cbn [field lookup String.eqb Ascii.eqb Bool.eqb].
  unfold GithubController.format_push.
  cbn [get lookup String.eqb Ascii.eqb Bool.eqb bind ToString num_of_nat List.length
       GithubController.branch_of GithubController.iterate
       GithubController.commit_blocks].
  rewrite commit_block_acc.
  unfold GithubController.commit_block. cbn. unfold unlines. cbn.
  f_equal. string_assoc.
Qed.

Lemma keys_agree_accepted (client server : env) (payload : value) (text : string) :
  keys_agree client server -> JSON.stringify payload = Some text ->
  accepted server payload
    (Some ("sha256=" ++ HMAC.hmac_sha256_hex (GithubTestClient.secretKey client) text)).
Proof.
  intros [H | H] Ht; [now left | right].
  apply (verify_own_digest server _ text payload H (secretKey_not_empty client) Ht).
Qed.

(** X29. The GitHub test client and the handler agree on the signed
    text.  For the sample push the client builds, whatever the committer
    name, email, message, commit ids and time: the text the client signs
    and sends parses back to the payload; the client's signature is
    [sha256=] and the HMAC of that text under its key; and when the
    server checks signatures with the client's key (or checks none) and
    can write its log, the handler, given that payload with the client's
    signature header, answers 200 and has appended to commits.log the
    entry of the one commit, with its added and its modified file. *)
Theorem test_client_push_is_accepted_and_logged :
  forall (client server : env) (x : externals) (now : string) (random1 random2 : list Z)
         (committerName committerEmail commitMessage : string) (w : world),
    keys_agree client server ->
    read_only (fs w) = false -> logs_dir_available (fs w) ->
    let payload :=
      GithubTestClient.generateSamplePushPayload now random1 random2
        committerName committerEmail commitMessage in
    exists (text signature : string) (w' : world),
      JSON.stringify payload = Some text
      /\ JSON.parse text = Some payload
      /\ GithubTestClient.generateSignature payload (GithubTestClient.secretKey client)
         = Ok signature
      /\ signature
         = "sha256=" ++ HMAC.hmac_sha256_hex (GithubTestClient.secretKey client) text
      /\ GithubController.handleGithubWebhook server x
           (GithubController.Request (Some "push") (Some signature) payload) w
         = (Ok (Response 200
                  (VObj [("success", VBool true);
                         ("message", VStr "Successfully processed push event")])),
            w')
      /\ file_content GithubController.COMMITS_LOG_FILE (files (fs w'))
         = Some (content_of GithubController.COMMITS_LOG_FILE (fs w)
                 ++ client_push_entry (clock x (trace w)) random1 random2
                      committerName committerEmail commitMessage).
Proof.
  intros client server x now random1 random2 committerName committerEmail commitMessage w
    Hkeys Hrw Havail payload.
  destruct (sample_payload_parses_back now random1 random2 committerName committerEmail
              commitMessage) as (text & Htext & Hbody).
  cbv zeta in Htext, Hbody. fold payload in Htext, Hbody.
  assert (Hsigned : GithubController.signed_text payload = Ok text)
    by (unfold GithubController.signed_text; now rewrite Htext).
  exists text, ("sha256=" ++ HMAC.hmac_sha256_hex (GithubTestClient.secretKey client) text).
  unfold GithubTestClient.generateSignature. rewrite Hsigned. cbn [bind].
  rewrite (handleGithubWebhook_accepted server x "push" _ payload w ltac:(discriminate)
             (keys_agree_accepted client server payload text Hkeys Htext)).
  change (String.eqb "push" "push") with true. cbv iota.
  unfold payload at 3, GithubTestClient.generateSamplePushPayload at 1. cbv zeta.
  match goal with
  | |- context [GithubController.handlePushEvent server x (VObj ?ps) w] =>
      match eval cbn in (lookup "commits" ps) with
      | Some (VArr (?c :: ?cs)) =>
          rewrite (handlePushEvent_commits server x ps c cs w eq_refl)
      end
  end.
  fold (GithubTestClient.generateSamplePushPayload now random1 random2
          committerName committerEmail commitMessage). fold payload.
  pose proof (sample_push_entry_text x (trace w) now random1 random2 committerName
                committerEmail commitMessage) as Hentry.
  fold payload in Hentry.
  match goal with
  | |- context [GithubController.format_push ?p ?r ?c ?u ?b ?n] =>
      change (GithubController.format_push p r c u b n)
        with (GithubController.format_push payload (field payload "repository")
                (field payload "commits") (field payload "pusher")
                (field payload "before") (clock x (trace w)))
  end.
  rewrite Hentry.
  rewrite (appendToCommitLog_writable _ w Hrw Havail).
  match goal with
  | |- context [GithubController.syncToGoogleDocs server x ?entry ?w1] =>
      destruct (syncToGoogleDocs_run server x entry w1) as (s' & requests & -> & _)
  end.
  eexists. split; [exact Htext |]. split; [exact Hbody |].
  split; [reflexivity |]. split; [reflexivity |]. split; [reflexivity |].
  cbn [fs files]. apply file_content_append_to.
Qed.

Lemma test_client_push_is_accepted_and_logged_witness :
  exists (text signature : string) (w' : world),
    JSON.stringify
      (GithubTestClient.generateSamplePushPayload "2024-01-01T00:00:00.000Z"
         [1%Z; 2%Z] [3%Z; 4%Z] "Ann" "ann@example.com" "Fix typo") = Some text
    /\ JSON.parse text
       = Some (GithubTestClient.generateSamplePushPayload "2024-01-01T00:00:00.000Z"
                 [1%Z; 2%Z] [3%Z; 4%Z] "Ann" "ann@example.com" "Fix typo")
    /\ GithubTestClient.generateSignature
         (GithubTestClient.generateSamplePushPayload "2024-01-01T00:00:00.000Z"
            [1%Z; 2%Z] [3%Z; 4%Z] "Ann" "ann@example.com" "Fix typo")
         (GithubTestClient.secretKey no_secret) = Ok signature
    /\ signature
       = "sha256=" ++ HMAC.hmac_sha256_hex (GithubTestClient.secretKey no_secret) text
    /\ GithubController.handleGithubWebhook (Env (Some "test-secret") None None None) quiet
         (GithubController.Request (Some "push") (Some signature)
            (GithubTestClient.generateSamplePushPayload "2024-01-01T00:00:00.000Z"
               [1%Z; 2%Z] [3%Z; 4%Z] "Ann" "ann@example.com" "Fix typo")) fresh
       = (Ok (Response 200
                (VObj [("success", VBool true);
                       ("message", VStr "Successfully processed push event")])),
          w')
    /\ file_content GithubController.COMMITS_LOG_FILE (files (fs w'))
       = Some (content_of GithubController.COMMITS_LOG_FILE (fs fresh)
               ++ client_push_entry (clock quiet (trace fresh)) [1%Z; 2%Z] [3%Z; 4%Z]
                    "Ann" "ann@example.com" "Fix typo").
Proof.
  apply (test_client_push_is_accepted_and_logged no_secret
           (Env (Some "test-secret") None None None) quiet "2024-01-01T00:00:00.000Z"
           [1%Z; 2%Z] [3%Z; 4%Z] "Ann" "ann@example.com" "Fix typo" fresh).
  - right. reflexivity.
  - reflexivity.
  - right. reflexivity.
Defined.

(** ** The webhook test client against the route *)

Lemma temperature_reads_back : reads_back (VNum (Finite false 7 (-1))).
Proof.
  intros fuel rest Hfuel (c & r & -> & [-> | ->]);
    (destruct fuel as [| f]; [cbn in Hfuel; lia |]); reflexivity.
Qed.

Lemma max_tokens_reads_back : reads_back (VNum (Finite false 500 0)).
Proof.
  intros fuel rest Hfuel (c & r & -> & [-> | ->]);
    (destruct fuel as [| f]; [cbn in Hfuel; lia |]); reflexivity.
Qed.

Lemma webhook_payload_parses_back (prompt model : string) :
  (App.limit
   <? N.of_nat (String.length
                  (Axios.request_body (WebhookTestClient.payload prompt model))))%N = false ->
  App.express_json (Axios.request_body (WebhookTestClient.payload prompt model))
  = App.Body (WebhookTestClient.payload prompt model).
Proof.
  intros Hsize. unfold App.express_json at 1. rewrite Hsize.
  set (payload := WebhookTestClient.payload prompt model).
  change (Axios.request_body payload) with (JSON.ser "" "" payload).
  assert (Hparse : forall fuel, need payload <= fuel ->
            JSON.parse_value fuel (JSON.ser "" "" payload) = Some (payload, "")).
  { intros fuel Hfuel.
    rewrite <- (append_empty_r (JSON.ser "" "" payload)).
    unfold payload, WebhookTestClient.payload in *.
    rewrite object_parses_back;
      [reflexivity | discriminate | | distinct_keys | plain_keys | exact Hfuel].
    cbn [members filter snd is_undefined negb].
    repeat (apply Forall_cons; [cbn [snd] |]); try apply Forall_nil;
      try (solve [apply plain_reads_back; plain_value]).
    apply object_reads_back; [discriminate | | distinct_keys | plain_keys].
    cbn [members filter snd is_undefined negb].
    repeat (apply Forall_cons; [cbn [snd] |]); try apply Forall_nil;
      try (solve [apply plain_reads_back; plain_value]).
    - apply temperature_reads_back.
    - apply max_tokens_reads_back. }
  assert (Hlen : need payload <= String.length (JSON.ser "" "" payload)).
  { unfold payload, WebhookTestClient.payload.
    apply object_sized. cbn [members filter snd is_undefined negb].
    repeat (apply Forall_cons; [cbn [snd] |]); try apply Forall_nil;
      try (solve [apply need_le_length; plain_value]).
    apply object_sized. cbn [members filter snd is_undefined negb].
    repeat (apply Forall_cons; [cbn [snd] |]); try apply Forall_nil;
      try (solve [apply need_le_length; plain_value]);
      vm_compute; lia. }
  unfold JSON.parse.
  rewrite (Hparse (S (String.length (JSON.ser "" "" payload)))) by lia.
  assert (Hopen : exists t, JSON.ser "" "" payload = String "{" t).
  { unfold payload, WebhookTestClient.payload.
    rewrite ser_obj. cbn [members filter snd is_undefined negb map].
    rewrite wrap_cons. cbn [String.append]. eauto. }
  destruct Hopen as [t Ht]. rewrite Ht.
  rewrite (peek_char "{" t eq_refl). reflexivity.
Qed.

Lemma client_data_request (prompt model : string) :
  WebhookController.completion_request
    (VObj [("prompt", VStr prompt); ("model", VStr model);
           ("temperature", VNum (Finite false 7 (-1)));
           ("max_tokens", VNum (Finite false 500 0))])
  = Ok (client_request prompt model).
Proof.
  unfold WebhookController.completion_request, client_request, or_else.
  cbn [get lookup String.eqb Ascii.eqb Bool.eqb bind truthy].
  destruct (String.eqb prompt ""), (String.eqb model ""); reflexivity.
Qed.

Lemma client_view_received (prompt text model : string) :
  Axios.response_data
    (VObj [("success", VBool true);
           ("message", VStr "Webhook processed successfully");
           ("data", content_response (client_request prompt model)
                      (Completion (VStr text) None))])
  = client_view text model
  /\ WebhookTestClient.report (client_view text model) = Ok tt.
Proof.
  unfold client_view, content_response, client_request, WebhookController.usage_field,
    WebhookController.default_model, or_else.
  cbn [req_model content usage_of truthy].
  split; [| destruct (negb (String.eqb model "")); reflexivity].
  unfold Axios.response_data. cbn [JSON.stringify].
  match goal with
  | |- context [JSON.parse (JSON.ser "" "" ?v)] =>
      rewrite <- (append_empty_r (JSON.ser "" "" v));
      rewrite (parse_ser v "" "")
  end.
  - destruct (negb (String.eqb model "")); reflexivity.
  - destruct (negb (String.eqb model "")); plain_value.
  - reflexivity.
  - reflexivity.
Qed.

(** X30. The webhook test client against the generic webhook route,
    behind the body parser.  With an API key configured on the server,
    for every prompt and model the client's call returns normally.  When
    the request body is longer than the parser's limit of 100kb the
    parser refuses it, no chat request is sent and the client gets
    [null].  Otherwise the server sends exactly one chat request, which
    carries the client's model and prompt (the server's defaults when
    they are empty) and the temperature 0.7 and the max_tokens 500 as the
    client wrote them; when the API returns a text without usage the
    client gets the data of the 200 response, in which the token counts
    are absent, and when the API call fails the client gets [null]. *)
Theorem webhook_client_options_arrive :
  forall (server : env) (x : externals) (prompt : string) (model : option string)
         (w : world),
    present (OPENAI_API_KEY server) = true ->
    let m := match model with Some m => m | None => WebhookTestClient.defaultModel end in
    let sent := Axios.request_body (WebhookTestClient.payload prompt m) in
    if (App.limit <? N.of_nat (String.length sent))%N
    then WebhookTestClient.sendWebhookRequest (Routes.post_webhook server x) prompt model w
         = (Ok None, w)
    else
      exists result : option value,
        WebhookTestClient.sendWebhookRequest (Routes.post_webhook server x) prompt model w
        = (Ok result,
           World (fs w) (sync w)
                 (trace w ++ [ChatCompletionsCreate (client_request prompt m)])%list)
        /\ (forall text,
              chat_completions_create x (trace w) (client_request prompt m)
                = Ok (Completion (VStr text) None) ->
              result = Some (client_view text m))
        /\ (forall error,
              chat_completions_create x (trace w) (client_request prompt m) = Throw error ->
              result = None).
Proof.
  intros server x prompt model w Hkey m sent.
  unfold WebhookTestClient.sendWebhookRequest. fold m. cbv zeta.
  destruct (App.limit <? N.of_nat (String.length sent))%N eqn:Hsize.
  { unfold try_catch, mbind, Routes.post_webhook, App.express_json.
    fold sent. rewrite Hsize. reflexivity. }
  unfold try_catch at 1. unfold mbind at 1. unfold Routes.post_webhook.
  rewrite (webhook_payload_parses_back prompt m Hsize).
  unfold mbind at 1.
  rewrite (handleWebhook_content_request server x (WebhookTestClient.payload prompt m)
             (VObj [("prompt", VStr prompt); ("model", VStr m);
                    ("temperature", VNum (Finite false 7 (-1)));
                    ("max_tokens", VNum (Finite false 500 0))]) w eq_refl eq_refl).
  rewrite (processContentRequest_run server x _ w Hkey), client_data_request. cbv zeta.
  destruct (chat_completions_create x (trace w) (client_request prompt m)) as [c | err] eqn:Hc.
  - unfold ret at 1. unfold mbind at 1. unfold lift at 1.
    match goal with
    | |- context [Axios.settle (App.Handled (Response 200 ?b))] =>
        change (Axios.settle (App.Handled (Response 200 b)))
          with (@Ok value (Axios.response_data b));
        set (data := Axios.response_data b)
    end.
    cbv beta iota. unfold mbind, lift, ret.
    destruct (WebhookTestClient.report data) as [[] | err] eqn:Hr.
    + exists (Some data). split; [reflexivity |]. split; [| discriminate].
      intros text E. inversion E; subst c. f_equal.
      apply (proj1 (client_view_received prompt text m)).
    + exists None. split; [reflexivity |]. split; [| discriminate].
      intros text E. inversion E; subst c. exfalso.
      unfold data in Hr. rewrite (proj1 (client_view_received prompt text m)) in Hr.
      rewrite (proj2 (client_view_received prompt text m)) in Hr. discriminate.
  - unfold ret at 1. unfold mbind at 1. unfold lift at 1.
    exists None. split; [reflexivity |]. split; [discriminate | reflexivity].
Qed.

Lemma webhook_client_options_arrive_witness :
  exists result : option value,
    WebhookTestClient.sendWebhookRequest (Routes.post_webhook with_api_key quiet) "" None fresh
    = (Ok result,
       World (fs fresh) (sync fresh)
             (trace fresh
                ++ [ChatCompletionsCreate
                      (client_request "" WebhookTestClient.defaultModel)])%list)
    /\ (forall text,
          chat_completions_create quiet (trace fresh)
            (client_request "" WebhookTestClient.defaultModel)
            = Ok (Completion (VStr text) None) ->
          result = Some (client_view text WebhookTestClient.defaultModel))
    /\ (forall error,
          chat_completions_create quiet (trace fresh)
            (client_request "" WebhookTestClient.defaultModel) = Throw error ->
          result = None).
Proof.
  exact (webhook_client_options_arrive with_api_key quiet "" None fresh eq_refl).
Defined.
